(** * XBRL converter suite: parsers, taxonomy matching, document generation
    and job retry, embedded from the TypeScript sources.

    Part I holds the embedding, one module per source file:
    - [JS], [JSDate]: the fragment of the JavaScript runtime the sources
      rely on (strings, [parseFloat], exceptions, [Date]);
    - [Types]: src/lib/parsers/types.ts;
    - [BaseParser], [CsvParser], [XbrlParser], [ParserFactory]:
      src/lib/parsers;
    - [TaxonomyMappingService], [XBRLGenerator], [JobQueueService],
      [ConversionService]: src/lib/services;
    - [Spec]: the notions of the specification that the statements use;
    - [Notions]: further notions of the statements;
    - [Examples]: concrete inputs.
    Part II states and proves the properties, component by component.

    Modelling conventions.
    - A JavaScript string is a Rocq [string]; a character stands for the
      code unit of the same number (U+0000 to U+00FF).
    - A JavaScript number is its exact value, a rational ([Q]); the rounding
      of IEEE doubles is outside the model, and so are the digits that the
      runtime prints for a number.
    - Code that may throw returns an [Outcome]; [try]/[catch] is [tryCatch].
    - Promises are awaited in program order, so [async] functions are
      ordinary functions.
    - Database tables are lists of rows in storage order; a query without
      [orderBy] returns rows in that order.  Identifiers are texts of
      uuids, and queries do not fail.
    - Libraries outside the repository (papaparse, xmlbuilder2, the regular
      expression engine, the clock) are fields of a [Host] record. *)

From Stdlib Require Import ZArith QArith Qround Qminmax Qabs String Ascii List Bool Lia DecimalString.
From stdpp Require Import gmap strings list.
From Equations Require Import Equations.
Import ListNotations.

Local Open Scope Z_scope.

(* ===================================================================== *)
(** * Part I.  The embedding                                              *)
(* ===================================================================== *)

(** ** The JavaScript runtime fragment *)

Module JS.

(** *** Characters and strings *)

Definition code (c : ascii) : Z := Z.of_N (N_of_ascii c).
Definition chars (s : string) : list ascii := list_ascii_of_string s.
Definition str (l : list ascii) : string := string_of_list_ascii l.
Definition strlen (s : string) : Z := Z.of_nat (String.length s).

Definition between (lo hi : Z) (c : ascii) : bool :=
  (lo <=? code c) && (code c <=? hi).

(** The class [\s] restricted to the represented code units. *)
Definition isWhiteSpace (c : ascii) : bool :=
  between 9 13 c || (code c =? 32) || (code c =? 160).

Definition isDigit (c : ascii) : bool := between 48 57 c.

(** The class [[a-zA-Z0-9]]. *)
Definition isAlnum (c : ascii) : bool :=
  between 97 122 c || between 65 90 c || isDigit c.

Definition lowerChar (c : ascii) : ascii :=
  if between 65 90 c || (between 192 222 c && negb (code c =? 215))
  then ascii_of_N (Z.to_N (code c + 32))
  else c.

Definition toLowerCase (s : string) : string := str (map lowerChar (chars s)).

Fixpoint isPrefix (p s : list ascii) : bool :=
  match p, s with
  | [], _ => true
  | a :: p', b :: s' => Ascii.eqb a b && isPrefix p' s'
  | _ :: _, [] => false
  end.

Fixpoint containsAt (s sub : list ascii) : bool :=
  isPrefix sub s ||
  match s with
  | [] => false
  | _ :: s' => containsAt s' sub
  end.

Definition startsWith (s p : string) : bool := isPrefix (chars p) (chars s).
Definition endsWith (s p : string) : bool :=
  isPrefix (rev (chars p)) (rev (chars s)).
Definition includes (s sub : string) : bool := containsAt (chars s) (chars sub).

Fixpoint dropWhile (p : ascii -> bool) (l : list ascii) : list ascii :=
  match l with
  | [] => []
  | c :: r => if p c then dropWhile p r else l
  end.

Fixpoint span (p : ascii -> bool) (l : list ascii) : list ascii * list ascii :=
  match l with
  | [] => ([], [])
  | c :: r =>
      if p c then let '(a, b) := span p r in (c :: a, b) else ([], l)
  end.

Definition trim (s : string) : string :=
  str (rev (dropWhile isWhiteSpace (rev (dropWhile isWhiteSpace (chars s))))).

(** [s.slice(1, -1)] *)
Definition slice_1_m1 (s : string) : string := str (removelast (tl (chars s))).

(** [s.replace(/[...]/g, '')] for a character class given as a predicate. *)
Definition removeAll (cls : ascii -> bool) (s : string) : string :=
  str (List.filter (fun c => negb (cls c)) (chars s)).

(** [s.split(/\s+/)]: the pieces between maximal runs of white space; a
    run at either end leaves an empty piece there, and the empty string
    splits into one empty piece. *)
Fixpoint splitWsFrom (cur : list ascii) (inRun : bool) (l : list ascii)
  : list string :=
  match l with
  | [] => [str (rev cur)]
  | c :: r =>
      if isWhiteSpace c
      then if inRun then splitWsFrom [] true r
           else str (rev cur) :: splitWsFrom [] true r
      else splitWsFrom (c :: cur) false r
  end.

Definition splitWhitespace (s : string) : list string :=
  splitWsFrom [] false (chars s).

(** [n.toString()] for an integer. *)
Definition intToString (z : Z) : string := NilZero.string_of_int (Z.to_int z).

(** *** Numbers *)

Inductive Number :=
| Finite (q : Q)
| Infinity (negative : bool)
| NaN.

Definition isNaN (n : Number) : bool :=
  match n with NaN => true | _ => false end.

Definition negate (n : Number) : Number :=
  match n with
  | Finite q => Finite (Qred (Qopp q))
  | Infinity b => Infinity (negb b)
  | NaN => NaN
  end.

Definition ofZ (z : Z) : Number := Finite (inject_Z z).

Definition digitsValue (ds : list ascii) : Z :=
  fold_left (fun acc c => 10 * acc + (code c - 48)) ds 0.

Definition parseExponent (rest : list ascii) : Z :=
  match rest with
  | c :: r =>
      if Ascii.eqb c "e"%char || Ascii.eqb c "E"%char then
        let '(sgn, r') :=
          match r with
          | "+"%char :: r' => (1, r')
          | "-"%char :: r' => (-1, r')
          | _ => (1, r)
          end in
        match fst (span isDigit r') with
        | [] => 0
        | ds => sgn * digitsValue ds
        end
      else 0
  | [] => 0
  end.

(** [parseFloat]: the longest prefix that is a decimal literal, after
    leading white space; [NaN] when there is none. *)
Definition parseFloat (s : string) : Number :=
  let cs := dropWhile isWhiteSpace (chars s) in
  let '(negative, cs1) :=
    match cs with
    | "-"%char :: r => (true, r)
    | "+"%char :: r => (false, r)
    | _ => (false, cs)
    end in
  if isPrefix (chars "Infinity") cs1 then Infinity negative else
  let '(ip, r1) := span isDigit cs1 in
  let '(fp, r2) :=
    match r1 with
    | "."%char :: r => span isDigit r
    | _ => ([], r1)
    end in
  match ip ++ fp with
  | [] => NaN
  | ds =>
      let e := parseExponent r2 - Z.of_nat (length fp) in
      let m := digitsValue ds in
      let q := if 0 <=? e then inject_Z (m * 10 ^ e)
               else Qmake m (Z.to_pos (10 ^ (- e))) in
      Finite (Qred (if negative then Qopp q else q))
  end.

(** [Math.round]: the nearest integer, halves towards plus infinity. *)
Definition mathRound (q : Q) : Z := Qfloor (q + (1 # 2))%Q.

(** *** Values of type [any] *)

Inductive Value :=
| VUndefined
| VNull
| VBool (b : bool)
| VNum (n : Number)
| VStr (s : string)
| VArray (elements : list string).   (* an array of strings *)

(** *** Exceptions *)

Inductive Error :=
| ErrorObject (message : string)   (* an instance of Error *)
| ThrownValue.                     (* any other thrown value *)

Inductive Outcome (A : Type) :=
| Return (a : A)
| Throw (e : Error).
Arguments Return {A} a.
Arguments Throw {A} e.

Definition bind {A B} (m : Outcome A) (k : A -> Outcome B) : Outcome B :=
  match m with
  | Return a => k a
  | Throw e => Throw e
  end.

Definition tryCatch {A} (body : Outcome A) (handler : Error -> Outcome A)
  : Outcome A :=
  match body with
  | Return a => Return a
  | Throw e => handler e
  end.

(** [error instanceof Error ? error.message : 'Unknown error'] *)
Definition messageOf (e : Error) : string :=
  match e with
  | ErrorObject m => m
  | ThrownValue => "Unknown error"%string
  end.

End JS.

Notation "'let?' x ':=' m 'in' k" := (JS.bind m (fun x => k))
(at level 10, x name, m at level 100, k at level 200).

(** ** Dates

  A [Date] holds a time value, the milliseconds since the epoch, or is
  invalid.  The local time zone of the host is taken to be UTC, so the
  local-time accessors agree with the UTC ones. *)

Module JSDate.

Inductive Date :=
| Time (t : Z)
| Invalid.

Definition msPerDay : Z := 86400000.
Definition maxTime : Z := 8640000000000000.

Definition timeClip (t : Z) : Date :=
  if Z.abs t <=? maxTime then Time t else Invalid.

(** Day number to (year, month 0..11, day of month). *)
Definition civilFromDays (z : Z) : Z * Z * Z :=
  let z := z + 719468 in
  let era := z / 146097 in
  let doe := z - era * 146097 in
  let yoe := (doe - doe / 1460 + doe / 36524 - doe / 146096) / 365 in
  let doy := doe - (365 * yoe + yoe / 4 - yoe / 100) in
  let mp := (5 * doy + 2) / 153 in
  let d := doy - (153 * mp + 2) / 5 + 1 in
  let m := if mp <? 10 then mp + 3 else mp - 9 in
  let y := yoe + era * 400 in
  (if m <=? 2 then y + 1 else y, m - 1, d).

(** [MakeDay(year, month, date)]: the month may lie outside 0..11 and the
    date outside the month; both carry over. *)
Definition makeDay (year month date : Z) : Z :=
  let y0 := year + month / 12 in
  let m := month mod 12 + 1 in
  let y := if m <=? 2 then y0 - 1 else y0 in
  let era := y / 400 in
  let yoe := y - era * 400 in
  let mp := (m + 9) mod 12 in
  let doy := (153 * mp + 2) / 5 in
  let doe := yoe * 365 + yoe / 4 - yoe / 100 + doy in
  era * 146097 + doe - 719468 + (date - 1).

Definition dayOf (t : Z) : Z := t / msPerDay.
Definition timeWithinDay (t : Z) : Z := t mod msPerDay.

Definition yearFromTime (t : Z) : Z := fst (fst (civilFromDays (dayOf t))).
Definition monthFromTime (t : Z) : Z := snd (fst (civilFromDays (dayOf t))).
Definition dateFromTime (t : Z) : Z := snd (civilFromDays (dayOf t)).

(** [new Date(year, monthIndex, day)]; years 0..99 mean 1900..1999. *)
Definition ofYMD (year month date : Z) : Date :=
  let y := if (0 <=? year) && (year <=? 99) then 1900 + year else year in
  timeClip (makeDay y month date * msPerDay).

(** [d.setFullYear(d.getFullYear() + dy)] *)
Definition addFullYears (dy : Z) (d : Date) : Date :=
  match d with
  | Invalid => Invalid
  | Time t =>
      timeClip (makeDay (yearFromTime t + dy) (monthFromTime t) (dateFromTime t)
                * msPerDay + timeWithinDay t)
  end.

(** [d.setDate(d.getDate() + dd)] *)
Definition addDate (dd : Z) (d : Date) : Date :=
  match d with
  | Invalid => Invalid
  | Time t =>
      timeClip (makeDay (yearFromTime t) (monthFromTime t) (dateFromTime t + dd)
                * msPerDay + timeWithinDay t)
  end.

(** [d.getFullYear()]; [None] stands for NaN. *)
Definition getFullYear (d : Date) : option Z :=
  match d with
  | Invalid => None
  | Time t => Some (yearFromTime t)
  end.

Fixpoint padDigits (width : nat) (z : Z) : list ascii :=
  match width with
  | O => []
  | S w => padDigits w (z / 10) ++ [ascii_of_N (Z.to_N (48 + z mod 10))]
  end.

Definition pad (width : nat) (z : Z) : string := JS.str (padDigits width z).

Definition isoYear (y : Z) : string :=
  if (0 <=? y) && (y <=? 9999) then pad 4 y
  else String (if y <? 0 then "-"%char else "+"%char) (pad 6 (Z.abs y)).

(** [d.toISOString().split('T')[0]]; [toISOString] throws a RangeError on
    an invalid date. *)
Definition isoDate (d : Date) : JS.Outcome string :=
  match d with
  | Invalid => JS.Throw (JS.ErrorObject "Invalid time value")
  | Time t =>
      let '(y, m, dd) := civilFromDays (dayOf t) in
      JS.Return (isoYear y ++ "-" ++ pad 2 (m + 1) ++ "-" ++ pad 2 dd)%string
  end.

End JSDate.

(** ** The canonical data model (src/lib/parsers/types.ts) *)

Module Types.

(** [REPORT_TYPES]; a statement's [type] is one of these strings at run
    time. *)
Inductive ReportType :=
| balance_sheet
| income_statement
| cash_flow
| equity_statement
| comprehensive
| unknown.

Definition reportTypeName (t : ReportType) : string :=
  match t with
  | balance_sheet => "balance_sheet"
  | income_statement => "income_statement"
  | cash_flow => "cash_flow"
  | equity_statement => "equity_statement"
  | comprehensive => "comprehensive"
  | unknown => "unknown"
  end.

Record TaxonomyMatch := {
  xbrlTag : string;
  taxonomyFramework : string;
  confidence : Z;
  mappingMethod : string;
  synonyms : option (list string)
}.

(** A number produced by [parseInt]. *)
Inductive IntOrNaN :=
| Int (z : Z)
| NotANumber.

Record FinancialItem := {
  concept : string;
  value : JS.Value;
  unit : string;
  decimals : option IntOrNaN;
  isNil : option bool;
  sourceReference : option string;
  itemConfidence : option Z;
  taxonomyMatch : option TaxonomyMatch
}.

Record StatementMetadata := {
  framework : string;
  auditStatus : option string;
  consolidationLevel : option string
}.

Record FinancialStatement := {
  type : ReportType;
  periodEndDate : JSDate.Date;
  fiscalYear : Z;
  fiscalQuarter : option Z;
  items : list FinancialItem;
  metadata : option StatementMetadata
}.

(** An entry as the parsers push it onto [warnings] or [errors]. *)
Record RawEntry := {
  rawCode : option string;
  rawMessage : option string;
  rawSeverity : option string;
  rawRow : option Z
}.

(** [ProcessingWarning] and [ProcessingError] after formatting. *)
Record Entry := {
  code : string;
  message : string;
  severity : string;
  source : string
}.

Record ProcessingMetadata := {
  parserVersion : string;
  warnings : list Entry;
  errors : list Entry;
  aiAssisted : bool
}.

Record DocumentInfo := {
  fileName : string;
  fileType : string;
  originalName : string;
  fileSize : Z;
  currency : string;
  reportType : ReportType;
  companyName : option string
}.

Record FinancialData := {
  documentInfo : DocumentInfo;
  financialStatements : list FinancialStatement;
  processing : ProcessingMetadata
}.

End Types.

(** ** src/lib/parsers/BaseParser.ts *)

Module BaseParser.
Import Types.

(** [x || d] for an optional string: undefined and the empty string are
    both falsy. *)
Definition orDefault (x : option string) (d : string) : string :=
  match x with
  | Some s => if String.eqb s "" then d else s
  | None => d
  end.

Definition formatWarnings (className : string) (ws : list RawEntry) : list Entry :=
  map (fun warning =>
         {| code := orDefault (rawCode warning) "UNKNOWN_WARNING";
            message := orDefault (rawMessage warning) "Unknown warning occurred";
            severity := orDefault (rawSeverity warning) "medium";
            source := className |}) ws.

Definition formatErrors (className : string) (es : list RawEntry) : list Entry :=
  map (fun error =>
         {| code := orDefault (rawCode error) "UNKNOWN_ERROR";
            message := orDefault (rawMessage error) "Unknown error occurred";
            severity := orDefault (rawSeverity error) "error";
            source := className |}) es.

(** The fields [processedAt] and [processingTime] read the wall clock and
    are left out. *)
Definition createProcessingMetadata (version className : string)
    (ws es : list RawEntry) : ProcessingMetadata :=
  {| parserVersion := version;
     warnings := formatWarnings className ws;
     errors := formatErrors className es;
     aiAssisted := false |}.

(** The character class [[$,()%\s]]. *)
Definition isFormatting (c : ascii) : bool :=
  Ascii.eqb c "$" || Ascii.eqb c "," || Ascii.eqb c "(" || Ascii.eqb c ")"
  || Ascii.eqb c "%" || JS.isWhiteSpace c.

Definition sanitizeValue (value : JS.Value) : JS.Value :=
  match value with
  | JS.VNull | JS.VUndefined => JS.VNull
  | JS.VStr s =>
      if String.eqb s "" then JS.VNull else
      (* Remove common formatting characters *)
      let cleanValue := JS.removeAll isFormatting s in
      (* Handle parentheses for negative numbers *)
      if JS.startsWith cleanValue "(" && JS.endsWith cleanValue ")" then
        let numericValue := JS.parseFloat (JS.slice_1_m1 cleanValue) in
        if JS.isNaN numericValue then value else JS.VNum (JS.negate numericValue)
      else
      (* Try to parse as number *)
      let numericValue := JS.parseFloat cleanValue in
      if negb (JS.isNaN numericValue) then JS.VNum numericValue else
      (* Handle boolean values *)
      if String.eqb (JS.toLowerCase cleanValue) "true" then JS.VBool true else
      if String.eqb (JS.toLowerCase cleanValue) "false" then JS.VBool false else
      (* Return cleaned string *)
      JS.VStr cleanValue
  | _ => value
  end.

Definition generateSourceReference (identifier : string)
    (row column : option Z) : string :=
  let parts :=
    [identifier]
    ++ match row with Some r => [("row:" ++ JS.intToString r)%string] | None => [] end
    ++ match column with Some c => [("col:" ++ JS.intToString c)%string] | None => [] end in
  String.concat "_" parts.

End BaseParser.

(** ** src/lib/parsers/CsvParser.ts *)

Module CsvParser.
Import Types.

(** A field of a parsed row.  With [header: true] the value of a field is
    the (trimmed) text of the cell; the cells that a row has beyond the
    header are collected in an array, the field [__parsed_extra]. *)
Inductive Cell :=
| CellText (text : string)
| CellArray (texts : list string).

Definition cellValue (cell : Cell) : JS.Value :=
  match cell with
  | CellText text => JS.VStr text
  | CellArray texts => JS.VArray texts
  end.

(** A parsed row: the fields of the row object as [Object.entries] and
    [Object.keys] list them, that is the keys that are array indices
    first, in ascending order, then the other keys in the order in which
    papaparse created them. *)
Definition Row : Type := list (string * Cell).

Record PapaError := {
  papaMessage : string;
  papaRow : option Z
}.

Record ParseResult := {
  data : list Row;
  papaErrors : list PapaError
}.

(** What the parser takes from its host: the decoding of the buffer, the
    papaparse library (its promise resolves with the result or rejects),
    the [Date] constructor on a string, and the current time.  The
    errors of papaparse are those of its result, in order, each with its
    message and, when it has one, its row. *)
Record Host := {
  utf8 : list Byte.byte -> string;
  papaParse : string -> JS.Outcome ParseResult;
  dateOfString : string -> JSDate.Date;
  now : JSDate.Date
}.

Definition parserVersion : string := "1.0.0".
Definition className : string := "CsvParser".

Definition balanceSheetKeywords : list string :=
  ["assets"; "liabilities"; "equity"; "cash"; "receivables";
   "payables"; "inventory"; "property"; "plant"; "equipment"].

Definition incomeKeywords : list string :=
  ["revenue"; "sales"; "income"; "expenses"; "cost"; "gross profit";
   "operating income"; "net income"; "earnings"].

Definition cashFlowKeywords : list string :=
  ["cash flow"; "operating activities"; "investing activities";
   "financing activities"; "cash from"; "cash used"].

Definition keywordScore (text : string) (keywords : list string) : nat :=
  length (List.filter (fun kw => JS.includes text kw) keywords).

Definition detectReportType (rows : list Row) : ReportType :=
  match rows with
  | [] => unknown
  | first :: _ =>
      let headers := map (fun kv => JS.toLowerCase (fst kv)) first in
      let allHeaders := JS.toLowerCase (String.concat " " headers) in
      let balanceSheetScore := keywordScore allHeaders balanceSheetKeywords in
      let incomeScore := keywordScore allHeaders incomeKeywords in
      let cashFlowScore := keywordScore allHeaders cashFlowKeywords in
      if (incomeScore <=? balanceSheetScore)%nat && (cashFlowScore <=? balanceSheetScore)%nat
      then balance_sheet
      else if (cashFlowScore <=? incomeScore)%nat then income_statement
      else if (0 <? cashFlowScore)%nat then cash_flow
      else unknown
  end.

(** [JSON.stringify] on an array of row objects. *)
Definition hexDigit (n : Z) : ascii :=
  ascii_of_N (Z.to_N (if n <? 10 then 48 + n else 87 + n)).

Definition quote : ascii := ascii_of_nat 34.

Definition jsonEscape (c : ascii) : list ascii :=
  let bs := "\"%char in
  if Ascii.eqb c quote then [bs; quote]
  else if Ascii.eqb c bs then [bs; bs]
  else if JS.code c =? 8 then [bs; "b"%char]
  else if JS.code c =? 12 then [bs; "f"%char]
  else if JS.code c =? 10 then [bs; "n"%char]
  else if JS.code c =? 13 then [bs; "r"%char]
  else if JS.code c =? 9 then [bs; "t"%char]
  else if JS.code c <? 32
       then [bs; "u"%char; "0"%char; "0"%char;
             hexDigit (JS.code c / 16); hexDigit (JS.code c mod 16)]
  else [c].

Definition jsonString (s : string) : string :=
  JS.str ([quote] ++ flat_map jsonEscape (JS.chars s) ++ [quote]).

Definition jsonCell (cell : Cell) : string :=
  match cell with
  | CellText text => jsonString text
  | CellArray texts => ("[" ++ String.concat "," (map jsonString texts) ++ "]")%string
  end.

Definition jsonRow (r : Row) : string :=
  ("{" ++ String.concat ","
            (map (fun kv => jsonString (fst kv) ++ ":" ++ jsonCell (snd kv)) r)
       ++ "}")%string.

Definition jsonRows (rows : list Row) : string :=
  ("[" ++ String.concat "," (map jsonRow rows) ++ "]")%string.

(** The euro sign lies outside the represented code units, so the test
    for it never succeeds here. *)
Definition detectCurrencyFromData (rows : list Row) : string :=
  let sampleData := firstn 5 rows in
  let allText := JS.toLowerCase (jsonRows sampleData) in
  if JS.includes allText "$" || JS.includes allText "usd" then "USD"
  else if JS.includes allText "eur" then "EUR"
  else if JS.includes allText (String (ascii_of_nat 163) "") || JS.includes allText "gbp"
       then "GBP"
  else "USD".

Definition dateFields : list string :=
  ["date"; "period"; "asof"; "enddate"; "reportdate"].

(** [value] as a condition: a text that is not empty, or any array. *)
Definition cellTruthy (cell : Cell) : bool :=
  match cell with
  | CellText text => negb (String.eqb text "")
  | CellArray _ => true
  end.

(** [new Date(value)]: an array is first turned into the text of its
    elements joined by commas. *)
Definition dateOfCell (h : Host) (cell : Cell) : JSDate.Date :=
  match cell with
  | CellText text => dateOfString h text
  | CellArray texts => dateOfString h (String.concat "," texts)
  end.

Definition dateOfField (h : Host) (kv : string * Cell) : option JSDate.Date :=
  let keyLower := JS.toLowerCase (fst kv) in
  if existsb (fun field => JS.includes keyLower field) dateFields
     && cellTruthy (snd kv)
  then match dateOfCell h (snd kv) with
       | JSDate.Time t => Some (JSDate.Time t)
       | JSDate.Invalid => None
       end
  else None.

Fixpoint firstSome {A B} (f : A -> option B) (l : list A) : option B :=
  match l with
  | [] => None
  | a :: r => match f a with Some b => Some b | None => firstSome f r end
  end.

Definition extractDateFromData (h : Host) (rows : list Row) : option JSDate.Date :=
  firstSome (fun row => firstSome (dateOfField h) row) rows.

(** The [try] block of [createFinancialItem] contains no operation that
    can throw on a string or on an array of strings, so its handler
    (which would push a warning) is never entered. *)
Definition createFinancialItem (concept : string) (value : JS.Value)
    (row : Z) (column : option Z) : option FinancialItem :=
  match BaseParser.sanitizeValue value with
  | JS.VNull | JS.VUndefined => None
  | sanitizedValue =>
      Some {| Types.concept := JS.trim concept;
              Types.value := sanitizedValue;
              unit := "USD";
              decimals := None;
              isNil := None;
              sourceReference :=
                Some (BaseParser.generateSourceReference concept (Some row) column);
              itemConfidence := Some 80;
              taxonomyMatch := None |}
  end.

(** [value !== null && value !== undefined && value !== ''] *)
Definition filled (cell : Cell) : bool :=
  match cell with
  | CellText text => negb (String.eqb text "")
  | CellArray _ => true
  end.

(** The loop shared by the four statement builders. *)
Definition rowItems (i : Z) (row : Row) : list FinancialItem :=
  flat_map (fun kv =>
              if filled (snd kv)
              then match createFinancialItem (fst kv) (cellValue (snd kv)) i None with
                   | Some item => [item]
                   | None => []
                   end
              else []) row.

Fixpoint collectItems (i : Z) (rows : list Row) : list FinancialItem :=
  match rows with
  | [] => []
  | row :: rest => rowItems i row ++ collectItems (i + 1) rest
  end.

Definition yearOf (d : JSDate.Date) : Z :=
  match JSDate.getFullYear d with Some y => y | None => 0 end.

Definition parseBalanceSheet (h : Host) (rows : list Row) : FinancialStatement :=
  let periodEndDate :=
    match extractDateFromData h rows with Some d => d | None => now h end in
  {| type := balance_sheet;
     periodEndDate := periodEndDate;
     fiscalYear := yearOf periodEndDate;
     fiscalQuarter := None;
     items := collectItems 0 rows;
     metadata := Some {| framework := "US-GAAP"; auditStatus := None;
                         consolidationLevel := Some "consolidated" |} |}.

Definition parseIncomeStatement (h : Host) (rows : list Row) : FinancialStatement :=
  let periodEndDate :=
    match extractDateFromData h rows with Some d => d | None => now h end in
  {| type := income_statement;
     periodEndDate := periodEndDate;
     fiscalYear := yearOf periodEndDate;
     fiscalQuarter := None;
     items := collectItems 0 rows;
     metadata := Some {| framework := "US-GAAP"; auditStatus := None;
                         consolidationLevel := None |} |}.

Definition parseCashFlowStatement (h : Host) (rows : list Row) : FinancialStatement :=
  let periodEndDate :=
    match extractDateFromData h rows with Some d => d | None => now h end in
  {| type := cash_flow;
     periodEndDate := periodEndDate;
     fiscalYear := yearOf periodEndDate;
     fiscalQuarter := None;
     items := collectItems 0 rows;
     metadata := Some {| framework := "US-GAAP"; auditStatus := None;
                         consolidationLevel := None |} |}.

Definition parseGenericFinancialData (h : Host) (rows : list Row) : FinancialStatement :=
  {| type := unknown;
     periodEndDate := now h;
     fiscalYear := yearOf (now h);
     fiscalQuarter := None;
     items := collectItems 0 rows;
     metadata := None |}.

Record Converted := {
  statements : list FinancialStatement;
  convertedCurrency : string;
  convertedReportType : ReportType
}.

Definition convertToFinancialData (h : Host) (rows : list Row) : Converted :=
  let reportType := detectReportType rows in
  let currency := detectCurrencyFromData rows in
  match reportType with
  | balance_sheet =>
      {| statements := [parseBalanceSheet h rows];
         convertedCurrency := currency; convertedReportType := balance_sheet |}
  | income_statement =>
      {| statements := [parseIncomeStatement h rows];
         convertedCurrency := currency; convertedReportType := income_statement |}
  | cash_flow =>
      {| statements := [parseCashFlowStatement h rows];
         convertedCurrency := currency; convertedReportType := cash_flow |}
  | _ =>
      {| statements := [parseGenericFinancialData h rows];
         convertedCurrency := currency; convertedReportType := unknown |}
  end.

Definition csvParseError (e : PapaError) : RawEntry :=
  {| rawCode := Some "CSV_PARSE_ERROR";
     rawMessage := Some (papaMessage e);
     rawSeverity := Some "error";
     rawRow := papaRow e |}.

Definition parseFailed (e : JS.Error) : RawEntry :=
  {| rawCode := Some "PARSE_FAILED";
     rawMessage := Some ("Failed to parse CSV file: " ++ JS.messageOf e)%string;
     rawSeverity := Some "critical";
     rawRow := None |}.

(** The [try] block of [parse].  The array [errors] is shared with the
    handler, so the block hands back what it pushed even when it throws. *)
Definition parseBody (h : Host) (buffer : list Byte.byte)
  : list RawEntry * JS.Outcome Converted :=
  let csvText := utf8 h buffer in
  match papaParse h csvText with
  | JS.Throw e => ([], JS.Throw e)
  | JS.Return parseResult =>
      let errors := map csvParseError (papaErrors parseResult) in
      match data parseResult with
      | [] => (errors,
               JS.Throw (JS.ErrorObject "CSV file is empty or contains no valid data"))
      | rows => (errors, JS.Return (convertToFinancialData h rows))
      end
  end.

Definition parse (h : Host) (buffer : list Byte.byte) (fileName : string)
  : JS.Outcome FinancialData :=
  let warnings : list RawEntry := [] in
  let '(errors, body) := parseBody h buffer in
  JS.tryCatch
    (let? financialData := body in
     JS.Return
       {| documentInfo :=
            {| Types.fileName := fileName;
               fileType := "csv";
               originalName := fileName;
               fileSize := Z.of_nat (length buffer);
               currency := BaseParser.orDefault
                             (Some (convertedCurrency financialData)) "USD";
               reportType := convertedReportType financialData;
               companyName := None |};
          financialStatements := statements financialData;
          processing := BaseParser.createProcessingMetadata
                          parserVersion className warnings errors |})
    (fun error =>
       JS.Return
         {| documentInfo :=
              {| Types.fileName := fileName;
                 fileType := "csv";
                 originalName := fileName;
                 fileSize := Z.of_nat (length buffer);
                 currency := "USD";
                 reportType := unknown;
                 companyName := None |};
            financialStatements := [];
            processing := BaseParser.createProcessingMetadata
                            parserVersion className warnings
                            (errors ++ [parseFailed error]) |}).

End CsvParser.

(** ** src/lib/parsers/XbrlParser.ts *)

Module XbrlParser.
Import Types.

(** A fact as [extractFinancialItemsFromXBRL] collects it. *)
Record RawFact := {
  factConcept : string;
  factValue : JS.Value;
  factContext : string;
  factUnit : option string;
  factDecimals : option string;
  factIsNil : bool
}.

(** The three extraction functions scan the document text with regular
    expressions; their results are taken from the host's regular
    expression engine.  [extractFinancialItemsFromXBRL] builds further
    expressions from element names and context references found in the
    text, and [new RegExp] throws when such a pattern is malformed. *)
Record Host := {
  utf8 : list Byte.byte -> string;
  now : JSDate.Date;
  extractCompanyNameFromXBRL : string -> option string;
  extractCurrencyFromXBRL : string -> option string;
  extractFinancialItemsFromXBRL : string -> JS.Outcome (list RawFact)
}.

Definition parserVersion : string := "1.0.0".
Definition className : string := "XbrlParser".

Fixpoint addToGroup (key : string) (x : RawFact)
    (groups : list (string * list RawFact)) : list (string * list RawFact) :=
  match groups with
  | [] => [(key, [x])]
  | (k, xs) :: rest =>
      if String.eqb k key then (k, xs ++ [x]) :: rest
      else (k, xs) :: addToGroup key x rest
  end.

(** A [Map] keeps its keys in insertion order. *)
Definition groupItemsByContextAndType (facts : list RawFact)
  : list (string * list RawFact) :=
  fold_left (fun grouped item => addToGroup (factContext item) item grouped) facts [].

(** The pattern [(\d{4})-(\d{2})-(\d{2})] at the head of a text. *)
Definition datePatternHere (l : list ascii) : option (Z * Z * Z) :=
  match l with
  | y1 :: y2 :: y3 :: y4 :: s1 :: m1 :: m2 :: s2 :: d1 :: d2 :: _ =>
      if forallb JS.isDigit [y1; y2; y3; y4; m1; m2; d1; d2]
         && Ascii.eqb s1 "-" && Ascii.eqb s2 "-"
      then Some (JS.digitsValue [y1; y2; y3; y4],
                 JS.digitsValue [m1; m2], JS.digitsValue [d1; d2])
      else None
  | _ => None
  end.

Fixpoint matchDatePattern (l : list ascii) : option (Z * Z * Z) :=
  match datePatternHere l with
  | Some r => Some r
  | None => match l with
            | [] => None
            | _ :: rest => matchDatePattern rest
            end
  end.

Definition extractPeriodFromContext (h : Host) (context : string)
  : JSDate.Date * Z :=
  match matchDatePattern (JS.chars context) with
  | Some (year, month, day) =>
      let endDate := JSDate.ofYMD year (month - 1) day in
      (endDate, CsvParser.yearOf endDate)
  | None => (now h, CsvParser.yearOf (now h))
  end.

Definition determineStatementTypeFromItems (facts : list RawFact) : ReportType :=
  match facts with
  | [] => unknown
  | _ =>
      let concepts := map (fun item => JS.toLowerCase (factConcept item)) facts in
      let allConcepts := String.concat " " concepts in
      let balanceSheetScore :=
        CsvParser.keywordScore allConcepts
          ["asset"; "liability"; "equity"; "cash"; "receivable"; "payable"] in
      let incomeScore :=
        CsvParser.keywordScore allConcepts
          ["revenue"; "income"; "sales"; "expense"; "profit"; "cost"; "earnings"] in
      let cashFlowScore :=
        CsvParser.keywordScore allConcepts
          ["cashflow"; "cash flow"; "operating"; "investing"; "financing"] in
      if (incomeScore <=? balanceSheetScore)%nat
         && (cashFlowScore <=? balanceSheetScore)%nat && (0 <? balanceSheetScore)%nat
      then balance_sheet
      else if (cashFlowScore <=? incomeScore)%nat && (0 <? incomeScore)%nat
      then income_statement
      else if (0 <? cashFlowScore)%nat then cash_flow
      else unknown
  end.

Definition detectTaxonomyFramework (concept : option string) : string :=
  match concept with
  | None => "US-GAAP"
  | Some c =>
      if String.eqb c "" then "US-GAAP"
      else if JS.includes c "us-gaap:" || JS.includes c "USGAAP_" then "US-GAAP"
      else if JS.includes c "ifrs:" || JS.includes c "IFRS_" then "IFRS"
      else if JS.includes c "dei:" then "US-GAAP"
      else "US-GAAP"
  end.

Definition hexValue (c : ascii) : option Z :=
  if JS.isDigit c then Some (JS.code c - 48)
  else if JS.between 97 102 c then Some (JS.code c - 87)
  else if JS.between 65 70 c then Some (JS.code c - 55)
  else None.

Definition isHexDigit (c : ascii) : bool :=
  match hexValue c with Some _ => true | None => false end.

(** [parseInt(s)] without a radix argument. *)
Definition parseInt (s : string) : IntOrNaN :=
  let cs := JS.dropWhile JS.isWhiteSpace (JS.chars s) in
  let '(sgn, cs1) :=
    match cs with
    | "-"%char :: r => (-1, r)
    | "+"%char :: r => (1, r)
    | _ => (1, cs)
    end in
  match cs1 with
  | "0"%char :: x :: r =>
      if Ascii.eqb x "x" || Ascii.eqb x "X" then
        match fst (JS.span isHexDigit r) with
        | [] => NotANumber
        | ds => Int (sgn * fold_left
                             (fun acc c => 16 * acc
                                + match hexValue c with Some v => v | None => 0 end)
                             ds 0)
        end
      else Int (sgn * JS.digitsValue (fst (JS.span JS.isDigit cs1)))
  | _ =>
      match fst (JS.span JS.isDigit cs1) with
      | [] => NotANumber
      | ds => Int (sgn * JS.digitsValue ds)
      end
  end.

Fixpoint financialItemsFrom (context : string) (index : Z) (facts : list RawFact)
  : list FinancialItem :=
  match facts with
  | [] => []
  | item :: rest =>
      {| concept := factConcept item;
         value := factValue item;
         unit := BaseParser.orDefault (factUnit item) "USD";
         decimals := match factDecimals item with
                     | Some d => if String.eqb d "" then None else Some (parseInt d)
                     | None => None
                     end;
         isNil := Some (factIsNil item);
         sourceReference := Some (context ++ "_" ++ JS.intToString index)%string;
         itemConfidence := Some 98;
         taxonomyMatch :=
           Some {| xbrlTag := factConcept item;
                   taxonomyFramework := detectTaxonomyFramework (Some (factConcept item));
                   confidence := 100;
                   mappingMethod := "exact_match";
                   synonyms := Some [] |} |}
      :: financialItemsFrom context (index + 1) rest
  end.

(** Nothing in the [try] block of the loop can throw on these data, so
    its handler (which would push a warning) is never entered. *)
Definition convertGroupsToStatements (h : Host)
    (groups : list (string * list RawFact)) : list FinancialStatement :=
  map (fun group =>
         let '(context, facts) := group in
         let periodInfo := extractPeriodFromContext h context in
         {| type := determineStatementTypeFromItems facts;
            periodEndDate := fst periodInfo;
            fiscalYear := snd periodInfo;
            fiscalQuarter := None;
            items := financialItemsFrom context 0 facts;
            metadata :=
              Some {| framework :=
                        detectTaxonomyFramework (option_map factConcept (head facts));
                      auditStatus := Some "audited";
                      consolidationLevel := None |} |}) groups.

Definition determineReportTypeFromStatements (sts : list FinancialStatement)
  : ReportType :=
  match sts with
  | [only] => type only
  | _ =>
      let has t := existsb (fun st => String.eqb (reportTypeName (type st))
                                                 (reportTypeName t)) sts in
      if has balance_sheet then balance_sheet
      else if has income_statement then income_statement
      else if has cash_flow then cash_flow
      else unknown
  end.

Record Parsed := {
  statements : list FinancialStatement;
  parsedCurrency : string;
  parsedReportType : ReportType;
  parsedCompanyName : option string
}.

Definition parseXBRLDocument (h : Host) (xbrlText : string) : JS.Outcome Parsed :=
  let companyName := extractCompanyNameFromXBRL h xbrlText in
  let currency := BaseParser.orDefault (extractCurrencyFromXBRL h xbrlText) "USD" in
  let? financialItems := extractFinancialItemsFromXBRL h xbrlText in
  let statementGroups := groupItemsByContextAndType financialItems in
  let statements := convertGroupsToStatements h statementGroups in
  let reportType := determineReportTypeFromStatements statements in
  JS.Return {| statements := statements;
               parsedCurrency := currency;
               parsedReportType := reportType;
               parsedCompanyName := companyName |}.

Definition xbrlParseError (e : JS.Error) : RawEntry :=
  {| rawCode := Some "XBRL_PARSE_ERROR";
     rawMessage := Some ("Failed to parse XBRL file: " ++ JS.messageOf e)%string;
     rawSeverity := Some "critical";
     rawRow := None |}.

Definition parse (h : Host) (buffer : list Byte.byte) (fileName : string)
  : JS.Outcome FinancialData :=
  let warnings : list RawEntry := [] in
  let errors : list RawEntry := [] in
  JS.tryCatch
    (let xbrlText := utf8 h buffer in
     let? financialData := parseXBRLDocument h xbrlText in
     JS.Return
       {| documentInfo :=
            {| Types.fileName := fileName;
               fileType := "xbrl";
               originalName := fileName;
               fileSize := Z.of_nat (length buffer);
               currency := BaseParser.orDefault (Some (parsedCurrency financialData)) "USD";
               reportType := parsedReportType financialData;
               companyName := parsedCompanyName financialData |};
          financialStatements := statements financialData;
          processing := BaseParser.createProcessingMetadata
                          parserVersion className warnings errors |})
    (fun error =>
       JS.Return
         {| documentInfo :=
              {| Types.fileName := fileName;
                 fileType := "xbrl";
                 originalName := fileName;
                 fileSize := Z.of_nat (length buffer);
                 currency := "USD";
                 reportType := unknown;
                 companyName := None |};
            financialStatements := [];
            processing := BaseParser.createProcessingMetadata
                            parserVersion className warnings
                            (errors ++ [xbrlParseError error]) |}).

End XbrlParser.

(** ** src/lib/parsers/ParserFactory.ts *)

Module ParserFactory.

(** The parser classes; the factory registers a fresh instance of a
    class under each file type. *)
Inductive Parser :=
| csvParser
| excelParser
| pdfParser
| jsonParser
| xbrlParser.

Definition registerParser (fileType : string) (parser : Parser)
    (parsers : gmap string Parser) : gmap string Parser :=
  <[JS.toLowerCase fileType := parser]> parsers.

(** [initializeParsers], the registrations in program order. *)
Definition initializeParsers : gmap string Parser :=
  registerParser "xml" xbrlParser
    (registerParser "xml" xbrlParser
       (registerParser "xbrl" xbrlParser
          (registerParser "json" jsonParser
             (registerParser "pdf" pdfParser
                (registerParser "xls" excelParser
                   (registerParser "xlsx" excelParser
                      (registerParser "excel" excelParser
                         (registerParser "csv" csvParser ∅)))))))).

Fixpoint lookupKey (key : string) (table : list (string * string)) : option string :=
  match table with
  | [] => None
  | (k, v) :: rest => if String.eqb k key then Some v else lookupKey key rest
  end.

Definition mimeToTypeMap : list (string * string) :=
  [("text/csv", "csv");
   ("application/csv", "csv");
   ("application/vnd.ms-excel", "excel");
   ("application/vnd.openxmlformats-officedocument.spreadsheetml.sheet", "excel");
   ("application/vnd.ms-excel.sheet.macroenabled.12", "excel");
   ("application/pdf", "pdf");
   ("application/json", "json");
   ("text/json", "json");
   ("application/xml", "xbrl");
   ("text/xml", "xbrl");
   ("application/xbrl+xml", "xbrl");
   ("application/xbrl", "xbrl");
   ("text/plain", "csv")].

(** A name inherited from [Object.prototype] is found by the indexing
    but is not a key of the registry, so it ends in [null] as well. *)
Definition getParserByMimeType (parsers : gmap string Parser) (mimeType : string)
  : option Parser :=
  match lookupKey (JS.toLowerCase mimeType) mimeToTypeMap with
  | Some fileType => parsers !! fileType
  | None => None
  end.

Definition extensionToTypeMap : list (string * string) :=
  [("xlsx", "excel"); ("xls", "excel"); ("xlsm", "excel");
   ("csv", "csv"); ("tsv", "csv");
   ("pdf", "pdf");
   ("json", "json"); ("jsonl", "json");
   ("xml", "xml"); ("xbrl", "xbrl"); ("xsd", "xml")].

Definition getParserByExtension (parsers : gmap string Parser) (fileType : string)
  : option Parser :=
  (* Remove leading dot if present *)
  let cleanExtension :=
    if JS.startsWith fileType "." then JS.str (tl (JS.chars fileType)) else fileType in
  match lookupKey (JS.toLowerCase cleanExtension) extensionToTypeMap with
  | Some fileTypeMapped => parsers !! fileTypeMapped
  | None => None
  end.

Definition fuzzyMatches : list (string * string) :=
  [("spreadsheet", "excel");
   ("excel-file", "excel");
   ("comma-separated-values", "csv");
   ("financial-report", "xbrl");
   ("structured-data", "json")].

(** [s.replace(/[^a-z0-9]/g, ' ')] *)
Definition blankOthers (s : string) : string :=
  JS.str (map (fun c => if JS.between 97 122 c || JS.isDigit c then c else " "%char)
              (JS.chars s)).

Fixpoint firstFuzzy (parsers : gmap string Parser) (normalizedInput : string)
    (entries : list (string * string)) : option Parser :=
  match entries with
  | [] => None
  | (pattern, fileTypeMapped) :: rest =>
      if JS.includes normalizedInput pattern || JS.includes pattern normalizedInput
      then parsers !! fileTypeMapped
      else firstFuzzy parsers normalizedInput rest
  end.

Definition getParserByFuzzyMatch (parsers : gmap string Parser) (fileType : string)
  : option Parser :=
  let normalizedInput := JS.trim (blankOthers (JS.toLowerCase fileType)) in
  firstFuzzy parsers normalizedInput fuzzyMatches.

Definition getParser (parsers : gmap string Parser) (fileType : string)
    (mimeType : option string) : option Parser :=
  (* Normalize file type *)
  let normalizedFileType := JS.toLowerCase fileType in
  (* Direct match *)
  match parsers !! normalizedFileType with
  | Some parser => Some parser
  | None =>
      (* MIME type based matching *)
      match (match mimeType with
             | Some m => if String.eqb m "" then None
                         else getParserByMimeType parsers m
             | None => None
             end) with
      | Some parser => Some parser
      | None =>
          (* Extension-based matching *)
          match getParserByExtension parsers fileType with
          | Some parser => Some parser
          | None =>
              (* Additional fuzzy matching *)
              getParserByFuzzyMatch parsers normalizedFileType
          end
      end
  end.

(** The singleton [parserFactory]. *)
Definition parserFactory : gmap string Parser := initializeParsers.

End ParserFactory.

(** ** src/lib/services/TaxonomyMappingService.ts *)

Module TaxonomyMappingService.
Import Types.

(** The columns of [taxonomies] and [taxonomy_mappings] that the service
    reads.  A NULL [confidence] or [is_active] is not represented. *)
Record TaxonomyRow := {
  taxId : string;
  taxConcept : string;
  taxXbrlTag : string;
  taxSector : string;
  taxReportType : string;
  taxFramework : string;
  taxDescription : option string;
  taxSynonyms : option (list string)
}.

Record MappingRow := {
  mapSourceField : string;
  mapTaxonomyId : string;
  mapConfidence : Z;
  mapMethod : string;
  mapIsActive : bool
}.

Record Database := {
  taxonomies : list TaxonomyRow;
  taxonomyMappings : list MappingRow
}.

Record MappingResult := {
  xbrlTag : string;
  taxonomyFramework : string;
  confidence : Z;
  mappingMethod : string;
  taxonomyConcept : string;
  description : option string
}.

(** *** Queries *)

(** SQL [LIKE]: [%] matches any run, [_] any one character, and a
    backslash takes the next pattern character literally. *)
Fixpoint like (pattern text : list ascii) {struct pattern} : bool :=
  match pattern with
  | [] => match text with [] => true | _ => false end
  | p :: pattern' =>
      if Ascii.eqb p "%" then
        (fix anySuffix (t : list ascii) : bool :=
           like pattern' t ||
           match t with
           | [] => false
           | _ :: t' => anySuffix t'
           end) text
      else if Ascii.eqb p "_" then
        match text with
        | [] => false
        | _ :: text' => like pattern' text'
        end
      else if Ascii.eqb p "\" then
        match pattern' with
        | [] => false
        | q :: pattern'' =>
            match text with
            | [] => false
            | c :: text' => Ascii.eqb q c && like pattern'' text'
            end
        end
      else
        match text with
        | [] => false
        | c :: text' => Ascii.eqb p c && like pattern' text'
        end
  end.

(** [ilike(column, pattern)] *)
Definition ilike (column pattern : string) : bool :=
  like (JS.chars (JS.toLowerCase pattern)) (JS.chars (JS.toLowerCase column)).

(** The characters that [like] does not take literally. *)
Definition likeSpecial (c : ascii) : bool :=
  Ascii.eqb c "%" || Ascii.eqb c "_" || Ascii.eqb c "\".

Definition truthy (s : option string) : bool :=
  match s with
  | Some v => negb (String.eqb v "")
  | None => false
  end.

Definition isSome {A} (o : option A) : bool :=
  match o with Some _ => true | None => false end.

(** [array.filter(Boolean)] on an array of results or nulls. *)
Definition filterBoolean {A} (l : list (option A)) : list (option A) :=
  List.filter isSome l.

Fixpoint catOptions {A} (l : list (option A)) : list A :=
  match l with
  | [] => []
  | Some a :: r => a :: catOptions r
  | None :: r => catOptions r
  end.

(** [array.sort((a, b) => b.confidence - a.confidence)]: the sort is
    stable, elements of equal confidence keep their order. *)
Fixpoint insertDesc {A} (conf : A -> Z) (x : A) (sorted : list A) : list A :=
  match sorted with
  | [] => [x]
  | y :: rest =>
      if conf y <=? conf x then x :: sorted else y :: insertDesc conf x rest
  end.

Definition sortDesc {A} (conf : A -> Z) (l : list A) : list A :=
  fold_right (insertDesc conf) [] l.

(** *** Stage 1: exact match *)

Definition joinedMappings (db : Database) (concept : string)
  : list (MappingRow * TaxonomyRow) :=
  flat_map (fun m =>
              if String.eqb (mapSourceField m) concept && mapIsActive m
              then map (fun t => (m, t))
                       (List.filter (fun t => String.eqb (mapTaxonomyId m) (taxId t))
                               (taxonomies db))
              else [])
           (taxonomyMappings db).

Definition exactMethod : string := "exact_match".
Definition fuzzyMethod : string := "fuzzy_match".
Definition aiMethod : string := "ai_assisted".

Definition findExactMapping (db : Database) (concept : string)
    (sectorContext reportTypeContext : option string) : option MappingResult :=
  (* Look for exact matches in taxonomy mappings *)
  match firstn 1 (joinedMappings db concept) with
  | (mapping, t) :: _ =>
      Some {| xbrlTag := taxXbrlTag t;
              taxonomyConcept := taxConcept t;
              description := taxDescription t;
              confidence := mapConfidence mapping;
              mappingMethod := mapMethod mapping;
              taxonomyFramework := taxFramework t |}
  | [] =>
      (* Try to find exact match in taxonomy concepts *)
      match firstn 1 (List.filter (fun t => String.eqb (taxConcept t) concept
                                       || String.eqb (taxXbrlTag t) concept)
                             (taxonomies db)) with
      | t :: _ =>
          Some {| xbrlTag := taxXbrlTag t;
                  taxonomyConcept := taxConcept t;
                  description := taxDescription t;
                  confidence := 100;
                  mappingMethod := exactMethod;
                  taxonomyFramework := taxFramework t |}
      | [] => None
      end
  end.

(** *** Stage 2: fuzzy match *)

Definition wordScore (searchWord candidateWord : string) : Z :=
  if String.eqb searchWord candidateWord then 20
  else if JS.includes candidateWord searchWord || JS.includes searchWord candidateWord
  then 10
  else 0.

(** The two nested loops that accumulate [overlapScore]. *)
Definition overlapScore (searchWords candidateWords : list string) : Z :=
  fold_left
    (fun score searchWord =>
       fold_left (fun score' candidateWord => score' + wordScore searchWord candidateWord)
                 candidateWords score)
    searchWords 0.

(** The loop over the synonyms, which returns at the first hit. *)
Fixpoint synonymHit (search : string) (synonyms : list string) : bool :=
  match synonyms with
  | [] => false
  | synonym :: rest =>
      if String.eqb search (JS.toLowerCase synonym) then true
      else synonymHit search rest
  end.

Definition lengthPenalty (search candidate : string) : Q :=
  let lengthDiff := Z.abs (JS.strlen search - JS.strlen candidate) in
  Qmax 0 (inject_Z lengthDiff
          / inject_Z (Z.max (JS.strlen search) (JS.strlen candidate))
          * 20)%Q.

Definition calculateFuzzyScore (searchTerm candidateTerm : string)
    (synonyms : list string) : Z :=
  (* Convert to lowercase for comparison *)
  let search := JS.toLowerCase searchTerm in
  let candidate := JS.toLowerCase candidateTerm in
  (* Exact match *)
  if String.eqb search candidate then 100
  (* Check synonyms *)
  else if synonymHit search synonyms then 95
  else
    let searchWords := JS.splitWhitespace search in
    let candidateWords := JS.splitWhitespace candidate in
    let overlap := overlapScore searchWords candidateWords in
    let finalScore := Qmax 0 (inject_Z overlap - lengthPenalty search candidate)%Q in
    Z.min 100 (JS.mathRound finalScore).

Definition fuzzyCandidate (concept : string)
    (sectorContext reportTypeContext : option string) (t : TaxonomyRow) : bool :=
  ilike (taxConcept t) ("%" ++ concept ++ "%")
  || match sectorContext with
     | Some sector =>
         truthy sectorContext && negb (String.eqb sector "all")
         && String.eqb (taxSector t) sector
     | None => false
     end
  || match reportTypeContext with
     | Some rt => truthy reportTypeContext && String.eqb (taxReportType t) rt
     | None => false
     end.

Definition findFuzzyMatch (db : Database) (concept : string)
    (sectorContext reportTypeContext : option string) : option MappingResult :=
  let candidates :=
    firstn 20 (List.filter (fuzzyCandidate concept sectorContext reportTypeContext)
                      (taxonomies db)) in
  let scored :=
    map (fun candidate =>
           (candidate,
            calculateFuzzyScore concept (taxConcept candidate)
              match taxSynonyms candidate with Some l => l | None => [] end))
        candidates in
  let fuzzyMatches :=
    sortDesc snd (List.filter (fun m => 80 <=? snd m) scored) in
  match fuzzyMatches with
  | (bestMatch, score) :: _ =>
      Some {| xbrlTag := taxXbrlTag bestMatch;
              taxonomyConcept := taxConcept bestMatch;
              description := taxDescription bestMatch;
              confidence := score;
              mappingMethod := fuzzyMethod;
              taxonomyFramework := taxFramework bestMatch |}
  | [] => None
  end.

(** *** Stage 3: assisted match *)

Record AIMappingRequest := {
  sourceField : string;
  sourceValue : JS.Value;
  requestSector : option string;
  requestReportType : option string;
  existingMappings : list (option MappingResult)
}.

Definition mappingPatterns : list (string * (string * string * Z)) :=
  [("cash", ("us-gaap:CashAndCashEquivalentsCarryingAmount", "US-GAAP", 95));
   ("accounts receivable", ("us-gaap:AccountsReceivableNetCurrent", "US-GAAP", 95));
   ("inventory", ("us-gaap:InventoryNet", "US-GAAP", 90));
   ("property", ("us-gaap:PropertyPlantAndEquipmentNet", "US-GAAP", 85));
   ("revenue", ("us-gaap:Revenues", "US-GAAP", 95));
   ("sales", ("us-gaap:Revenues", "US-GAAP", 90));
   ("net income", ("us-gaap:NetIncomeLoss", "US-GAAP", 95));
   ("total assets", ("us-gaap:Assets", "US-GAAP", 98));
   ("total liabilities", ("us-gaap:Liabilities", "US-GAAP", 98));
   ("shareholders equity", ("us-gaap:StockholdersEquity", "US-GAAP", 95))].

(** [typeof value === 'number' && Math.abs(value) > 1000000] *)
Definition isLargeNumber (v : JS.Value) : bool :=
  match v with
  | JS.VNum (JS.Finite q) =>
      match Qcompare (Qabs q) (inject_Z 1000000) with Gt => true | _ => false end
  | JS.VNum (JS.Infinity _) => true
  | _ => false
  end.

Fixpoint matchPatterns (request : AIMappingRequest) (sourceField : string)
    (patterns : list (string * (string * string * Z))) : option MappingResult :=
  match patterns with
  | [] => None
  | (pattern, (tag, fw, conf)) :: rest =>
      if JS.includes sourceField pattern || JS.includes pattern sourceField then
        let adjusted1 :=
          match requestSector request with
          | Some sector => if String.eqb sector "banking" then conf - 5 else conf
          | None => conf
          end in
        let adjustedConfidence :=
          if isLargeNumber (sourceValue request)
          then Z.min 100 (adjusted1 + 5) else adjusted1 in
        Some {| xbrlTag := tag;
                taxonomyConcept := pattern;
                taxonomyFramework := fw;
                confidence := adjustedConfidence;
                mappingMethod := aiMethod;
                description := None |}
      else matchPatterns request sourceField rest
  end.

Definition simulateAIMapping (request : AIMappingRequest) : option MappingResult :=
  matchPatterns request (JS.toLowerCase (sourceField request)) mappingPatterns.

Definition getAIMapping (request : AIMappingRequest) : option MappingResult :=
  simulateAIMapping request.

(** *** Stage 4 and the driver *)

Definition selectBestMatch (matches : list (option MappingResult))
  : option MappingResult :=
  match matches with
  | [] => None
  | _ =>
      match catOptions matches with
      | [] => None
      | validMatches => head (sortDesc confidence validMatches)
      end
  end.

(** The request that [mapFinancialItem] hands to the assisted stage. *)
Definition aiRequest (item : FinancialItem) (sectorContext reportTypeContext : option string)
    (exactMatch fuzzyMatch : option MappingResult) : AIMappingRequest :=
  {| sourceField := concept item;
     sourceValue := value item;
     requestSector := sectorContext;
     requestReportType := reportTypeContext;
     existingMappings := filterBoolean [exactMatch; fuzzyMatch] |}.

Definition mapFinancialItem (db : Database) (item : FinancialItem)
    (sectorContext reportTypeContext : option string) : option TaxonomyMatch :=
  (* Step 1: Try exact match in existing mappings *)
  let exactMatch :=
    findExactMapping db (concept item) sectorContext reportTypeContext in
  let accepted (threshold : Z) (m : option MappingResult) : option MappingResult :=
    match m with
    | Some r => if threshold <=? confidence r then Some r else None
    | None => None
    end in
  match accepted 95 exactMatch with
  | Some r =>
      Some {| Types.xbrlTag := xbrlTag r;
              Types.taxonomyFramework := taxonomyFramework r;
              Types.confidence := confidence r;
              Types.mappingMethod := exactMethod;
              synonyms := Some [] |}
  | None =>
  (* Step 2: Try fuzzy matching in taxonomy database *)
  let fuzzyMatch :=
    findFuzzyMatch db (concept item) sectorContext reportTypeContext in
  match accepted 80 fuzzyMatch with
  | Some r =>
      Some {| Types.xbrlTag := xbrlTag r;
              Types.taxonomyFramework := taxonomyFramework r;
              Types.confidence := confidence r;
              Types.mappingMethod := fuzzyMethod;
              synonyms := None |}
  | None =>
  (* Step 3: Try AI-assisted mapping for complex cases *)
  let aiMatch :=
    getAIMapping (aiRequest item sectorContext reportTypeContext exactMatch fuzzyMatch) in
  match accepted 70 aiMatch with
  | Some r =>
      Some {| Types.xbrlTag := xbrlTag r;
              Types.taxonomyFramework := taxonomyFramework r;
              Types.confidence := confidence r;
              Types.mappingMethod := aiMethod;
              synonyms := Some [] |}
  | None =>
  (* Step 4: Return best match if any, or null for manual review *)
  match accepted 60
          (selectBestMatch (filterBoolean [exactMatch; fuzzyMatch; aiMatch])) with
  | Some r =>
      Some {| Types.xbrlTag := xbrlTag r;
              Types.taxonomyFramework := taxonomyFramework r;
              Types.confidence := confidence r;
              Types.mappingMethod := mappingMethod r;
              synonyms := Some [] |}
  | None => None (* Requires manual mapping *)
  end end end end.

(** *** Learning a mapping *)

(** An update of the first row that satisfies [p]: the database writes
    the new version of the row, its image under [f], behind the other
    rows, so that a later scan of the table meets it last. *)
Fixpoint updateRow {A} (p : A -> bool) (f : A -> A) (l : list A) : list A :=
  match l with
  | [] => []
  | x :: rest => if p x then rest ++ [f x] else x :: updateRow p f rest
  end.

(** [createMapping].  The row to update is selected by the primary key of
    the row that the [limit(1)] query returned, which is the first row of
    that source field; an inserted row goes to the end of the table.  The
    parameter [taxonomyFramework] is not used by the source, and the
    columns [sector_context] and [report_type_context] are not
    represented. *)
Definition createMapping (sourceField xbrlTag taxonomyFramework : string)
    (confidence : Z) (mappingMethod : string)
    (sectorContext reportTypeContext : option string) (db : Database)
  : JS.Outcome Datatypes.unit * Database :=
  (* Find the taxonomy entry *)
  match firstn 1 (List.filter (fun t => String.eqb (taxXbrlTag t) xbrlTag)
                         (taxonomies db)) with
  | [] =>
      (JS.Throw (JS.ErrorObject
                   ("Taxonomy entry not found for XBRL tag: " ++ xbrlTag)%string), db)
  | taxonomyEntry :: _ =>
      let written (row : MappingRow) : MappingRow :=
        {| mapSourceField := mapSourceField row;
           mapTaxonomyId := taxId taxonomyEntry;
           mapConfidence := confidence;
           mapMethod := mappingMethod;
           mapIsActive := true |} in
      (* Check if mapping already exists *)
      match firstn 1 (List.filter (fun m => String.eqb (mapSourceField m) sourceField)
                             (taxonomyMappings db)) with
      | existingMapping :: _ =>
          (* Update existing mapping if new confidence is higher *)
          if mapConfidence existingMapping <? confidence then
            (JS.Return tt,
             {| taxonomies := taxonomies db;
                taxonomyMappings :=
                  updateRow (fun m => String.eqb (mapSourceField m) sourceField)
                            written (taxonomyMappings db) |})
          else (JS.Return tt, db)
      | [] =>
          (* Create new mapping *)
          (JS.Return tt,
           {| taxonomies := taxonomies db;
              taxonomyMappings :=
                taxonomyMappings db
                ++ [{| mapSourceField := sourceField;
                       mapTaxonomyId := taxId taxonomyEntry;
                       mapConfidence := confidence;
                       mapMethod := mappingMethod;
                       mapIsActive := true |}] |})
      end
  end.

(** *** The batched variant *)

Definition batchSize : nat := 50.

(** [items.slice(i, i + batchSize)] *)
Definition slice {A} (i j : nat) (l : list A) : list A := firstn (j - i) (skipn i l).

Section Batches.
Context (db : Database) (sectorContext reportTypeContext : option string).

Definition mapOne (item : FinancialItem) : FinancialItem * option TaxonomyMatch :=
  (item, mapFinancialItem db item sectorContext reportTypeContext).

(** The loop [for (let i = 0; i < items.length; i += batchSize)], from
    index [i] with the [results] collected so far. *)
Equations? batchLoop (items : list FinancialItem) (i : nat)
    (results : list (FinancialItem * option TaxonomyMatch))
  : list (FinancialItem * option TaxonomyMatch)
  by wf (length items - i)%nat lt :=
  batchLoop items i results with lt_dec i (length items) => {
    | left _ =>
        let batch := slice i (i + batchSize) items in
        let batchResults := map mapOne batch in
        batchLoop items (i + batchSize) (results ++ batchResults);
    | right _ => results }.
Proof. unfold batchSize. lia. Qed.

Definition mapFinancialItems (items : list FinancialItem)
  : list (FinancialItem * option TaxonomyMatch) :=
  batchLoop items 0 [].
End Batches.

End TaxonomyMappingService.

(** ** src/lib/services/XBRLGenerator.ts *)

Module XBRLGenerator.
Import Types.

(** *** The XML builder (xmlbuilder2)

    [root.ele(name, attributes)] on the builder of an element appends a
    child element and returns the builder of the child; what is built
    this way is modelled by the tree.

    [create(text, attributes)] is another matter: [create] takes a text
    in its first argument as the contents of a new document and returns
    the builder of the document node, not of an element, and it does not
    use the second argument, so the attributes handed to it are lost.  On
    the builder of a document, [ele] throws when the document has its
    element already, and [att] and [txt] throw: a document node takes
    neither a second element nor attributes nor text.  The errors are
    the library's and are left to the host, as are what [create] makes
    of a tag name of the data and what [importNode] does with a
    builder. *)
#[local] Unset Elimination Schemes.
Inductive Node :=
| Element (name : string) (attributes : list (string * string)) (children : list Node)
| Text (content : string).
#[local] Set Elimination Schemes.

(** The builder of a document made by [create]. *)
Record Builder := {
  documentElement : option Node
}.

Record Host := {
  (** [create(text, attributes)] *)
  create : string -> JS.Outcome Builder;
  (** [create] on the name of the context element: the document has that
      element, without attributes. *)
  create_context :
    create "xbrli:context"
    = JS.Return {| documentElement := Some (Element "xbrli:context" [] []) |};
  (** the error of [ele] on the builder of a document that has its
      element *)
  secondElement : JS.Error;
  (** the errors of [att] and of [txt] on the builder of a document *)
  attributeOfDocument : JS.Error;
  textOfDocument : JS.Error;
  (** [root.importNode(builder)]: the nodes appended to the root *)
  importNode : Builder -> JS.Outcome (list Node)
}.

(** [document.ele(name, attributes)] *)
Definition documentEle (h : Host) (document : Builder) (name : string)
    (attributes : list (string * string)) : JS.Outcome (Node * Builder) :=
  match documentElement document with
  | Some _ => JS.Throw (secondElement h)
  | None =>
      let element := Element name attributes [] in
      JS.Return (element, {| documentElement := Some element |})
  end.

(** [xbrlDocument]: the empty string, or the serialisation of a tree. *)
Inductive Document :=
| EmptyDocument
| Serialized (root : Node).

Record XBRLGenerationOptions := {
  optFramework : string;
  optCurrency : string;
  documentDate : JSDate.Date;
  optCompanyName : string;
  identifier : option string;
  scheme : option string
}.

Record Metadata := {
  totalFacts : nat;
  frameworks : list string;
  currencies : list string;
  contexts : list string;
  validationIssues : list string
}.

Record GeneratedXBRL := {
  xbrlDocument : Document;
  generated : Metadata
}.

Definition NAMESPACES : list (string * string) :=
  [("xbrli", "http://www.xbrl.org/2003/instance");
   ("link", "http://www.xbrl.org/2003/linkbase");
   ("xlink", "http://www.w3.org/1999/xlink");
   ("xsi", "http://www.w3.org/2001/XMLSchema-instance");
   ("iso4217", "http://www.xbrl.org/2003/iso4217");
   ("us-gaap", "http://xbrl.us/us-gaap/2009-01-31");
   ("ifrs", "http://xbrl.ifrs.org/taxonomy/2023-03-31/ifrs-full");
   ("dei", "http://xbrl.sec.gov/dei/2023-01-31")].

Definition addSchemaReferences (framework : string) : list Node :=
  let schemas :=
    if String.eqb framework "US-GAAP" then
      ["http://xbrl.us/us-gaap/2009-01-31/us-gaap-2009-01-31.xsd";
       "http://xbrl.sec.gov/dei/2023-01-31/dei-2023-01-31.xsd"]
    else if String.eqb framework "IFRS" then
      ["http://xbrl.ifrs.org/taxonomy/2023-03-31/ifrs-full-2023-03-31.xsd"]
    else ["http://www.xbrl.org/2003/xbrl-instance-2003-12-31.xsd"] in
  map (fun schema =>
         Element "link:schemaRef"
                 [("xlink:type", "simple"); ("xlink:href", schema)] [])
      schemas.

Definition formatDate (date : JSDate.Date) : JS.Outcome string :=
  JSDate.isoDate date.

(** [statement.fiscalQuarter || ''] inside the template string *)
Definition quarterText (q : option Z) : string :=
  match q with
  | Some n => if n =? 0 then "" else JS.intToString n
  | None => ""
  end.

Definition generateContextId (statement : FinancialStatement) : JS.Outcome string :=
  let? iso := JSDate.isoDate (periodEndDate statement) in
  let dateStr := JS.removeAll (fun c => Ascii.eqb c "-") iso in
  JS.Return ("AsOf_" ++ dateStr ++ "_" ++ reportTypeName (type statement)
             ++ "_" ++ JS.intToString (fiscalYear statement)
             ++ "Q" ++ quarterText (fiscalQuarter statement))%string.

Definition getPeriodStartDate (statement : FinancialStatement) : JSDate.Date :=
  match fiscalQuarter statement with
  | Some q =>
      if q =? 0 then
        JSDate.addDate 1 (JSDate.addFullYears (-1) (periodEndDate statement))
      else
        (* Q1 starts in Jan, Q2 in Apr, etc. *)
        let startMonth :=
          if q =? 1 then 0 else if q =? 2 then 3
          else if q =? 3 then 6 else if q =? 4 then 9 else 0 in
        JSDate.ofYMD (fiscalYear statement) startMonth 1
  | None =>
      (* Default to 12 months before end date *)
      JSDate.addDate 1 (JSDate.addFullYears (-1) (periodEndDate statement))
  end.

(** [context] is the builder of a document that has its element, so the
    first [context.ele] throws and nothing after it is reached. *)
Definition createContextForStatement (h : Host) (statement : FinancialStatement)
    (options : XBRLGenerationOptions) : JS.Outcome Builder :=
  let? contextId := generateContextId statement in
  let? context := create h "xbrli:context" in
  (* Add entity *)
  let? entity := documentEle h context "xbrli:entity" [] in
  let identifier :=
    Element "xbrli:identifier"
      [("scheme", BaseParser.orDefault (scheme options) "http://www.sec.gov/CIK")]
      [Text (BaseParser.orDefault (identifier options) "UNKNOWN")] in
  let context :=
    {| documentElement := Some (Element "xbrli:entity" [] [identifier]) |} in
  (* Add period *)
  let? period := documentEle h context "xbrli:period" [] in
  let? parts :=
    match type statement with
    | balance_sheet =>
        (* Balance sheet uses instant period *)
        let? instant := formatDate (periodEndDate statement) in
        JS.Return [Element "xbrli:instant" [] [Text instant]]
    | _ =>
        (* Other statements use duration *)
        let? startDate := formatDate (getPeriodStartDate statement) in
        let? endDate := formatDate (periodEndDate statement) in
        JS.Return [Element "xbrli:startDate" [] [Text startDate];
                   Element "xbrli:endDate" [] [Text endDate]]
    end in
  JS.Return {| documentElement := Some (Element "xbrli:period" [] parts) |}.

Definition addUnitDefinitions (currency : string) : list Node :=
  [ (* Add monetary unit *)
    Element "xbrli:unit" [("id", "USD")]
      [Element "xbrli:measure" [] [Text ("iso4217:" ++ currency)]];
    (* Add pure unit (for non-monetary values) *)
    Element "xbrli:unit" [("id", "pure")]
      [Element "xbrli:measure" [] [Text "xbrli:pure"]] ].

Definition generateDocumentContext (options : XBRLGenerationOptions)
  : JS.Outcome string :=
  let? iso := JSDate.isoDate (documentDate options) in
  JS.Return ("Document_" ++ JS.removeAll (fun c => Ascii.eqb c "-") iso)%string.

Definition addEntityInformation (options : XBRLGenerationOptions)
  : JS.Outcome (list Node) :=
  let? registrant :=
    if String.eqb (optCompanyName options) "" then JS.Return []
    else
      let? ctx := generateDocumentContext options in
      JS.Return [Element "dei:EntityRegistrantName" [("contextRef", ctx)]
                         [Text (optCompanyName options)]] in
  let? ctx1 := generateDocumentContext options in
  let? endDate := formatDate (documentDate options) in
  let? ctx2 := generateDocumentContext options in
  let year := match JSDate.getFullYear (documentDate options) with
              | Some y => JS.intToString y
              | None => "NaN"
              end in
  JS.Return (registrant
             ++ [Element "dei:DocumentPeriodEndDate" [("contextRef", ctx1)]
                         [Text endDate];
                 Element "dei:DocumentFiscalYearFocus" [("contextRef", ctx2)]
                         [Text year]]).

Definition getXBRLTagName (item : FinancialItem) : option string :=
  let fromConcept :=
    if String.eqb (concept item) "" then None
    else Some ("us-gaap:" ++ JS.removeAll (fun c => negb (JS.isAlnum c)) (concept item))%string in
  match taxonomyMatch item with
  | Some m => if String.eqb (Types.xbrlTag m) "" then fromConcept
              else Some (Types.xbrlTag m)
  | None => fromConcept
  end.

(** [toFixed] and [toString] print a double.  Doubles are outside the
    model, so the text of a number is represented by the call that
    prints it. *)
Inductive NumberText :=
| ToFixed (value : JS.Number) (digits : Z)   (* [value.toFixed(digits)] *)
| ToString (value : JS.Number).              (* [value.toString()] *)

(** The text of a fact: a text of the data, or the text of a number
    after [numStr.replace(/\.?0+$/, '')], which is applied when the text
    has a point. *)
Inductive FactText :=
| Plain (text : string)
| Trimmed (numStr : NumberText).

Definition rangeError : JS.Error :=
  JS.ErrorObject "toFixed() digits argument must be between 0 and 100".

(** [Math.round(value / divisor) * divisor] *)
Definition roundTo (value : JS.Number) (divisor : Z) : JS.Number :=
  match value with
  | JS.Finite q => JS.Finite (inject_Z (JS.mathRound (q / inject_Z divisor)%Q * divisor))
  | other => other
  end.

Definition formatNumberValue (value : JS.Number) (decimals : option IntOrNaN)
  : JS.Outcome FactText :=
  let? numStr :=
    match decimals with
    | Some (Int d) =>
        if 0 <=? d then
          if 100 <? d then JS.Throw rangeError
          else JS.Return (ToFixed value d)
        else
          (* Negative decimals indicate precision *)
          let divisor := 10 ^ Z.abs d in
          JS.Return (ToString (roundTo value divisor))
    | Some NotANumber => JS.Return (ToString JS.NaN)
    | None =>
        (* Default to 2 decimal places *)
        JS.Return (ToFixed value 2)
    end in
  (* Remove trailing zeros after decimal point *)
  JS.Return (Trimmed numStr).

(** A nil fact is the builder that [create] returns for the tag name.
    Any other fact is never made: after [create], [fact.att] (when the
    item has decimals) or else [fact.txt] throws. *)
Definition createFinancialFact (h : Host) (item : FinancialItem)
    (contextId currency : string) : JS.Outcome (option Builder) :=
  let nil :=
    match isNil item with Some true => true | _ => false end
    || match value item with JS.VNull | JS.VUndefined => true | _ => false end in
  if nil then
    (* Create nil fact *)
    match getXBRLTagName item with
    | None => JS.Return None
    | Some tagName =>
        let? fact := create h tagName in
        JS.Return (Some fact)
    end
  else
    match getXBRLTagName item with
    | None => JS.Return None
    | Some tagName =>
        (* Handle different data types *)
        let? valueAndUnit :=
          match value item with
          | JS.VNum n =>
              let? text := formatNumberValue n (decimals item) in
              JS.Return (text, currency)
          | JS.VBool b => JS.Return (Plain (if b then "true" else "false"), "pure")
          | JS.VStr str => JS.Return (Plain str, "pure")
          | JS.VArray elements => JS.Return (Plain (String.concat "," elements), "pure")
          | JS.VNull | JS.VUndefined => JS.Return (Plain "", "USD")
          end in
        let? fact := create h tagName in
        (* Add precision/decimals if specified *)
        let? _ :=
          match decimals item with
          | Some _ => JS.Throw (attributeOfDocument h)
          | None => JS.Return tt
          end in
        JS.Throw (textOfDocument h)
    end.

(** A fact whose creation throws is logged to the console and skipped. *)
Fixpoint createFinancialFacts (h : Host) (items : list FinancialItem)
    (contextId currency : string) : list Builder :=
  match items with
  | [] => []
  | item :: rest =>
      match createFinancialFact h item contextId currency with
      | JS.Return (Some fact) => fact :: createFinancialFacts h rest contextId currency
      | JS.Return None => createFinancialFacts h rest contextId currency
      | JS.Throw _ => createFinancialFacts h rest contextId currency
      end
  end.

(** The first loop of [generateXBRL]: for every statement, in order, the
    identifier of its context and the nodes that its context adds to the
    root. *)
Fixpoint contextLoop (h : Host) (statements : list FinancialStatement)
    (options : XBRLGenerationOptions) : JS.Outcome (list (string * list Node)) :=
  match statements with
  | [] => JS.Return []
  | statement :: rest =>
      let? context := createContextForStatement h statement options in
      let? contextId := generateContextId statement in
      let? imported := importNode h context in
      let? more := contextLoop h rest options in
      JS.Return ((contextId, imported) :: more)
  end.

Fixpoint importAll (h : Host) (facts : list Builder) : JS.Outcome (list (list Node)) :=
  match facts with
  | [] => JS.Return []
  | fact :: rest =>
      let? imported := importNode h fact in
      let? more := importAll h rest in
      JS.Return (imported :: more)
  end.

(** The second loop: for every fact of every statement, in order, the
    nodes that it adds to the root. *)
Fixpoint factLoop (h : Host) (statements : list FinancialStatement) (currency : string)
  : JS.Outcome (list (list Node)) :=
  match statements with
  | [] => JS.Return []
  | statement :: rest =>
      let? contextId := generateContextId statement in
      let facts := createFinancialFacts h (items statement) contextId currency in
      let? imported := importAll h facts in
      let? more := factLoop h rest currency in
      JS.Return (imported ++ more)
  end.

(** [Array.from(set)]: the distinct elements in order of first insertion. *)
Fixpoint distinct (l : list string) : list string :=
  match l with
  | [] => []
  | x :: rest => x :: List.filter (fun y => negb (String.eqb x y)) (distinct rest)
  end.

(** The [try] block of [generateXBRL]. *)
Definition generateBody (h : Host) (statements : list FinancialStatement)
    (options : XBRLGenerationOptions) : JS.Outcome GeneratedXBRL :=
  let schemaRefs := addSchemaReferences (optFramework options) in
  let? contextNodes := contextLoop h statements options in
  let units := addUnitDefinitions (optCurrency options) in
  let? entityInformation := addEntityInformation options in
  let? facts := factLoop h statements (optCurrency options) in
  let root :=
    Element "xbrli:xbrl" NAMESPACES
            (schemaRefs ++ concat (map snd contextNodes) ++ units
             ++ entityInformation ++ concat facts) in
  JS.Return
    {| xbrlDocument := Serialized root;
       generated :=
         {| totalFacts := length facts;
            frameworks := distinct (map (fun _ => optFramework options) statements);
            currencies := [optCurrency options];
            contexts := distinct (map fst contextNodes);
            validationIssues := [] |} |}.

Definition generateXBRL (h : Host) (statements : list FinancialStatement)
    (options : XBRLGenerationOptions) : JS.Outcome GeneratedXBRL :=
  JS.tryCatch
    (generateBody h statements options)
    (fun error =>
       JS.Return
         {| xbrlDocument := EmptyDocument;
            generated :=
              {| totalFacts := 0;
                 frameworks := [];
                 currencies := [];
                 contexts := [];
                 validationIssues :=
                   [("Generation failed: " ++ JS.messageOf error)%string] |} |}).

(** *** Reading a generated document *)

Definition rootChildren (d : Document) : list Node :=
  match d with
  | Serialized (Element _ _ children) => children
  | _ => []
  end.

Definition nodeName (n : Node) : string :=
  match n with Element name _ _ => name | Text _ => "" end.

Fixpoint assoc (key : string) (l : list (string * string)) : option string :=
  match l with
  | [] => None
  | (k, v) :: rest => if String.eqb k key then Some v else assoc key rest
  end.

Definition attribute (key : string) (n : Node) : option string :=
  match n with
  | Element _ attrs _ => assoc key attrs
  | Text _ => None
  end.

Definition elementsNamed (name : string) (d : Document) : list Node :=
  List.filter (fun n => String.eqb (nodeName n) name) (rootChildren d).

Definition contextElements (d : Document) : list Node := elementsNamed "xbrli:context" d.
Definition unitElements (d : Document) : list Node := elementsNamed "xbrli:unit" d.

Definition ids (nodes : list Node) : list string :=
  TaxonomyMappingService.catOptions (map (attribute "id") nodes).

(** A fact is an element that carries a [contextRef]. *)
Definition facts (d : Document) : list Node :=
  List.filter (fun n => TaxonomyMappingService.isSome (attribute "contextRef" n))
         (rootChildren d).

Definition memberOf (x : string) (l : list string) : bool :=
  existsb (String.eqb x) l.

(** Every reference the fact makes names something the document declares. *)
Definition referencesResolve (d : Document) (fact : Node) : bool :=
  match attribute "contextRef" fact with
  | Some c => memberOf c (ids (contextElements d))
  | None => true
  end
  && match attribute "unitRef" fact with
     | Some u => memberOf u (ids (unitElements d))
     | None => true
     end.

End XBRLGenerator.

(** ** src/lib/services/JobQueueService.ts *)

Module JobQueueService.

Inductive Status := pending | processing | completed | failed.

(** A row of [conversion_jobs] as [mapDbJobToJob] reads it: a text column
    that holds null or the empty text reads as undefined.  Times are
    milliseconds since the epoch. *)
Record Job := {
  id : string;
  documentId : string;
  status : Status;
  progress : Z;
  startedAt : option Z;
  completedAt : option Z;
  errorMessage : option string;
  outputUrl : option string;
  retryCount : Z;
  createdAt : Z;
  updatedAt : Z
}.

(** The object handed to [updateJob]; [scheduleRetry] also puts a
    [retryCount] into it and [markJobAsFailed] a [completedAt]. *)
Record JobUpdateData := {
  newStatus : option Status;
  newProgress : option Z;
  newErrorMessage : option string;
  newOutputUrl : option string;
  newRetryCount : option Z;
  newCompletedAt : option Z
}.

(** The job table, the timers set with [setTimeout] (job and delay in
    milliseconds, latest first) and the clock read by [new Date()]. *)
Record World := {
  jobs : gmap string Job;
  timers : list (string * Z);
  clock : Z
}.

Definition MAX_RETRIES : Z := 3.
Definition RETRY_DELAY_MS : Z := 5000.

(** The identifier is the text of a uuid, as the column requires; a
    text that the database does not read as a uuid makes the query fail,
    which is not represented. *)
Definition getJob (jobId : string) (w : World) : option Job := jobs w !! jobId.

(** [x || undefined] in [mapDbJobToJob] *)
Definition orUndefined (x : string) : option string :=
  if String.eqb x "" then None else Some x.

Definition orElse {A} (x : option A) (old : A) : A :=
  match x with Some v => v | None => old end.

Definition orKeep {A} (x old : option A) : option A :=
  match x with Some v => Some v | None => old end.

(** [set(updateData)] on the row of the job.  The table keeps the row as
    [mapDbJobToJob] reads it, so a text that is written goes through
    [orUndefined]. *)
Definition applyUpdate (now : Z) (data : JobUpdateData) (job : Job) : Job :=
  {| id := id job;
     documentId := documentId job;
     status := orElse (newStatus data) (status job);
     progress := orElse (newProgress data) (progress job);
     startedAt :=
       match newStatus data with
       | Some processing => Some now
       | _ => startedAt job
       end;
     completedAt :=
       match newStatus data with
       | Some completed | Some failed => Some now
       | _ => orKeep (newCompletedAt data) (completedAt job)
       end;
     errorMessage :=
       match newErrorMessage data with
       | Some message => orUndefined message
       | None => errorMessage job
       end;
     outputUrl :=
       match newOutputUrl data with
       | Some url => orUndefined url
       | None => outputUrl job
       end;
     retryCount := orElse (newRetryCount data) (retryCount job);
     createdAt := createdAt job;
     updatedAt := now |}.

Definition noRowMessage : string :=
  "Cannot read properties of undefined (reading 'id')".

(** When no row has the identifier, [result[0]] is undefined and
    [mapDbJobToJob] throws a TypeError, which the handler rewraps. *)
Definition updateJob (jobId : string) (data : JobUpdateData) (w : World)
  : JS.Outcome Job * World :=
  match jobs w !! jobId with
  | Some job =>
      let job' := applyUpdate (clock w) data job in
      (JS.Return job',
       {| jobs := <[jobId := job']> (jobs w); timers := timers w; clock := clock w |})
  | None =>
      (JS.Throw (JS.ErrorObject ("Failed to update job: " ++ noRowMessage)), w)
  end.

Definition retryMessage (retryCount : Z) : string :=
  ("Retrying (attempt " ++ JS.intToString retryCount ++ "/"
   ++ JS.intToString MAX_RETRIES ++ ")")%string.

Definition scheduleRetry (jobId : string) (retryCount : Z) (w : World)
  : JS.Outcome (option Job) * World :=
  (* Update job for retry *)
  match updateJob jobId
          {| newStatus := Some pending;
             newRetryCount := Some retryCount;
             newErrorMessage := Some (retryMessage retryCount);
             newProgress := Some 0;
             newOutputUrl := None;
             newCompletedAt := None |} w with
  | (JS.Throw e, w') =>
      (JS.Throw (JS.ErrorObject ("Failed to schedule retry: " ++ JS.messageOf e)), w')
  | (JS.Return _, w') =>
      (* Schedule retry in background *)
      let w'' := {| jobs := jobs w';
                    timers := (jobId, RETRY_DELAY_MS * retryCount) :: timers w';
                    clock := clock w' |} in
      (JS.Return (getJob jobId w''), w'')
  end.

(** The promises of [scheduleRetry] and [updateJob] are returned without
    being awaited, so their rejections pass the handler unchanged. *)
Definition markJobAsFailed (jobId : string) (errorMessage : string) (w : World)
  : JS.Outcome (option Job) * World :=
  match getJob jobId w with
  | None =>
      (JS.Throw (JS.ErrorObject "Failed to mark job as failed: Job not found"), w)
  | Some job =>
      (* Check if we should retry *)
      if retryCount job <? MAX_RETRIES then
        scheduleRetry jobId (retryCount job + 1) w
      else
        (* Mark as permanently failed *)
        match updateJob jobId
                {| newStatus := Some failed;
                   newErrorMessage := Some errorMessage;
                   newCompletedAt := Some (clock w);
                   newProgress := None;
                   newOutputUrl := None;
                   newRetryCount := None |} w with
        | (JS.Return j, w') => (JS.Return (Some j), w')
        | (JS.Throw e, w') => (JS.Throw e, w')
        end
  end.

(** The callback of the timer only logs; it leaves the table as it is. *)
Definition processRetry (jobId : string) (w : World) : World := w.

(** *** The retry request of app/api/conversions/jobs/[jobId]/route.ts *)

Inductive Response :=
| Accepted (retryCount : Z)
| Rejected (httpStatus : Z) (error : string).

(** [session] tells whether the caller is signed in and [owns] whether
    the job's document belongs to the caller. *)
Definition retryRequest (session owns : bool) (jobId : string) (w : World)
  : Response * World :=
  if negb session then (Rejected 401 "Unauthorized", w) else
  match getJob jobId w with
  | None => (Rejected 404 "Job not found", w)
  | Some job =>
      if negb owns then (Rejected 403 "Access denied", w) else
      (* Only allow retry of failed jobs *)
      match status job with
      | failed =>
          (* Check if retry limit has been reached *)
          if 3 <=? retryCount job
          then (Rejected 400 "Maximum retry limit reached", w)
          else
            match scheduleRetry jobId (retryCount job + 1) w with
            | (JS.Return _, w') => (Accepted (retryCount job + 1), w')
            | (JS.Throw _, w') => (Rejected 500 "Internal server error", w')
            end
      | _ => (Rejected 400 "Can only retry failed jobs", w)
      end
  end.

(** A job as [createJob] inserts it. *)
Definition newJob (jobId docId : string) (now : Z) : Job :=
  {| id := jobId; documentId := docId; status := pending; progress := 0;
     startedAt := None; completedAt := None; errorMessage := None;
     outputUrl := None; retryCount := 0; createdAt := now; updatedAt := now |}.

(** [n] failed processing attempts in a row, each reported with
    [markJobAsFailed]. *)
Fixpoint failTimes (n : nat) (jobId : string) (errorMessage : string) (w : World)
  : World :=
  match n with
  | O => w
  | S k => snd (markJobAsFailed jobId errorMessage (failTimes k jobId errorMessage w))
  end.

(** *** Progress *)

(** The update of [updateJobProgress] has no [returning] clause: when no
    row has the identifier nothing is written and nothing is thrown.
    (The handler rethrows the error of a query that fails, as for a text
    that is not a uuid.) *)
Definition updateJobProgress (jobId : string) (progress : Z) (w : World) : World :=
  match jobs w !! jobId with
  | Some job =>
      let job' :=
        {| id := id job;
           documentId := documentId job;
           status := status job;
           progress := Z.max 0 (Z.min 100 progress);
           startedAt := startedAt job;
           completedAt := completedAt job;
           errorMessage := errorMessage job;
           outputUrl := outputUrl job;
           retryCount := retryCount job;
           createdAt := createdAt job;
           updatedAt := clock w |} in
      {| jobs := <[jobId := job']> (jobs w); timers := timers w; clock := clock w |}
  | None => w
  end.

(** *** The cancel request ([DELETE]) of
    app/api/conversions/jobs/[jobId]/route.ts *)

Inductive CancelResponse :=
| Cancelled
| Refused (httpStatus : Z) (error : string).

Definition cancelledMessage : string := "Job cancelled by user".

Definition cancelRequest (session owns : bool) (jobId : string) (w : World)
  : CancelResponse * World :=
  if negb session then (Refused 401 "Unauthorized", w) else
  (* Validate job ID *)
  if String.eqb jobId "" then (Refused 400 "Invalid job ID", w) else
  match getJob jobId w with
  | None => (Refused 404 "Job not found", w)
  | Some job =>
      if negb owns then (Refused 403 "Access denied", w) else
      (* Only allow deletion of completed or failed jobs *)
      match status job with
      | completed | failed =>
          match updateJob jobId
                  {| newStatus := Some failed;
                     newErrorMessage := Some cancelledMessage;
                     newCompletedAt := Some (clock w);
                     newProgress := None;
                     newOutputUrl := None;
                     newRetryCount := None |} w with
          | (JS.Return _, w') => (Cancelled, w')
          | (JS.Throw _, w') => (Refused 500 "Internal server error", w')
          end
      | _ => (Refused 400 "Cannot delete job that is currently processing", w)
      end
  end.

End JobQueueService.

(** ** src/lib/services/ConversionService.ts *)

Module ConversionService.
Import Types.

(** *** The taxonomy step *)

(** [{ ...item, taxonomyMatch: mappingResult.match }] when there is a
    match, the item itself otherwise. *)
Definition withMatch (item : FinancialItem) (m : option TaxonomyMatch) : FinancialItem :=
  match m with
  | Some t =>
      {| concept := concept item;
         value := value item;
         unit := unit item;
         decimals := decimals item;
         isNil := isNil item;
         sourceReference := sourceReference item;
         itemConfidence := itemConfidence item;
         taxonomyMatch := Some t |}
  | None => item
  end.

(** [statement.items.map((item, index) => ...)] with
    [mappingResults[index]]. *)
Definition attachMatches (items : list FinancialItem)
    (mappingResults : list (FinancialItem * option TaxonomyMatch))
  : list FinancialItem :=
  imap (fun index item =>
          match mappingResults !! index with
          | Some mappingResult => withMatch item (snd mappingResult)
          | None => item
          end) items.

(** [DocumentInfo] has no [sector], so the sector context is ['all']. *)
Definition mapStatement (db : TaxonomyMappingService.Database)
    (statement : FinancialStatement) : FinancialStatement :=
  let mappingResults :=
    TaxonomyMappingService.mapFinancialItems db (Some "all"%string)
      (Some (reportTypeName (type statement))) (items statement) in
  {| type := type statement;
     periodEndDate := periodEndDate statement;
     fiscalYear := fiscalYear statement;
     fiscalQuarter := fiscalQuarter statement;
     items := attachMatches (items statement) mappingResults;
     metadata := metadata statement |}.

Definition mapToTaxonomy (db : TaxonomyMappingService.Database)
    (financialData : FinancialData) : FinancialData :=
  {| documentInfo := documentInfo financialData;
     financialStatements := map (mapStatement db) (financialStatements financialData);
     processing := processing financialData |}.

(** *** The conversion of a document *)

(** A row of [documents], the columns that the service reads. *)
Record DocumentRow := {
  docId : string;
  docFileName : string;
  docOriginalName : string;
  docFileType : string;
  docStorageUrl : string
}.

Record ConversionOptions := {
  targetFramework : option string;
  targetCurrency : option string;
  aiAssistedMapping : bool
}.

Record ConversionResult := {
  success : bool;
  resultJobId : string;
  resultDocumentId : string;
  xbrlUrl : option string;
  resultMetadata : option XBRLGenerator.Metadata;
  error : option string
}.

(** What the service takes from its surroundings: the table of
    documents, the [parse] method of the parser of each class, the
    taxonomy tables, the current time, the XML builder of the generator,
    and the writes of [saveConversionResults] to the database and the
    storage, which end with the address of the output or fail.  The rows
    written to [ai_processing_logs] are not represented. *)
Record Host := {
  documents : list DocumentRow;
  parse : ParserFactory.Parser -> list Byte.byte -> string -> JS.Outcome FinancialData;
  database : TaxonomyMappingService.Database;
  today : JSDate.Date;
  xmlBuilder : XBRLGenerator.Host;
  writeResults : string -> FinancialData -> XBRLGenerator.GeneratedXBRL
                 -> JS.Outcome string
}.

(** The identifier is the text of a uuid; the handler, which rethrows the
    error of a query that fails, is not entered. *)
Definition retrieveDocument (h : Host) (documentId : string) : option DocumentRow :=
  head (List.filter (fun d => String.eqb (docId d) documentId) (documents h)).

(** The buffer is the simulated empty one of the source. *)
Definition parseFinancialData (h : Host) (storageUrl fileName fileType : string)
  : JS.Outcome FinancialData :=
  JS.tryCatch
    (let buffer : list Byte.byte := [] in
     match ParserFactory.getParser ParserFactory.parserFactory fileType None with
     | None =>
         JS.Throw (JS.ErrorObject
                     ("No parser available for file type: " ++ fileType)%string)
     | Some parser => parse h parser buffer fileName
     end)
    (fun error =>
       JS.Throw (JS.ErrorObject
                   ("Failed to parse financial data: " ++ JS.messageOf error)%string)).

(** [documentInfo.periodEndDate] is set by no parser and is not
    represented, so the document date is the current time. *)
Definition generateXBRL (h : Host) (financialData : FinancialData)
    (document : DocumentRow) (options : ConversionOptions)
  : JS.Outcome XBRLGenerator.GeneratedXBRL :=
  let xbrlOptions :=
    {| XBRLGenerator.optFramework :=
         BaseParser.orDefault (targetFramework options) "US-GAAP";
       XBRLGenerator.optCurrency :=
         BaseParser.orDefault (targetCurrency options)
           (BaseParser.orDefault (Some (currency (documentInfo financialData))) "USD");
       XBRLGenerator.documentDate := today h;
       XBRLGenerator.optCompanyName :=
         BaseParser.orDefault (companyName (documentInfo financialData))
                              (docOriginalName document);
       XBRLGenerator.identifier := Some (docId document);
       XBRLGenerator.scheme := None |} in
  JS.tryCatch
    (XBRLGenerator.generateXBRL (xmlBuilder h) (financialStatements financialData)
                                xbrlOptions)
    (fun error =>
       JS.Throw (JS.ErrorObject
                   ("Failed to generate XBRL: " ++ JS.messageOf error)%string)).

Definition saveConversionResults (h : Host) (jobId : string)
    (financialData : FinancialData) (xbrlResult : XBRLGenerator.GeneratedXBRL)
  : JS.Outcome string :=
  JS.tryCatch
    (writeResults h jobId financialData xbrlResult)
    (fun error =>
       JS.Throw (JS.ErrorObject
                   ("Failed to save conversion results: " ++ JS.messageOf error)%string)).

Definition noFinancialData : string :=
  "No financial data could be extracted from the document".

(** The [try] block of [processDocument], with the job table threaded
    through its steps. *)
Definition processBody (h : Host) (jobId documentId : string)
    (options : ConversionOptions) (w : JobQueueService.World)
  : JS.Outcome ConversionResult * JobQueueService.World :=
  match JobQueueService.updateJob jobId
          {| JobQueueService.newStatus := Some JobQueueService.processing;
             JobQueueService.newProgress := Some 0;
             JobQueueService.newErrorMessage := None;
             JobQueueService.newOutputUrl := None;
             JobQueueService.newRetryCount := None;
             JobQueueService.newCompletedAt := None |} w with
  | (JS.Throw e, w0) => (JS.Throw e, w0)
  | (JS.Return _, w0) =>
  (* Step 1: Retrieve document *)
  match retrieveDocument h documentId with
  | None =>
      (JS.Throw (JS.ErrorObject ("Document not found: " ++ documentId)%string), w0)
  | Some document =>
  let w1 := JobQueueService.updateJobProgress jobId 10 w0 in
  (* Step 2: Parse financial data *)
  match parseFinancialData h (docStorageUrl document) (docFileName document)
                           (docFileType document) with
  | JS.Throw e => (JS.Throw e, w1)
  | JS.Return financialData =>
  match financialStatements financialData with
  | [] => (JS.Throw (JS.ErrorObject noFinancialData), w1)
  | _ :: _ =>
  let w2 := JobQueueService.updateJobProgress jobId 30 w1 in
  (* Step 3: Map to taxonomy *)
  let mappedData := mapToTaxonomy (database h) financialData in
  let w3 := JobQueueService.updateJobProgress jobId 60 w2 in
  (* Step 4: Generate XBRL *)
  match generateXBRL h mappedData document options with
  | JS.Throw e => (JS.Throw e, w3)
  | JS.Return xbrlResult =>
  let w4 := JobQueueService.updateJobProgress jobId 80 w3 in
  (* Step 5: Save results *)
  match saveConversionResults h jobId mappedData xbrlResult with
  | JS.Throw e => (JS.Throw e, w4)
  | JS.Return outputUrl =>
  let w5 := JobQueueService.updateJobProgress jobId 100 w4 in
  (* Complete job *)
  match JobQueueService.updateJob jobId
          {| JobQueueService.newStatus := Some JobQueueService.completed;
             JobQueueService.newOutputUrl := Some outputUrl;
             JobQueueService.newProgress := None;
             JobQueueService.newErrorMessage := None;
             JobQueueService.newRetryCount := None;
             JobQueueService.newCompletedAt := None |} w5 with
  | (JS.Throw e, w6) => (JS.Throw e, w6)
  | (JS.Return _, w6) =>
      (JS.Return {| success := true;
                    resultJobId := jobId;
                    resultDocumentId := documentId;
                    xbrlUrl := Some outputUrl;
                    resultMetadata := Some (XBRLGenerator.generated xbrlResult);
                    error := None |}, w6)
  end end end end end end end.

(** The handler hands the job to [markJobAsFailed]; when that throws in
    its turn, [processDocument] rejects.  With [aiAssistedMapping] the
    handler first calls [logAIProcessing], which catches its own errors
    and writes to a table that nothing here reads. *)
Definition processDocument (h : Host) (jobId documentId : string)
    (options : ConversionOptions) (w : JobQueueService.World)
  : JS.Outcome ConversionResult * JobQueueService.World :=
  match processBody h jobId documentId options w with
  | (JS.Return result, w') => (JS.Return result, w')
  | (JS.Throw e, w') =>
      let errorMessage := JS.messageOf e in
      match JobQueueService.markJobAsFailed jobId errorMessage w' with
      | (JS.Throw e', w'') => (JS.Throw e', w'')
      | (JS.Return _, w'') =>
          (JS.Return {| success := false;
                        resultJobId := jobId;
                        resultDocumentId := documentId;
                        xbrlUrl := None;
                        resultMetadata := None;
                        error := Some errorMessage |}, w'')
      end
  end.

End ConversionService.

(** ** The properties as the specification words them

    [Spec] holds the notions that the statements of Part II compare the
    code with: the staged selection and the fuzzy score as the
    specification describes them, and the entries that a failure of a
    parser leaves. *)

Module Spec.
Import Types.
Import TaxonomyMappingService.

(** *** Staged matching *)

Inductive Stage := ExactStage | FuzzyStage | AssistedStage | FallbackStage.

Definition meets (threshold : Z) (candidate : option MappingResult) : bool :=
  match candidate with
  | Some c => threshold <=? confidence c
  | None => false
  end.

(** The candidate of highest confidence, the earliest one among equals. *)
Fixpoint highest (candidates : list MappingResult) : option MappingResult :=
  match candidates with
  | [] => None
  | c :: rest =>
      match highest rest with
      | Some d => if confidence c <? confidence d then Some d else Some c
      | None => Some c
      end
  end.

Definition stagedSelection (exact fuzzy assisted : option MappingResult)
  : option (Stage * MappingResult) :=
  if meets 95 exact then option_map (pair ExactStage) exact
  else if meets 80 fuzzy then option_map (pair FuzzyStage) fuzzy
  else if meets 70 assisted then option_map (pair AssistedStage) assisted
  else match highest (catOptions [exact; fuzzy; assisted]) with
       | Some best =>
           if 60 <=? confidence best then Some (FallbackStage, best) else None
       | None => None
       end.

Definition methodOf (stage : Stage) (c : MappingResult) : string :=
  match stage with
  | ExactStage => "exact_match"
  | FuzzyStage => "fuzzy_match"
  | AssistedStage => "ai_assisted"
  | FallbackStage => mappingMethod c
  end.

(** The engine's answer is the candidate the selection chose: none for
    none, otherwise the same tag, framework and confidence under the
    method of the stage. *)
Definition answers (result : option TaxonomyMatch)
    (chosen : option (Stage * MappingResult)) : Prop :=
  match chosen, result with
  | None, None => True
  | Some (stage, c), Some t =>
      Types.xbrlTag t = xbrlTag c
      /\ Types.taxonomyFramework t = taxonomyFramework c
      /\ Types.confidence t = confidence c
      /\ Types.mappingMethod t = methodOf stage c
  | _, _ => False
  end.

(** The match was returned by the exact-match stage: the stage found a
    candidate, the candidate met the threshold, and the engine returned
    [t]. *)
Definition returnedByExactStage (db : Database) (item : FinancialItem)
    (sector reportType : option string) (t : TaxonomyMatch) : Prop :=
  exists m,
    findExactMapping db (concept item) sector reportType = Some m
    /\ 95 <= confidence m
    /\ mapFinancialItem db item sector reportType = Some t.

(** *** The fuzzy score *)

Definition wordPairs (label candidate : string) : list (string * string) :=
  list_prod (JS.splitWhitespace (JS.toLowerCase label))
            (JS.splitWhitespace (JS.toLowerCase candidate)).

Definition isExactOverlap (p : string * string) : bool :=
  String.eqb (fst p) (snd p).

Definition isPartialOverlap (p : string * string) : bool :=
  negb (String.eqb (fst p) (snd p))
  && (JS.includes (snd p) (fst p) || JS.includes (fst p) (snd p)).

Definition exactOverlaps (label candidate : string) : Z :=
  Z.of_nat (length (List.filter isExactOverlap (wordPairs label candidate))).

Definition partialOverlaps (label candidate : string) : Z :=
  Z.of_nat (length (List.filter isPartialOverlap (wordPairs label candidate))).

(** [20 * |lenA - lenB| / max(lenA, lenB)] *)
Definition penalty (label candidate : string) : Q :=
  (20 * inject_Z (Z.abs (JS.strlen label - JS.strlen candidate))
   / inject_Z (Z.max (JS.strlen label) (JS.strlen candidate)))%Q.

Definition rawScore (label candidate : string) : Q :=
  (inject_Z (20 * exactOverlaps label candidate
             + 10 * partialOverlaps label candidate)
   - penalty label candidate)%Q.

Definition clamp (x : Q) : Q := Qmin 100 (Qmax 0 x).

Definition equalIgnoringCase (a b : string) : bool :=
  String.eqb (JS.toLowerCase a) (JS.toLowerCase b).

Definition synonymTableHit (label : string) (synonyms : list string) : bool :=
  existsb (equalIgnoringCase label) synonyms.

(** The score as the claim words it. *)
Definition claimedScore (label candidate : string) (synonyms : list string) : Q :=
  if equalIgnoringCase label candidate then 100
  else if synonymTableHit label synonyms then 95
  else clamp (rawScore label candidate).

(** The same with the clamped value rounded to the nearest integer. *)
Definition roundedScore (label candidate : string) (synonyms : list string) : Z :=
  if equalIgnoringCase label candidate then 100
  else if synonymTableHit label synonyms then 95
  else JS.mathRound (clamp (rawScore label candidate)).

(** *** Failures *)

(** A partial failure of the CSV parser: papaparse reports errors for
    some rows and still delivers rows. *)
Definition csvPartialFailure (h : CsvParser.Host) (buffer : list Byte.byte) : Prop :=
  exists parseResult,
    CsvParser.papaParse h (CsvParser.utf8 h buffer) = JS.Return parseResult
    /\ CsvParser.papaErrors parseResult <> []
    /\ CsvParser.data parseResult <> [].

(** The entries of critical severity that the two parsers record when
    the whole parse fails. *)
Definition csvCritical (e : JS.Error) : Entry :=
  {| code := "PARSE_FAILED";
     message := ("Failed to parse CSV file: " ++ JS.messageOf e)%string;
     severity := "critical";
     source := "CsvParser" |}.

Definition xbrlCritical (e : JS.Error) : Entry :=
  {| code := "XBRL_PARSE_ERROR";
     message := ("Failed to parse XBRL file: " ++ JS.messageOf e)%string;
     severity := "critical";
     source := "XbrlParser" |}.

(** The entry of severity 'error' for an error that papaparse reports:
    it carries the message of the report. *)
Definition rowError (e : CsvParser.PapaError) : Entry :=
  {| code := "CSV_PARSE_ERROR";
     message := if String.eqb (CsvParser.papaMessage e) ""
                then "Unknown error occurred" else CsvParser.papaMessage e;
     severity := "error";
     source := "CsvParser" |}.

End Spec.

(** ** Further notions of the statements of Part II

    These are not embedded from the sources: they say what a statement
    of Part II is about (the bounds of the job table, the text of a uuid,
    the filled cells of a CSV file, ...). *)

Module Notions.
Import Types.

(** *** Jobs *)

Definition isHexDigit (c : ascii) : bool := JS.isDigit c || JS.between 97 102 c.

(** The text of a uuid as the database prints it: 8-4-4-4-12 hexadecimal
    digits in lower case.  The identifiers of jobs and of documents are
    of the column type [uuid]; a text that the database does not read as
    a uuid makes a query fail. *)
Definition isUuid (s : string) : bool :=
  match JS.chars s with
  | [a1; a2; a3; a4; a5; a6; a7; a8; d1;
     b1; b2; b3; b4; d2;
     c1; c2; c3; c4; d3;
     e1; e2; e3; e4; d4;
     f1; f2; f3; f4; f5; f6; f7; f8; f9; f10; f11; f12] =>
      forallb (fun c => Ascii.eqb c "-") [d1; d2; d3; d4]
      && forallb isHexDigit
           [a1; a2; a3; a4; a5; a6; a7; a8; b1; b2; b3; b4;
            c1; c2; c3; c4; e1; e2; e3; e4;
            f1; f2; f3; f4; f5; f6; f7; f8; f9; f10; f11; f12]
  | _ => false
  end.

Definition jobWithinBounds (job : JobQueueService.Job) : Prop :=
  0 <= JobQueueService.progress job <= 100
  /\ 0 <= JobQueueService.retryCount job <= JobQueueService.MAX_RETRIES.

Definition tableWithinBounds (w : JobQueueService.World) : Prop :=
  map_Forall (fun _ job => jobWithinBounds job) (JobQueueService.jobs w).

(** The table [w'] in the course of a conversion that started on [w]:
    the job is there and processing, with the retry count and the output
    address that [job] has; the timers and the clock are those of [w]. *)
Definition inProgress (jobId : string) (job : JobQueueService.Job)
    (w w' : JobQueueService.World) : Prop :=
  JobQueueService.timers w' = JobQueueService.timers w
  /\ JobQueueService.clock w' = JobQueueService.clock w
  /\ exists job',
       JobQueueService.getJob jobId w' = Some job'
       /\ JobQueueService.status job' = JobQueueService.processing
       /\ JobQueueService.retryCount job' = JobQueueService.retryCount job
       /\ JobQueueService.outputUrl job' = JobQueueService.outputUrl job.

(** *** Generated documents *)

(** The error of [toISOString] on an invalid date. *)
Definition invalidTime : JS.Error := JS.ErrorObject "Invalid time value".

(** The error that stops the generation at a statement: that of
    [toISOString] when the period end is invalid, otherwise that of the
    XML builder. *)
Definition contextError (h : XBRLGenerator.Host) (statement : FinancialStatement)
  : JS.Error :=
  match periodEndDate statement with
  | JSDate.Invalid => invalidTime
  | JSDate.Time _ => XBRLGenerator.secondElement h
  end.

(** The result of a generation that failed with the [message]. *)
Definition failedGeneration (message : string) : XBRLGenerator.GeneratedXBRL :=
  {| XBRLGenerator.xbrlDocument := XBRLGenerator.EmptyDocument;
     XBRLGenerator.generated :=
       {| XBRLGenerator.totalFacts := 0;
          XBRLGenerator.frameworks := [];
          XBRLGenerator.currencies := [];
          XBRLGenerator.contexts := [];
          XBRLGenerator.validationIssues :=
            [("Generation failed: " ++ message)%string] |} |}.

(** No hyphen of the text follows a digit; [prev] tells whether the
    character before the text is a digit. *)
Fixpoint hyphensApart (prev : bool) (l : list ascii) : bool :=
  match l with
  | [] => true
  | c :: rest => negb (prev && Ascii.eqb c "-") && hyphensApart (JS.isDigit c) rest
  end.

Definition hyphenFree (l : list ascii) : bool :=
  forallb (fun c => negb (Ascii.eqb c "-")) l.

(** *** Parsed files *)

(** The filled fields of the rows from index [i] on, each with the index
    of its row: the fields whose text is not empty, and the arrays. *)
Fixpoint filledCells (i : Z) (rows : list CsvParser.Row)
  : list (Z * (string * CsvParser.Cell)) :=
  match rows with
  | [] => []
  | row :: rest =>
      map (pair i) (List.filter (fun kv => CsvParser.filled (snd kv)) row)
      ++ filledCells (i + 1) rest
  end.

(** The groups are those of [facts]: distinct keys, each with the facts
    of its context in their order, and none empty. *)
Definition groupsOf (facts : list XbrlParser.RawFact)
    (groups : list (string * list XbrlParser.RawFact)) : Prop :=
  List.NoDup (map fst groups)
  /\ (forall key members, In (key, members) groups ->
        members = List.filter (fun fact => String.eqb (XbrlParser.factContext fact) key)
                              facts
        /\ members <> [])
  /\ (forall fact, In fact facts -> In (XbrlParser.factContext fact) (map fst groups)).

(** The text has no letter and no digit. *)
Definition symbolsOnly (s : string) : bool :=
  forallb (fun c => negb (JS.isAlnum c)) (JS.chars s).

End Notions.

(** ** Concrete inputs used in the examples of Part II *)

Module Examples.
Import Types.

Definition plainItem (concept : string) (value : JS.Value) : FinancialItem :=
  {| concept := concept; value := value; unit := "USD"; decimals := None;
     isNil := None; sourceReference := None; itemConfidence := None;
     taxonomyMatch := None |}.

(** *** Taxonomy matching *)

(** A taxonomy with one concept and one learned mapping of confidence 97
    onto it. *)
Definition revenues : TaxonomyMappingService.TaxonomyRow :=
  {| TaxonomyMappingService.taxId := "t-revenues";
     TaxonomyMappingService.taxConcept := "Revenues";
     TaxonomyMappingService.taxXbrlTag := "us-gaap:Revenues";
     TaxonomyMappingService.taxSector := "all";
     TaxonomyMappingService.taxReportType := "income_statement";
     TaxonomyMappingService.taxFramework := "US-GAAP";
     TaxonomyMappingService.taxDescription := None;
     TaxonomyMappingService.taxSynonyms := Some ["Sales"; "Turnover"]%string |}.

Definition learnedDb : TaxonomyMappingService.Database :=
  {| TaxonomyMappingService.taxonomies := [revenues];
     TaxonomyMappingService.taxonomyMappings :=
       [{| TaxonomyMappingService.mapSourceField := "Net Sales";
           TaxonomyMappingService.mapTaxonomyId := "t-revenues";
           TaxonomyMappingService.mapConfidence := 97;
           TaxonomyMappingService.mapMethod := "manual";
           TaxonomyMappingService.mapIsActive := true |}] |}.

Definition netSales : FinancialItem := plainItem "Net Sales" (JS.VNum (JS.ofZ 1000)).

Definition netSalesMatch : TaxonomyMatch :=
  {| xbrlTag := "us-gaap:Revenues"; taxonomyFramework := "US-GAAP";
     confidence := 97; mappingMethod := "exact_match"; synonyms := Some [] |}.

(** What the fuzzy stage finds for the label "sales" among the concepts of
    income statements: the synonym "Sales" of "Revenues". *)
Definition salesFuzzyMatch : TaxonomyMappingService.MappingResult :=
  {| TaxonomyMappingService.xbrlTag := "us-gaap:Revenues";
     TaxonomyMappingService.taxonomyFramework := "US-GAAP";
     TaxonomyMappingService.confidence := 95;
     TaxonomyMappingService.mappingMethod := "fuzzy_match";
     TaxonomyMappingService.taxonomyConcept := "Revenues";
     TaxonomyMappingService.description := None |}.

(** *** Parsing *)

Definition newline : string := String (ascii_of_nat 10) "".

Definition shortRowText : string :=
  ("Revenue,Cost" ++ newline ++ "1000" ++ newline)%string.

(** A host that decodes ASCII and whose papaparse answers for
    [shortRowText] as the library does: the row is delivered with the one
    field it has, and two errors are reported, one for the delimiter,
    which the two lines do not let the library detect, and one for the
    row, which is short of a field. *)
Definition rowErrorHost : CsvParser.Host :=
  {| CsvParser.utf8 := string_of_list_byte;
     CsvParser.papaParse := fun text =>
       if String.eqb text shortRowText then
         JS.Return
           {| CsvParser.data := [[("Revenue", CsvParser.CellText "1000")]%string];
              CsvParser.papaErrors :=
                [{| CsvParser.papaMessage :=
                      "Unable to auto-detect delimiting character; defaulted to ','";
                    CsvParser.papaRow := None |};
                 {| CsvParser.papaMessage :=
                      "Too few fields: expected 2 fields but parsed 1";
                    CsvParser.papaRow := Some 0 |}] |}
       else JS.Return {| CsvParser.data := []; CsvParser.papaErrors := [] |};
     CsvParser.dateOfString := fun _ => JSDate.Invalid;
     CsvParser.now := JSDate.ofYMD 2024 0 15 |}.

Definition shortRowBuffer : list Byte.byte := list_byte_of_string shortRowText.

(** *** Generation *)

Definition yearEnd2023 : JSDate.Date := JSDate.ofYMD 2023 11 31.

Definition statementOf (t : ReportType) (quarter : option Z)
    (items : list FinancialItem) : FinancialStatement :=
  {| type := t; periodEndDate := yearEnd2023; fiscalYear := 2023;
     fiscalQuarter := quarter; items := items; metadata := None |}.

Definition revenue : FinancialItem := plainItem "Revenue" (JS.VNum (JS.ofZ 1000)).

Definition incomeStatement : FinancialStatement :=
  statementOf income_statement None [revenue].

Definition balanceSheet : FinancialStatement :=
  statementOf balance_sheet None [plainItem "Cash" (JS.VNum (JS.ofZ 250))].

Definition optionsFor (currency : string) : XBRLGenerator.XBRLGenerationOptions :=
  {| XBRLGenerator.optFramework := "US-GAAP";
     XBRLGenerator.optCurrency := currency;
     XBRLGenerator.documentDate := yearEnd2023;
     XBRLGenerator.optCompanyName := "ACME";
     XBRLGenerator.identifier := None;
     XBRLGenerator.scheme := None |}.

Definition incomeContextId : string := "AsOf_20231231_income_statement_2023Q".

(** *** Jobs *)

(** Identifiers as the database makes them. *)
Definition queuedJobId : string := "7f1d3c52-9a41-4c0e-8b77-2f6a1d90e3b4".
Definition absentJobId : string := "0b9e4a17-5d26-4f83-9c3a-6e8f2b71d045".
Definition storedDocumentId : string := "c2a85e90-31f7-4b6d-a4e2-9d0c7f53b168".
Definition absentDocumentId : string := "e64b7d03-8c19-4a52-b0f6-1a3d5c9e2f70".

Definition freshJob : JobQueueService.Job :=
  JobQueueService.newJob queuedJobId storedDocumentId 1700000000000.

Definition freshWorld : JobQueueService.World :=
  {| JobQueueService.jobs := {[ queuedJobId := freshJob ]};
     JobQueueService.timers := [];
     JobQueueService.clock := 1700000060000 |}.

(** A job that has been converted. *)
Definition finishedJob : JobQueueService.Job :=
  {| JobQueueService.id := queuedJobId;
     JobQueueService.documentId := storedDocumentId;
     JobQueueService.status := JobQueueService.completed;
     JobQueueService.progress := 100;
     JobQueueService.startedAt := Some 1700000000000;
     JobQueueService.completedAt := Some 1700000030000;
     JobQueueService.errorMessage := None;
     JobQueueService.outputUrl := Some "https://storage.example.com/xbrl/annual-report.xbrl";
     JobQueueService.retryCount := 0;
     JobQueueService.createdAt := 1700000000000;
     JobQueueService.updatedAt := 1700000030000 |}.

Definition finishedWorld : JobQueueService.World :=
  {| JobQueueService.jobs := {[ queuedJobId := finishedJob ]};
     JobQueueService.timers := [];
     JobQueueService.clock := 1700000060000 |}.

(** *** Further inputs *)

Definition emptyDb : TaxonomyMappingService.Database :=
  {| TaxonomyMappingService.taxonomies := [];
     TaxonomyMappingService.taxonomyMappings := [] |}.

(** A host of the XBRL parser that finds nothing in a text. *)
Definition blankXbrlHost : XbrlParser.Host :=
  {| XbrlParser.utf8 := string_of_list_byte;
     XbrlParser.now := JSDate.ofYMD 2024 0 15;
     XbrlParser.extractCompanyNameFromXBRL := fun _ => None;
     XbrlParser.extractCurrencyFromXBRL := fun _ => None;
     XbrlParser.extractFinancialItemsFromXBRL := fun _ => JS.Return [] |}.

Definition csvDocument : ConversionService.DocumentRow :=
  {| ConversionService.docId := storedDocumentId;
     ConversionService.docFileName := "report.csv";
     ConversionService.docOriginalName := "Annual report.csv";
     ConversionService.docFileType := "csv";
     ConversionService.docStorageUrl := "https://storage.example.com/report.csv" |}.

(** An XML builder that takes every text handed to [create] as the name
    of an element; the texts of its errors stand for those of the
    library. *)
Definition xmlBuilder : XBRLGenerator.Host :=
  {| XBRLGenerator.create := fun name =>
       JS.Return {| XBRLGenerator.documentElement :=
                      Some (XBRLGenerator.Element name [] []) |};
     XBRLGenerator.create_context := eq_refl;
     XBRLGenerator.secondElement :=
       JS.ErrorObject "HierarchyRequestError: the document has its element";
     XBRLGenerator.attributeOfDocument :=
       JS.ErrorObject "an attribute needs an element";
     XBRLGenerator.textOfDocument :=
       JS.ErrorObject "HierarchyRequestError: a document takes no text";
     XBRLGenerator.importNode := fun builder =>
       match XBRLGenerator.documentElement builder with
       | Some element => JS.Return [element]
       | None => JS.Return []
       end |}.

(** A host of the conversion service with one CSV document, whose
    parsers read the CSV and XBRL files as above and nothing else. *)
Definition conversionHost : ConversionService.Host :=
  {| ConversionService.documents := [csvDocument];
     ConversionService.xmlBuilder := xmlBuilder;
     ConversionService.parse := fun parser buffer fileName =>
       match parser with
       | ParserFactory.csvParser => CsvParser.parse rowErrorHost buffer fileName
       | ParserFactory.xbrlParser => XbrlParser.parse blankXbrlHost buffer fileName
       | _ => JS.Throw JS.ThrownValue
       end;
     ConversionService.database := learnedDb;
     ConversionService.today := JSDate.ofYMD 2024 0 15;
     ConversionService.writeResults := fun jobId _ _ =>
       JS.Return ("https://storage.example.com/xbrl-" ++ jobId ++ ".xbrl")%string |}.

Definition defaultOptions : ConversionService.ConversionOptions :=
  {| ConversionService.targetFramework := None;
     ConversionService.targetCurrency := None;
     ConversionService.aiAssistedMapping := false |}.

End Examples.

(** Closed statements about concrete inputs are settled by evaluation. *)
Ltac evaluate := vm_compute; reflexivity.

(* ===================================================================== *)
(** * Part II.  Properties                                                *)
(* ===================================================================== *)

(** ** Strings *)

Lemma chars_str (l : list ascii) : JS.chars (JS.str l) = l.
Proof. apply list_ascii_of_string_of_list_ascii. Qed.

Lemma length_str (l : list ascii) : String.length (JS.str l) = length l.
Proof. induction l; simpl; [reflexivity|]. now f_equal. Qed.

Lemma length_chars (s : string) : length (JS.chars s) = String.length s.
Proof. induction s; simpl; [reflexivity|]. now f_equal. Qed.

Lemma strlen_toLowerCase (s : string) : JS.strlen (JS.toLowerCase s) = JS.strlen s.
Proof.
  unfold JS.strlen, JS.toLowerCase.
  now rewrite length_str, length_map, length_chars.
Qed.

(** The first character that survives [removeAll] is outside the class. *)
Lemma removeAll_head (cls : ascii -> bool) (s : string) (c : ascii) (rest : list ascii) :
  JS.chars (JS.removeAll cls s) = c :: rest -> cls c = false.
Proof.
  unfold JS.removeAll. rewrite chars_str.
  induction (JS.chars s) as [|x xs IH]; cbn [List.filter]; [discriminate|].
  destruct (cls x) eqn:E; cbn [negb]; [exact IH|].
  intros H. inversion H; subst. exact E.
Qed.

(** ** Rounding *)

Lemma mathRound_mono (x y : Q) : (x <= y)%Q -> JS.mathRound x <= JS.mathRound y.
Proof.
  intros H. unfold JS.mathRound. apply Qfloor_resp_le.
  apply Qplus_le_l. exact H.
Qed.

Lemma mathRound_comp (x y : Q) : (x == y)%Q -> JS.mathRound x = JS.mathRound y.
Proof. intros H. unfold JS.mathRound. apply Qfloor_comp. now rewrite H. Qed.

(** Capping the rounded value at 100 is rounding the value capped at 100. *)
Lemma mathRound_clamp (x : Q) :
  Z.min 100 (JS.mathRound (Qmax 0 x)) = JS.mathRound (Spec.clamp x).
Proof.
  unfold Spec.clamp.
  destruct (Qlt_le_dec 100 (Qmax 0 x)) as [Hgt|Hle].
  - assert (H100 : JS.mathRound 100 = 100) by reflexivity.
    rewrite (mathRound_comp (Qmin 100 (Qmax 0 x)) 100).
    + rewrite H100. apply Z.min_l. rewrite <- H100 at 1.
      apply mathRound_mono. now apply Qlt_le_weak.
    + apply Q.min_l. now apply Qlt_le_weak.
  - rewrite (mathRound_comp (Qmin 100 (Qmax 0 x)) (Qmax 0 x)).
    + apply Z.min_r. change 100 with (JS.mathRound 100).
      now apply mathRound_mono.
    + now apply Q.min_r.
Qed.

(** ** Sorting by confidence *)

Section SortDesc.
Context {A : Type} (conf : A -> Z).

Lemma sortDesc_cons (x : A) (l : list A) :
  TaxonomyMappingService.sortDesc conf (x :: l)
  = TaxonomyMappingService.insertDesc conf x (TaxonomyMappingService.sortDesc conf l).
Proof. reflexivity. Qed.

Lemma head_insertDesc (x : A) (sorted : list A) :
  head (TaxonomyMappingService.insertDesc conf x sorted)
  = match head sorted with
    | Some y => if conf x <? conf y then Some y else Some x
    | None => Some x
    end.
Proof.
  destruct sorted as [|y rest]; simpl; [reflexivity|].
  destruct (Z.leb_spec (conf y) (conf x)), (Z.ltb_spec (conf x) (conf y));
    simpl; try reflexivity; lia.
Qed.

Lemma In_insertDesc (x y : A) (l : list A) :
  In y (TaxonomyMappingService.insertDesc conf x l) -> y = x \/ In y l.
Proof.
  induction l as [|z rest IH]; simpl.
  - intros [<-|[]]. now left.
  - destruct (conf z <=? conf x); simpl.
    + intros [<-|H]; auto.
    + intros [<-|H]; auto. destruct (IH H); auto.
Qed.

Lemma In_sortDesc (y : A) (l : list A) :
  In y (TaxonomyMappingService.sortDesc conf l) -> In y l.
Proof.
  induction l as [|x rest IH]; [intros []|].
  rewrite sortDesc_cons. intros H. apply In_insertDesc in H.
  destruct H as [->|H]; [now left|right; auto].
Qed.

End SortDesc.

(** ** The taxonomy matching engine *)

Section Matching.
Import Types.
Import TaxonomyMappingService.

(** The head of the sorted candidates is the candidate of highest
    confidence, the earliest one among equals. *)
Lemma head_sortDesc_highest (l : list MappingResult) :
  head (sortDesc confidence l) = Spec.highest l.
Proof.
  induction l as [|c rest IH]; [reflexivity|].
  rewrite sortDesc_cons, head_insertDesc, IH. reflexivity.
Qed.

Lemma highest_is_maximal (l : list MappingResult) (best : MappingResult) :
  Spec.highest l = Some best ->
  In best l /\ forall c, In c l -> confidence c <= confidence best.
Proof.
  revert best. induction l as [|c rest IH]; simpl; intros best H; [discriminate|].
  destruct (Spec.highest rest) as [d|] eqn:E.
  - destruct (IH d eq_refl) as [Hin Hmax].
    destruct (Z.ltb_spec (confidence c) (confidence d)); inversion H; subst; clear H.
    + split; [now right|]. intros x [<-|Hx]; [lia|now apply Hmax].
    + split; [now left|]. intros x [<-|Hx]; [lia|]. specialize (Hmax x Hx). lia.
  - inversion H; subst. split; [now left|].
    intros x [<-|Hx]; [lia|].
    destruct rest; [contradiction|]. simpl in E.
    destruct (Spec.highest rest); [destruct (_ <? _)|]; discriminate.
Qed.

Lemma catOptions_filterBoolean {A} (l : list (option A)) :
  catOptions (filterBoolean l) = catOptions l.
Proof.
  induction l as [|[a|] rest IH]; simpl; [reflexivity| |assumption].
  unfold filterBoolean in *. simpl. now rewrite IH.
Qed.

Lemma selectBestMatch_highest (l : list (option MappingResult)) :
  selectBestMatch (filterBoolean l) = Spec.highest (catOptions l).
Proof.
  unfold selectBestMatch.
  rewrite <- (catOptions_filterBoolean l).
  destruct (filterBoolean l) as [|o rest] eqn:E; [reflexivity|].
  destruct (catOptions (o :: rest)) as [|v vs] eqn:Ec; [reflexivity|].
  apply head_sortDesc_highest.
Qed.

(** C2, as amended.  A match returned by the exact-match stage has
    mapping method 'exact_match' and confidence at least 95.  When the
    label has a learned mapping, the match carries the confidence stored
    with the first of these mappings and the tag and framework of its
    taxonomy row; when it has none, the match is a direct hit in the
    taxonomy table and its confidence is exactly 100. *)
Theorem C2_exact_stage_match db (item : FinancialItem)
    (sector reportType : option string) (t : TaxonomyMatch) :
  Spec.returnedByExactStage db item sector reportType t ->
  95 <= Types.confidence t
  /\ Types.mappingMethod t = "exact_match"%string
  /\ match joinedMappings db (concept item) with
     | (mapping, row) :: _ =>
         Types.confidence t = mapConfidence mapping
         /\ Types.xbrlTag t = taxXbrlTag row
         /\ Types.taxonomyFramework t = taxFramework row
     | [] =>
         Types.confidence t = 100
         /\ exists row,
              head (List.filter (fun row => String.eqb (taxConcept row) (concept item)
                                            || String.eqb (taxXbrlTag row) (concept item))
                                (taxonomies db)) = Some row
              /\ Types.xbrlTag t = taxXbrlTag row
              /\ Types.taxonomyFramework t = taxFramework row
     end.
Proof.
  intros [m [Hm [H95 Ht]]].
  unfold mapFinancialItem in Ht. rewrite Hm in Ht.
  destruct (Z.leb_spec 95 (confidence m)); [|lia].
  inversion Ht; subst; clear Ht. cbn [Types.confidence Types.mappingMethod
                                      Types.xbrlTag Types.taxonomyFramework].
  split; [assumption|]. split; [reflexivity|].
  unfold findExactMapping in Hm.
  destruct (joinedMappings db (concept item)) as [|[mapping row] rest];
    cbn [firstn] in Hm.
  - destruct (List.filter _ (taxonomies db)) as [|row rest] eqn:Ef;
      cbn [firstn] in Hm; [discriminate|].
    inversion Hm; subst m; clear Hm. cbn. split; [reflexivity|].
    exists row. auto.
  - inversion Hm; subst m; clear Hm. cbn. auto.
Qed.

(** C2, the claim as stated fails: a learned mapping of confidence 97 is
    returned by the exact-match stage with confidence 97, not 100. *)
Lemma C2_learned_mapping_below_100 :
  Spec.returnedByExactStage Examples.learnedDb Examples.netSales None None
    Examples.netSalesMatch
  /\ Types.confidence Examples.netSalesMatch = 97
  /\ Types.confidence Examples.netSalesMatch <> 100.
Proof.
  split; [|split; [reflexivity|discriminate]].
  eexists. split; [reflexivity|]. split; [|reflexivity]. cbn. lia.
Qed.

Lemma C2_exact_stage_match_witness :
  95 <= Types.confidence Examples.netSalesMatch
  /\ Types.mappingMethod Examples.netSalesMatch = "exact_match"%string
  /\ Types.confidence Examples.netSalesMatch = 97
  /\ Types.xbrlTag Examples.netSalesMatch = "us-gaap:Revenues"%string
  /\ Types.taxonomyFramework Examples.netSalesMatch = "US-GAAP"%string.
Proof.
  apply (C2_exact_stage_match Examples.learnedDb Examples.netSales None None
           Examples.netSalesMatch).
  eexists. split; [reflexivity|]. split; [|reflexivity]. cbn. lia.
Defined.

(** C5.  For every line item the engine answers with what the staged
    selection chooses from the three stages' candidates: the exact-stage
    candidate if its confidence is at least 95, otherwise the fuzzy-stage
    candidate if at least 80, otherwise the assisted-stage candidate if at
    least 70, otherwise the highest-confidence candidate of all stages if
    at least 60, otherwise none.  The candidate called highest is one of
    the three and no candidate has a higher confidence. *)
Theorem C5_staged_selection db (item : FinancialItem)
    (sector reportType : option string) :
  let exact := findExactMapping db (concept item) sector reportType in
  let fuzzy := findFuzzyMatch db (concept item) sector reportType in
  let assisted := getAIMapping (aiRequest item sector reportType exact fuzzy) in
  Spec.answers (mapFinancialItem db item sector reportType)
               (Spec.stagedSelection exact fuzzy assisted)
  /\ match Spec.highest (catOptions [exact; fuzzy; assisted]) with
     | Some best =>
         In (Some best) [exact; fuzzy; assisted]
         /\ List.Forall (fun c => confidence c <= confidence best)
                        (catOptions [exact; fuzzy; assisted])
     | None => exact = None /\ fuzzy = None /\ assisted = None
     end.
Proof.
  cbv zeta. split.
  - unfold mapFinancialItem, Spec.stagedSelection, Spec.meets.
    destruct (findExactMapping db (concept item) sector reportType) as [e|];
      [destruct (Z.leb_spec 95 (confidence e)); [simpl; auto|]|];
    (destruct (findFuzzyMatch db (concept item) sector reportType) as [f|];
      [destruct (Z.leb_spec 80 (confidence f)); [simpl; auto|]|]);
    (match goal with |- context [getAIMapping ?r] =>
       destruct (getAIMapping r) as [a|];
       [destruct (Z.leb_spec 70 (confidence a)); [simpl; auto|]|] end);
    rewrite selectBestMatch_highest;
    (match goal with |- context [Spec.highest ?l] =>
       destruct (Spec.highest l) as [b|];
       [destruct (Z.leb_spec 60 (confidence b))|] end);
    simpl; auto.
  - match goal with |- context [Spec.highest ?l] =>
      destruct (Spec.highest l) as [best|] eqn:E end.
    + apply highest_is_maximal in E. destruct E as [Hin Hmax]. split.
      * revert Hin. generalize best.
        destruct (findExactMapping _ _ _ _), (findFuzzyMatch _ _ _ _), (getAIMapping _);
          simpl; intros b Hb; intuition (subst; auto).
      * apply List.Forall_forall. exact Hmax.
    + destruct (findExactMapping _ _ _ _), (findFuzzyMatch _ _ _ _), (getAIMapping _);
        simpl in E;
        repeat match type of E with
               | context [if ?b then _ else _] => destruct b
               end;
        try discriminate; auto.
Qed.

(** *** The fuzzy score *)

Lemma synonymHit_existsb (label : string) (synonyms : list string) :
  synonymHit (JS.toLowerCase label) synonyms = Spec.synonymTableHit label synonyms.
Proof.
  unfold Spec.synonymTableHit, Spec.equalIgnoringCase.
  induction synonyms as [|syn rest IH]; simpl; [reflexivity|].
  rewrite IH. now destruct (String.eqb _ _).
Qed.

Lemma fold_left_add {A} (f : A -> Z) (l : list A) (a : Z) :
  fold_left (fun acc x => acc + f x) l a = a + fold_left (fun acc x => acc + f x) l 0.
Proof.
  revert a. induction l as [|x rest IH]; intros a; simpl; [lia|].
  rewrite (IH (a + f x)), (IH (0 + f x)). lia.
Qed.

(** The nested loops add up the scores of all pairs of words. *)
Lemma overlapScore_pairs (searchWords candidateWords : list string) (a : Z) :
  fold_left
    (fun score searchWord =>
       fold_left (fun score' candidateWord => score' + wordScore searchWord candidateWord)
                 candidateWords score)
    searchWords a
  = a + fold_left (fun acc p => acc + wordScore (fst p) (snd p))
                  (list_prod searchWords candidateWords) 0.
Proof.
  revert a. induction searchWords as [|w rest IH]; intros a; simpl; [lia|].
  rewrite IH. rewrite fold_left_app.
  rewrite (fold_left_add (wordScore w) candidateWords a).
  assert (H : forall b, fold_left (fun acc p => acc + wordScore (fst p) (snd p))
                          (map (fun y => (w, y)) candidateWords) b
                        = fold_left (fun acc c => acc + wordScore w c) candidateWords b).
  { clear. induction candidateWords as [|c cs IHc]; intros b; [reflexivity|].
    cbn [map fold_left]. rewrite IHc. reflexivity. }
  rewrite H.
  rewrite (fold_left_add (fun p => wordScore (fst p) (snd p))
             (list_prod rest candidateWords) (fold_left _ candidateWords 0)).
  lia.
Qed.

Lemma pairScore_count (pairs : list (string * string)) :
  fold_left (fun acc p => acc + wordScore (fst p) (snd p)) pairs 0
  = 20 * Z.of_nat (length (List.filter Spec.isExactOverlap pairs))
    + 10 * Z.of_nat (length (List.filter Spec.isPartialOverlap pairs)).
Proof.
  induction pairs as [|p rest IH]; [reflexivity|].
  cbn [fold_left List.filter].
  rewrite (fold_left_add (fun p => wordScore (fst p) (snd p))), IH.
  unfold wordScore.
  destruct (Spec.isExactOverlap p) eqn:E1; destruct (Spec.isPartialOverlap p) eqn:E2;
    unfold Spec.isExactOverlap in E1; unfold Spec.isPartialOverlap in E2;
    rewrite E1 in *; simpl in E2; try rewrite E2; try discriminate;
    cbn [length]; lia.
Qed.

Lemma overlapScore_counts (label candidate : string) :
  overlapScore (JS.splitWhitespace (JS.toLowerCase label))
               (JS.splitWhitespace (JS.toLowerCase candidate))
  = 20 * Spec.exactOverlaps label candidate + 10 * Spec.partialOverlaps label candidate.
Proof.
  unfold overlapScore. rewrite overlapScore_pairs, pairScore_count. reflexivity.
Qed.

Lemma lengthPenalty_penalty (label candidate : string) :
  (lengthPenalty (JS.toLowerCase label) (JS.toLowerCase candidate)
   == Spec.penalty label candidate)%Q.
Proof.
  unfold lengthPenalty, Spec.penalty. rewrite !strlen_toLowerCase.
  set (d := Z.abs _). set (m := Z.max _ _).
  assert (Hd : (0 <= inject_Z d)%Q).
  { change 0%Q with (inject_Z 0). rewrite <- Zle_Qle. unfold d. lia. }
  assert (Hm : (0 <= inject_Z m)%Q).
  { change 0%Q with (inject_Z 0). rewrite <- Zle_Qle. unfold m, JS.strlen. lia. }
  rewrite Q.max_r.
  - unfold Qdiv. ring.
  - apply Qmult_le_0_compat; [|discriminate].
    unfold Qdiv. apply Qmult_le_0_compat; [exact Hd|].
    apply Qinv_le_0_compat. exact Hm.
Qed.

Lemma calculateFuzzyScore_rounded (label candidate : string) (synonyms : list string) :
  calculateFuzzyScore label candidate synonyms = Spec.roundedScore label candidate synonyms.
Proof.
  unfold calculateFuzzyScore, Spec.roundedScore, Spec.equalIgnoringCase.
  destruct (String.eqb _ _); [reflexivity|].
  rewrite synonymHit_existsb.
  destruct (Spec.synonymTableHit label synonyms); [reflexivity|].
  rewrite overlapScore_counts.
  rewrite <- mathRound_clamp. f_equal.
  apply mathRound_comp. unfold Spec.rawScore.
  rewrite lengthPenalty_penalty. reflexivity.
Qed.

Lemma calculateFuzzyScore_range (label candidate : string) (synonyms : list string) :
  0 <= calculateFuzzyScore label candidate synonyms <= 100.
Proof.
  unfold calculateFuzzyScore.
  destruct (String.eqb _ _); [lia|].
  destruct (synonymHit _ _); [lia|].
  split; [|apply Z.le_min_l].
  apply Z.min_glb; [lia|].
  change 0 with (JS.mathRound 0). apply mathRound_mono. apply Q.le_max_l.
Qed.

Lemma findFuzzyMatch_range db (concept : string) (sector reportType : option string)
    (m : MappingResult) :
  findFuzzyMatch db concept sector reportType = Some m ->
  80 <= confidence m <= 100 /\ mappingMethod m = fuzzyMethod.
Proof.
  unfold findFuzzyMatch.
  match goal with |- context [sortDesc snd ?l] =>
    destruct (sortDesc snd l) as [|[best score] rest] eqn:E;
    [discriminate|];
    assert (Hin : In (best, score) (sortDesc snd l)) by (rewrite E; now left)
  end.
  intros H. inversion H; subst; clear H. simpl.
  apply In_sortDesc in Hin. apply filter_In in Hin. destruct Hin as [Hin H80].
  apply in_map_iff in Hin. destruct Hin as [cand [Heq _]].
  inversion Heq; subst. simpl in H80.
  pose proof (calculateFuzzyScore_range concept (taxConcept best)
                match taxSynonyms best with Some l => l | None => [] end).
  split; [lia|reflexivity].
Qed.

(** C7, as amended.  The fuzzy score is 100 on equality ignoring case, 95
    on a synonym-table hit, and otherwise 20 points per exact word overlap
    plus 10 points per partial (containment) word overlap minus the penalty
    20*|lenA-lenB|/max(lenA,lenB), clamped to [0,100] and rounded to the
    nearest integer; the score lies between 0 and 100, and a match that the
    fuzzy stage returns has confidence between 80 and 100. *)
Theorem C7_fuzzy_score (label candidate : string) (synonyms : list string) :
  calculateFuzzyScore label candidate synonyms
  = Spec.roundedScore label candidate synonyms
  /\ 0 <= calculateFuzzyScore label candidate synonyms <= 100
  /\ forall db sector reportType m,
       findFuzzyMatch db label sector reportType = Some m ->
       80 <= confidence m <= 100.
Proof.
  split; [apply calculateFuzzyScore_rounded|].
  split; [apply calculateFuzzyScore_range|].
  intros db sector reportType m H. now apply findFuzzyMatch_range in H.
Qed.

(** C7, the claim as stated fails: for "ab cd" against "ab cde" the claimed
    score is 80/3 (30 points less the penalty 20/6), and the code returns
    27. *)
Lemma C7_score_is_rounded :
  calculateFuzzyScore "ab cd" "ab cde" [] = 27
  /\ (Spec.claimedScore "ab cd" "ab cde" [] == 80 # 3)%Q
  /\ ~ (inject_Z (calculateFuzzyScore "ab cd" "ab cde" [])
        == Spec.claimedScore "ab cd" "ab cde" [])%Q.
Proof.
  split; [evaluate|]. split; [evaluate|]. vm_compute. discriminate.
Qed.

Lemma C7_fuzzy_score_witness :
  80 <= confidence Examples.salesFuzzyMatch <= 100.
Proof.
  apply (proj2 (proj2 (C7_fuzzy_score "sales" "Revenues" []))
           Examples.learnedDb None (Some "income_statement"%string)).
  evaluate.
Defined.

End Matching.

(** *** Batches *)

Section Batches.
Import Types.
Import TaxonomyMappingService.
Context (db : Database) (sector reportType : option string).

Lemma slice_skipn (items : list FinancialItem) (i : nat) :
  slice i (i + batchSize) items ++ skipn (i + batchSize) items = skipn i items.
Proof.
  unfold slice.
  replace (i + batchSize - i)%nat with batchSize by lia.
  replace (skipn (i + batchSize) items) with (skipn batchSize (skipn i items)).
  - apply firstn_skipn.
  - rewrite skipn_skipn. f_equal. lia.
Qed.

(** The loop appends to [results] the pairs of the items from index [i]
    on, in order. *)
Lemma batchLoop_spec (items : list FinancialItem) (i : nat)
    (results : list (FinancialItem * option TaxonomyMatch)) :
  batchLoop db sector reportType items i results
  = results ++ map (mapOne db sector reportType) (skipn i items).
Proof.
  funelim (batchLoop db sector reportType items i results).
  - rewrite H. rewrite <- app_assoc. f_equal.
    rewrite <- map_app. f_equal. apply slice_skipn.
  - rewrite skipn_all2 by lia. simpl. now rewrite app_nil_r.
Qed.

Lemma mapFinancialItems_map (items : list FinancialItem) :
  mapFinancialItems db sector reportType items
  = map (mapOne db sector reportType) items.
Proof.
  unfold mapFinancialItems. rewrite batchLoop_spec. reflexivity.
Qed.

Lemma attachMatches_aligned (items : list FinancialItem) :
  ConversionService.attachMatches items (mapFinancialItems db sector reportType items)
  = map (fun item =>
           ConversionService.withMatch item
             (mapFinancialItem db item sector reportType)) items.
Proof.
  rewrite mapFinancialItems_map. unfold ConversionService.attachMatches.
  apply list_eq. intros i.
  rewrite list_lookup_imap, !list_lookup_fmap.
  destruct (items !! i) as [item|] eqn:E; simpl; reflexivity.
Qed.

(** C10.  The batched matching returns a list of the length of its input
    whose i-th element pairs the i-th item with that item's match; the
    caller, which attaches the i-th result to the i-th item, thereby gives
    every item its own match. *)
Theorem C10_batched_matching_keeps_order (items : list FinancialItem) :
  let results := mapFinancialItems db sector reportType items in
  length results = length items
  /\ (forall i : nat,
        results !! i
        = (fun item => (item, mapFinancialItem db item sector reportType))
            <$> items !! i)
  /\ ConversionService.attachMatches items results
     = map (fun item =>
              ConversionService.withMatch item
                (mapFinancialItem db item sector reportType)) items.
Proof.
  cbv zeta. split; [|split].
  - rewrite mapFinancialItems_map. apply length_map.
  - intros i. rewrite mapFinancialItems_map. apply list_lookup_fmap.
  - apply attachMatches_aligned.
Qed.

End Batches.

(** ** The parsers *)

Section Parsers.
Import Types.

(** C6.  The shared sanitization reads the parenthesized number "(500)"
    as 500, not as -500: the parentheses are removed with the other
    formatting characters before the test for them, so for no string does
    the cleaned value start with a parenthesis, and the branch that would
    negate is never taken.  An item built from "(500)" carries 500.  The
    other cases behave as described: formatting symbols are stripped,
    'true' and 'false' become booleans, another string stays a string, and
    null, undefined and the empty string give no item. *)
Theorem C6_parenthesized_number_stays_positive :
  BaseParser.sanitizeValue (JS.VStr "(500)") = JS.VNum (JS.Finite 500)
  /\ (forall s : string,
        JS.startsWith (JS.removeAll BaseParser.isFormatting s) "(" = false)
  /\ option_map value
       (CsvParser.createFinancialItem "Net loss" (JS.VStr "(500)") 0 None)
     = Some (JS.VNum (JS.Finite 500))
  /\ map BaseParser.sanitizeValue
       [JS.VStr "$1,234.50"; JS.VStr "-75%"; JS.VStr "TRUE"; JS.VStr "false";
        JS.VStr "n/a"]
     = [JS.VNum (JS.Finite (2469 # 2)); JS.VNum (JS.Finite (-75));
        JS.VBool true; JS.VBool false; JS.VStr "n/a"]
  /\ map (fun v => CsvParser.createFinancialItem "Cash" v 0 None)
         [JS.VNull; JS.VUndefined; JS.VStr ""]
     = [None; None; None].
Proof.
  split; [evaluate|]. split; [|repeat split; evaluate].
  intros s. unfold JS.startsWith.
  destruct (JS.chars (JS.removeAll BaseParser.isFormatting s)) as [|c rest] eqn:E;
    [reflexivity|].
  apply removeAll_head in E.
  change (Ascii.eqb "(" c && true = false).
  destruct (Ascii.eqb_spec "(" c) as [<-|_]; [discriminate E|reflexivity].
Qed.

Lemma formatErrors_csvParseError (es : list CsvParser.PapaError) :
  BaseParser.formatErrors CsvParser.className (map CsvParser.csvParseError es)
  = map Spec.rowError es.
Proof.
  unfold BaseParser.formatErrors. rewrite map_map. apply map_ext.
  intros e. reflexivity.
Qed.

Lemma convertToFinancialData_one (h : CsvParser.Host) (rows : list CsvParser.Row) :
  length (CsvParser.statements (CsvParser.convertToFinancialData h rows)) = 1%nat.
Proof.
  unfold CsvParser.convertToFinancialData.
  destruct (CsvParser.detectReportType rows); reflexivity.
Qed.

(** C8, as amended.  For every buffer and file name the CSV and the XBRL
    parser return a report and do not throw.  When the parse as a whole
    fails, the report has no statement and its last error entry is of
    critical severity and carries the cause.  Otherwise the report has the
    statements that were built; for CSV it is one statement, the error
    entries are those of the errors that papaparse reports, one entry of
    severity 'error' per reported error, in order and with its message,
    and there is no warning entry. *)
Theorem C8_parse_never_throws (hc : CsvParser.Host) (hx : XbrlParser.Host)
    (buffer : list Byte.byte) (fileName : string) :
  exists csvReport xbrlReport,
    CsvParser.parse hc buffer fileName = JS.Return csvReport
    /\ XbrlParser.parse hx buffer fileName = JS.Return xbrlReport
    /\ warnings (processing csvReport) = []
    /\ match CsvParser.papaParse hc (CsvParser.utf8 hc buffer) with
       | JS.Throw e =>
           financialStatements csvReport = []
           /\ errors (processing csvReport) = [Spec.csvCritical e]
       | JS.Return parseResult =>
           match CsvParser.data parseResult with
           | [] =>
               financialStatements csvReport = []
               /\ errors (processing csvReport)
                  = map Spec.rowError (CsvParser.papaErrors parseResult)
                    ++ [Spec.csvCritical
                          (JS.ErrorObject "CSV file is empty or contains no valid data")]
           | rows =>
               financialStatements csvReport
               = CsvParser.statements (CsvParser.convertToFinancialData hc rows)
               /\ length (financialStatements csvReport) = 1%nat
               /\ errors (processing csvReport)
                  = map Spec.rowError (CsvParser.papaErrors parseResult)
           end
       end
    /\ match XbrlParser.parseXBRLDocument hx (XbrlParser.utf8 hx buffer) with
       | JS.Throw e =>
           financialStatements xbrlReport = []
           /\ errors (processing xbrlReport) = [Spec.xbrlCritical e]
       | JS.Return parsed =>
           financialStatements xbrlReport = XbrlParser.statements parsed
           /\ errors (processing xbrlReport) = []
           /\ warnings (processing xbrlReport) = []
       end.
Proof.
  assert (Hx : exists xbrlReport,
            XbrlParser.parse hx buffer fileName = JS.Return xbrlReport
            /\ match XbrlParser.parseXBRLDocument hx (XbrlParser.utf8 hx buffer) with
               | JS.Throw e =>
                   financialStatements xbrlReport = []
                   /\ errors (processing xbrlReport) = [Spec.xbrlCritical e]
               | JS.Return parsed =>
                   financialStatements xbrlReport = XbrlParser.statements parsed
                   /\ errors (processing xbrlReport) = []
                   /\ warnings (processing xbrlReport) = []
               end).
  { unfold XbrlParser.parse.
    destruct (XbrlParser.parseXBRLDocument hx (XbrlParser.utf8 hx buffer)) as [parsed|ex];
      cbn [JS.tryCatch JS.bind]; eexists; (split; [reflexivity|]); cbn; auto. }
  destruct Hx as (xbrlReport & Hxp & Hxs).
  unfold CsvParser.parse, CsvParser.parseBody.
  destruct (CsvParser.papaParse hc (CsvParser.utf8 hc buffer)) as [parseResult|e].
  - destruct (CsvParser.data parseResult) as [|row rows] eqn:Edata;
      cbn [JS.tryCatch JS.bind].
    + eexists _, xbrlReport. split; [reflexivity|]. split; [exact Hxp|].
      split; [reflexivity|]. split; [|exact Hxs].
      cbn [financialStatements processing errors BaseParser.createProcessingMetadata].
      split; [reflexivity|].
      unfold BaseParser.formatErrors. rewrite map_app, map_map. reflexivity.
    + eexists _, xbrlReport. split; [reflexivity|]. split; [exact Hxp|].
      split; [reflexivity|]. split; [|exact Hxs].
      cbn [financialStatements processing errors BaseParser.createProcessingMetadata].
      split; [reflexivity|]. split; [apply convertToFinancialData_one|].
      apply formatErrors_csvParseError.
  - cbn [JS.tryCatch JS.bind]. eexists _, xbrlReport.
    split; [reflexivity|]. split; [exact Hxp|]. split; [reflexivity|].
    split; [|exact Hxs]. split; reflexivity.
Qed.

(** C8, the claim as stated fails: for a CSV text with a short row,
    papaparse delivers the row and reports two errors; the parser returns
    the statement with two error entries of severity 'error' and no
    warning entry. *)
Lemma C8_csv_row_errors_are_not_warnings :
  Spec.csvPartialFailure Examples.rowErrorHost Examples.shortRowBuffer
  /\ exists report,
       CsvParser.parse Examples.rowErrorHost Examples.shortRowBuffer "report.csv"
       = JS.Return report
       /\ length (financialStatements report) = 1%nat
       /\ warnings (processing report) = []
       /\ map severity (errors (processing report)) = ["error"; "error"]%string.
Proof.
  split.
  - eexists. split; [evaluate|]. split; discriminate.
  - eexists. split; [evaluate|]. repeat split.
Qed.

End Parsers.

(** ** The document generator *)

Section Generator.
Import Types.
Import XBRLGenerator.
Import Notions.

Variable h : Host.

Lemma isoDate_cases (d : JSDate.Date) :
  match d with
  | JSDate.Invalid => JSDate.isoDate d = JS.Throw invalidTime
  | JSDate.Time _ => exists text, JSDate.isoDate d = JS.Return text
  end.
Proof.
  destruct d as [t|]; [|reflexivity]. unfold JSDate.isoDate.
  destruct (JSDate.civilFromDays (JSDate.dayOf t)) as [[y m] dd]. eauto.
Qed.

(** The context of a statement is never made: the identifier is computed
    (which fails for an invalid period end), [create] hands back the
    builder of a document that has its element, and [ele] throws. *)
Lemma createContextForStatement_throws (statement : FinancialStatement)
    (options : XBRLGenerationOptions) :
  createContextForStatement h statement options = JS.Throw (contextError h statement).
Proof.
  unfold createContextForStatement, generateContextId, contextError.
  pose proof (isoDate_cases (periodEndDate statement)) as Hd.
  destruct (periodEndDate statement) as [t|].
  - destruct Hd as (text & ->). cbn [JS.bind].
    rewrite (create_context h). reflexivity.
  - rewrite Hd. reflexivity.
Qed.

Lemma generateBody_cons (statement : FinancialStatement)
    (rest : list FinancialStatement) (options : XBRLGenerationOptions) :
  generateBody h (statement :: rest) options = JS.Throw (contextError h statement).
Proof.
  unfold generateBody. cbn [contextLoop].
  rewrite createContextForStatement_throws. reflexivity.
Qed.

Lemma generateXBRL_cons (statement : FinancialStatement)
    (rest : list FinancialStatement) (options : XBRLGenerationOptions) :
  generateXBRL h (statement :: rest) options
  = JS.Return (failedGeneration (JS.messageOf (contextError h statement))).
Proof. unfold generateXBRL. rewrite generateBody_cons. reflexivity. Qed.

Lemma filter_all {A} (p : A -> bool) (l : list A) :
  List.Forall (fun x => p x = true) l -> List.filter p l = l.
Proof.
  induction 1 as [|x l Hx _ IH]; [reflexivity|].
  cbn [List.filter]. now rewrite Hx, IH.
Qed.

Lemma filter_none {A} (p : A -> bool) (l : list A) :
  List.Forall (fun x => p x = false) l -> List.filter p l = [].
Proof.
  induction 1 as [|x l Hx _ IH]; [reflexivity|].
  cbn [List.filter]. now rewrite Hx, IH.
Qed.

Lemma addEntityInformation_cases (options : XBRLGenerationOptions) :
  match documentDate options with
  | JSDate.Invalid => addEntityInformation options = JS.Throw invalidTime
  | JSDate.Time _ =>
      exists nodes,
        addEntityInformation options = JS.Return nodes
        /\ length nodes = (if String.eqb (optCompanyName options) "" then 2 else 3)%nat
        /\ List.Forall
             (fun n => exists c, attribute "contextRef" n = Some c
                                 /\ attribute "unitRef" n = None
                                 /\ String.eqb (nodeName n) "xbrli:context" = false
                                 /\ String.eqb (nodeName n) "xbrli:unit" = false)
             nodes
  end.
Proof.
  unfold addEntityInformation, generateDocumentContext, formatDate.
  pose proof (isoDate_cases (documentDate options)) as H.
  destruct (documentDate options) as [t|].
  - destruct H as (text & ->). cbn [JS.bind].
    destruct (String.eqb (optCompanyName options) ""); cbn [JS.bind];
      eexists; (split; [reflexivity|]); (split; [reflexivity|]);
      repeat constructor; eexists; repeat split.
  - rewrite H. destruct (String.eqb (optCompanyName options) ""); reflexivity.
Qed.

Lemma schemaRefs_plain (framework : string) :
  List.Forall (fun n => attribute "contextRef" n = None
                        /\ String.eqb (nodeName n) "xbrli:context" = false
                        /\ String.eqb (nodeName n) "xbrli:unit" = false)
              (addSchemaReferences framework).
Proof.
  unfold addSchemaReferences.
  destruct (String.eqb framework "US-GAAP"); [|destruct (String.eqb framework "IFRS")];
    repeat constructor.
Qed.

(** The document that is generated for no statement: the schema
    references, the two units and the document information. *)
Lemma generateBody_nil (options : XBRLGenerationOptions) :
  match documentDate options with
  | JSDate.Invalid => generateBody h [] options = JS.Throw invalidTime
  | JSDate.Time _ =>
      exists g entityInformation,
        generateBody h [] options = JS.Return g
        /\ addEntityInformation options = JS.Return entityInformation
        /\ xbrlDocument g
           = Serialized (Element "xbrli:xbrl" NAMESPACES
                           (addSchemaReferences (optFramework options)
                            ++ addUnitDefinitions (optCurrency options)
                            ++ entityInformation))
        /\ generated g
           = {| totalFacts := 0; frameworks := [];
                currencies := [optCurrency options]; contexts := [];
                validationIssues := [] |}
        /\ contextElements (xbrlDocument g) = []
        /\ unitElements (xbrlDocument g) = addUnitDefinitions (optCurrency options)
        /\ facts (xbrlDocument g) = entityInformation
  end.
Proof.
  unfold generateBody. cbn [contextLoop factLoop JS.bind map concat].
  pose proof (addEntityInformation_cases options) as He.
  destruct (documentDate options) as [t|].
  - destruct He as (entity & -> & _ & Hentity). cbn [JS.bind app].
    rewrite app_nil_r.
    eexists _, entity. split; [reflexivity|]. split; [reflexivity|].
    cbn [xbrlDocument generated length distinct map].
    split; [reflexivity|]. split; [reflexivity|].
    pose proof (schemaRefs_plain (optFramework options)) as Hs.
    unfold contextElements, unitElements, elementsNamed, facts. cbn [rootChildren].
    rewrite !List.filter_app.
    split; [|split].
    + rewrite (filter_none _ (addSchemaReferences _)).
      2:{ eapply List.Forall_impl; [|exact Hs]. cbn beta. tauto. }
      rewrite (filter_none _ entity).
      2:{ eapply List.Forall_impl; [|exact Hentity]. cbn beta.
          intros n (c & _ & _ & Hn & _). exact Hn. }
      reflexivity.
    + rewrite (filter_none _ (addSchemaReferences _)).
      2:{ eapply List.Forall_impl; [|exact Hs]. cbn beta. tauto. }
      rewrite (filter_none _ entity).
      2:{ eapply List.Forall_impl; [|exact Hentity]. cbn beta.
          intros n (c & _ & _ & _ & Hn). exact Hn. }
      cbn. reflexivity.
    + rewrite (filter_none _ (addSchemaReferences _)).
      2:{ eapply List.Forall_impl; [|exact Hs]. cbn beta. intros n (-> & _). reflexivity. }
      rewrite (filter_all _ entity).
      2:{ eapply List.Forall_impl; [|exact Hentity]. cbn beta.
          intros n (c & -> & _). reflexivity. }
      cbn. reflexivity.
  - rewrite He. reflexivity.
Qed.

(** C1.  No statement list but the empty one yields a document.  The
    context of the first statement is asked of [create], which hands back
    the builder of a new document and drops the identifier; the first
    [ele] on it throws, and [generateXBRL] answers with the empty
    document and one issue 'Generation failed: ...'.  So for a single
    income statement and the currency EUR the result declares no unit,
    no context and no fact.  The document that is generated for the
    empty list has no context element, while each of its facts, the
    document information, refers to a context: no reference of a fact
    resolves. *)
Theorem C1_no_document_for_statements :
  (forall statement rest options,
     generateXBRL h (statement :: rest) options
     = JS.Return (failedGeneration (JS.messageOf (contextError h statement))))
  /\ (exists g,
        generateXBRL h [Examples.incomeStatement] (Examples.optionsFor "EUR")
        = JS.Return g
        /\ xbrlDocument g = EmptyDocument
        /\ unitElements (xbrlDocument g) = []
        /\ contextElements (xbrlDocument g) = []
        /\ facts (xbrlDocument g) = []
        /\ validationIssues (generated g)
           = [("Generation failed: " ++ JS.messageOf (secondElement h))%string])
  /\ (forall options g,
        generateXBRL h [] options = JS.Return g ->
        contextElements (xbrlDocument g) = []
        /\ List.Forall (fun fact => TaxonomyMappingService.isSome
                                      (attribute "contextRef" fact) = true
                                    /\ referencesResolve (xbrlDocument g) fact = false)
                       (facts (xbrlDocument g))).
Proof.
  split; [exact generateXBRL_cons|]. split.
  - eexists. split; [apply generateXBRL_cons|].
    repeat split.
  - intros options g. unfold generateXBRL.
    pose proof (generateBody_nil options) as Hb.
    pose proof (addEntityInformation_cases options) as He.
    destruct (documentDate options) as [t|].
    + destruct Hb as (g' & entity & -> & Hentity & _ & _ & Hc & _ & Hf).
      cbn [JS.tryCatch]. intros [= <-]. split; [exact Hc|].
      rewrite Hf. destruct He as (entity' & He & _ & Hall).
      rewrite Hentity in He. injection He as <-.
      eapply List.Forall_impl; [|exact Hall]. cbn beta.
      intros n (c & Hn & _). unfold referencesResolve. rewrite Hn, Hc.
      split; reflexivity.
    + rewrite Hb. cbn [JS.tryCatch]. intros [= <-].
      split; [reflexivity|constructor].
Qed.

(** C3.  No context element is ever made.  [createContextForStatement]
    throws for every statement, before it looks at the kind of the
    statement or at its period: with the error of [toISOString] when the
    period end is invalid, otherwise with that of the XML builder.  So
    the result of a generation has no context element and lists no
    context, whatever the statements; for a single balance sheet it is
    the empty document with the issue 'Generation failed: ...'. *)
Theorem C3_no_context_is_created :
  (forall statement options,
     createContextForStatement h statement options
     = JS.Throw (contextError h statement))
  /\ (forall statements options,
        exists g,
          generateXBRL h statements options = JS.Return g
          /\ contextElements (xbrlDocument g) = []
          /\ contexts (generated g) = [])
  /\ generateXBRL h [Examples.balanceSheet] (Examples.optionsFor "USD")
     = JS.Return (failedGeneration (JS.messageOf (secondElement h))).
Proof.
  split; [exact createContextForStatement_throws|]. split.
  - intros [|statement rest] options.
    + unfold generateXBRL. pose proof (generateBody_nil options) as Hb.
      destruct (documentDate options) as [t|].
      * destruct Hb as (g & entity & -> & _ & _ & Hg & Hc & _).
        exists g. split; [reflexivity|]. split; [exact Hc|]. now rewrite Hg.
      * rewrite Hb. eexists. split; [reflexivity|]. split; reflexivity.
    + rewrite generateXBRL_cons. eexists. split; [reflexivity|]. split; reflexivity.
  - rewrite generateXBRL_cons. unfold contextError.
    destruct (periodEndDate Examples.balanceSheet) as [t|] eqn:E;
      [reflexivity|vm_compute in E; discriminate].
Qed.

(** C9.  For every statement list and options the generator returns a
    document with a list of validation issues and does not throw.  When
    the generation fails, the result is the empty document and the one
    issue 'Generation failed: ...' with the message of the failure.
    Otherwise the document is the generated tree, the list is empty and
    there was no statement, hence no fact whose creation could have
    failed: no failure goes by without an entry. *)
Theorem C9_generate_never_throws (statements : list FinancialStatement)
    (options : XBRLGenerationOptions) :
  exists g,
    generateXBRL h statements options = JS.Return g
    /\ match generateBody h statements options with
       | JS.Throw e =>
           xbrlDocument g = EmptyDocument
           /\ validationIssues (generated g)
              = [("Generation failed: " ++ JS.messageOf e)%string]
       | JS.Return g' =>
           g = g'
           /\ (exists root, xbrlDocument g = Serialized root)
           /\ validationIssues (generated g) = []
           /\ statements = []
       end.
Proof.
  unfold generateXBRL.
  destruct statements as [|statement rest].
  - pose proof (generateBody_nil options) as Hb.
    destruct (documentDate options) as [t|].
    + destruct Hb as (g & entity & -> & _ & Hd & Hg & _).
      exists g. split; [reflexivity|]. split; [reflexivity|].
      split; [eauto|]. now rewrite Hg.
    + rewrite Hb. eexists. split; [reflexivity|]. split; reflexivity.
  - rewrite generateBody_cons. eexists. split; [reflexivity|]. split; reflexivity.
Qed.

End Generator.

(** ** The job queue *)

Section Jobs.
Import JobQueueService.

Lemma updateJob_found (jobId : string) (data : JobUpdateData) (w : World) (job : Job) :
  getJob jobId w = Some job ->
  updateJob jobId data w
  = (JS.Return (applyUpdate (clock w) data job),
     {| jobs := <[jobId := applyUpdate (clock w) data job]> (jobs w);
        timers := timers w; clock := clock w |}).
Proof. unfold getJob, updateJob. intros ->. reflexivity. Qed.

Lemma scheduleRetry_found (jobId : string) (n : Z) (w : World) (job : Job) :
  getJob jobId w = Some job ->
  exists job',
    scheduleRetry jobId n w
    = (JS.Return (Some job'),
       {| jobs := <[jobId := job']> (jobs w);
          timers := (jobId, RETRY_DELAY_MS * n) :: timers w;
          clock := clock w |})
    /\ status job' = pending /\ progress job' = 0 /\ retryCount job' = n
    /\ errorMessage job' = Some (retryMessage n).
Proof.
  intros H. unfold scheduleRetry. rewrite (updateJob_found _ _ _ _ H).
  eexists. split.
  - unfold getJob. cbn [jobs timers clock]. rewrite lookup_insert_eq. reflexivity.
  - cbn. auto.
Qed.

Lemma fail_below_ceiling (jobId msg : string) (w : World) (job : Job) :
  getJob jobId w = Some job ->
  retryCount job < MAX_RETRIES ->
  exists job',
    markJobAsFailed jobId msg w
    = (JS.Return (Some job'),
       {| jobs := <[jobId := job']> (jobs w);
          timers := (jobId, RETRY_DELAY_MS * (retryCount job + 1)) :: timers w;
          clock := clock w |})
    /\ status job' = pending /\ progress job' = 0
    /\ retryCount job' = retryCount job + 1.
Proof.
  intros H Hlt. unfold markJobAsFailed. rewrite H.
  destruct (Z.ltb_spec (retryCount job) MAX_RETRIES); [|lia].
  destruct (scheduleRetry_found jobId (retryCount job + 1) w job H)
    as [job' [E [Hs [Hp [Hr _]]]]].
  exists job'. auto.
Qed.

Lemma fail_at_ceiling (jobId msg : string) (w : World) (job : Job) :
  getJob jobId w = Some job ->
  MAX_RETRIES <= retryCount job ->
  exists job',
    markJobAsFailed jobId msg w
    = (JS.Return (Some job'),
       {| jobs := <[jobId := job']> (jobs w); timers := timers w; clock := clock w |})
    /\ status job' = failed /\ errorMessage job' = orUndefined msg
    /\ retryCount job' = retryCount job.
Proof.
  intros H Hge. unfold markJobAsFailed. rewrite H.
  destruct (Z.ltb_spec (retryCount job) MAX_RETRIES); [lia|].
  rewrite (updateJob_found _ _ _ _ H). eexists. split; [reflexivity|]. cbn. auto.
Qed.

Lemma retryRequest_at_ceiling (jobId : string) (w : World) (job : Job) :
  getJob jobId w = Some job ->
  status job = failed ->
  MAX_RETRIES <= retryCount job ->
  retryRequest true true jobId w = (Rejected 400 "Maximum retry limit reached", w).
Proof.
  intros H Hs Hge. unfold retryRequest. cbn [negb]. rewrite H, Hs.
  destruct (Z.leb_spec 3 (retryCount job)); [reflexivity|]. unfold MAX_RETRIES in Hge. lia.
Qed.

(** While the ceiling is not passed, [n] failures leave the job pending
    with [n] more retries counted. *)
Lemma failTimes_retrying (n : nat) (jobId msg : string) (w : World) (job : Job) :
  getJob jobId w = Some job ->
  retryCount job + Z.of_nat n <= MAX_RETRIES ->
  exists job',
    getJob jobId (failTimes n jobId msg w) = Some job'
    /\ retryCount job' = retryCount job + Z.of_nat n
    /\ (n <> O -> status job' = pending /\ progress job' = 0).
Proof.
  intros H. induction n as [|k IH]; intros Hle.
  - exists job. simpl. split; [assumption|]. split; [lia|]. congruence.
  - destruct IH as [jk [Hk [Hrc _]]]; [lia|].
    cbn [failTimes].
    destruct (fail_below_ceiling jobId msg _ jk Hk) as [job' [E [Hs [Hp Hr]]]]; [lia|].
    rewrite E. cbn [snd]. exists job'. split.
    + unfold getJob. cbn [jobs]. apply lookup_insert_eq.
    + split; [lia|]. auto.
Qed.

(** C4, as amended.  When a processing attempt of a job fails: if the
    retry count is below the ceiling of 3, the job goes back to 'pending'
    with progress 0 and the retry count raised by one, and a retry is
    scheduled after the base delay of 5000 ms times the attempt number;
    once the ceiling is reached the job is marked 'failed' and keeps the
    causing error message as [mapDbJobToJob] reads it, that is the
    message itself unless it is empty, in which case the job has no
    message.  A new job is therefore still 'pending' (with retry count 3)
    after three failures, is 'failed' after the fourth, and a retry
    request is then rejected. *)
Theorem C4_retry_policy (jobId msg : string) (w : World) (job : Job) :
  getJob jobId w = Some job ->
  (retryCount job < MAX_RETRIES ->
   exists job',
     markJobAsFailed jobId msg w
     = (JS.Return (Some job'),
        {| jobs := <[jobId := job']> (jobs w);
           timers := (jobId, RETRY_DELAY_MS * (retryCount job + 1)) :: timers w;
           clock := clock w |})
     /\ status job' = pending /\ progress job' = 0
     /\ retryCount job' = retryCount job + 1)
  /\ (MAX_RETRIES <= retryCount job ->
      exists job',
        markJobAsFailed jobId msg w
        = (JS.Return (Some job'),
           {| jobs := <[jobId := job']> (jobs w); timers := timers w; clock := clock w |})
        /\ status job' = failed
        /\ errorMessage job' = orUndefined msg
        /\ (msg <> ""%string -> errorMessage job' = Some msg)
        /\ retryCount job' = retryCount job)
  /\ (retryCount job = 0 ->
      (exists job3,
         getJob jobId (failTimes 3 jobId msg w) = Some job3
         /\ status job3 = pending /\ retryCount job3 = 3)
      /\ exists job4,
           getJob jobId (failTimes 4 jobId msg w) = Some job4
           /\ status job4 = failed /\ errorMessage job4 = orUndefined msg
           /\ fst (retryRequest true true jobId (failTimes 4 jobId msg w))
              = Rejected 400 "Maximum retry limit reached").
Proof.
  intros H. split; [|split].
  - now apply fail_below_ceiling.
  - intros Hge. destruct (fail_at_ceiling jobId msg w job H Hge)
      as (job' & E & Hs & He & Hr).
    exists job'. split; [exact E|]. split; [exact Hs|]. split; [exact He|].
    split; [|exact Hr]. intros Hne. rewrite He. unfold orUndefined.
    destruct (String.eqb_spec msg ""); [contradiction|reflexivity].
  - intros H0.
    destruct (failTimes_retrying 3 jobId msg w job H) as [j3 [H3 [Hr3 Hs3]]];
      [unfold MAX_RETRIES; lia|].
    split.
    + exists j3. split; [assumption|]. split; [apply Hs3; discriminate|lia].
    + change (failTimes 4 jobId msg w)
        with (snd (markJobAsFailed jobId msg (failTimes 3 jobId msg w))).
      destruct (fail_at_ceiling jobId msg _ j3 H3) as [j4 [E [Hs [He Hr]]]];
        [unfold MAX_RETRIES; lia|].
      rewrite E. cbn [snd].
      assert (H4 : getJob jobId
                     {| jobs := <[jobId:=j4]> (jobs (failTimes 3 jobId msg w));
                        timers := timers (failTimes 3 jobId msg w);
                        clock := clock (failTimes 3 jobId msg w) |} = Some j4).
      { unfold getJob. cbn [jobs]. apply lookup_insert_eq. }
      exists j4. split; [exact H4|]. split; [assumption|]. split; [assumption|].
      rewrite (retryRequest_at_ceiling _ _ j4 H4 Hs); [reflexivity|].
      unfold MAX_RETRIES. lia.
Qed.

(** C4, the claim as stated fails: after three failures a new job is
    'pending' with retry count 3 and three retries scheduled, not
    'failed'. *)
Lemma C4_three_failures_leave_job_pending :
  option_map (fun job => (status job, retryCount job))
    (getJob Examples.queuedJobId
       (failTimes 3 Examples.queuedJobId "parse error" Examples.freshWorld))
  = Some (pending, 3)
  /\ timers (failTimes 3 Examples.queuedJobId "parse error" Examples.freshWorld)
     = [(Examples.queuedJobId, 15000); (Examples.queuedJobId, 10000);
        (Examples.queuedJobId, 5000)]
  /\ pending <> failed.
Proof. split; [evaluate|]. split; [evaluate|discriminate]. Qed.

Lemma C4_retry_policy_witness :
  exists job4,
    getJob Examples.queuedJobId
      (failTimes 4 Examples.queuedJobId "parse error" Examples.freshWorld)
    = Some job4
    /\ status job4 = failed /\ errorMessage job4 = Some "parse error"%string
    /\ fst (retryRequest true true Examples.queuedJobId
              (failTimes 4 Examples.queuedJobId "parse error" Examples.freshWorld))
       = Rejected 400 "Maximum retry limit reached".
Proof.
  destruct (C4_retry_policy Examples.queuedJobId "parse error" Examples.freshWorld
              Examples.freshJob)
    as [_ [_ H]].
  - evaluate.
  - destruct (H eq_refl) as [_ H4]. exact H4.
Defined.

End Jobs.

(* ===================================================================== *)
(** * Part II, continued.  Further properties of the code                 *)
(* ===================================================================== *)

(** ** The job table *)

Section JobTable.
Import JobQueueService.
Import Notions.

Lemma updateJob_missing (jobId : string) (data : JobUpdateData) (w : World) :
  getJob jobId w = None ->
  updateJob jobId data w
  = (JS.Throw (JS.ErrorObject ("Failed to update job: " ++ noRowMessage)), w).
Proof. unfold getJob, updateJob. intros ->. reflexivity. Qed.

Lemma updateJobProgress_found (jobId : string) (p : Z) (w : World) (job : Job) :
  getJob jobId w = Some job ->
  exists job',
    updateJobProgress jobId p w
    = {| jobs := <[jobId := job']> (jobs w); timers := timers w; clock := clock w |}
    /\ getJob jobId (updateJobProgress jobId p w) = Some job'
    /\ progress job' = Z.max 0 (Z.min 100 p)
    /\ status job' = status job
    /\ retryCount job' = retryCount job
    /\ outputUrl job' = outputUrl job.
Proof.
  unfold getJob, updateJobProgress. intros ->. eexists. split; [reflexivity|].
  cbn [jobs]. rewrite lookup_insert_eq. repeat split.
Qed.








Lemma scheduleRetry_bounds (jobId : string) (n : Z) (w : World) :
  tableWithinBounds w -> 0 <= n <= MAX_RETRIES ->
  tableWithinBounds (snd (scheduleRetry jobId n w)).
Proof.
  intros Hw Hn. unfold scheduleRetry, updateJob.
  destruct (jobs w !! jobId) as [job|]; cbn [snd]; [|exact Hw].
  apply map_Forall_insert_2; [|exact Hw].
  unfold jobWithinBounds; cbn. lia.
Qed.

(** X1.  The bounds of the job table are an invariant: when every job has
    its progress within 0..100 and its retry count within 0..3, this is
    still so after [updateJobProgress] (whatever progress is asked for),
    after [markJobAsFailed], after a retry request and after a cancel
    request. *)
Theorem job_table_stays_within_bounds (jobId : string) (w : World) :
  tableWithinBounds w ->
  (forall progress, tableWithinBounds (updateJobProgress jobId progress w))
  /\ (forall msg, tableWithinBounds (snd (markJobAsFailed jobId msg w)))
  /\ (forall session owns, tableWithinBounds (snd (retryRequest session owns jobId w)))
  /\ (forall session owns, tableWithinBounds (snd (cancelRequest session owns jobId w))).
Proof.
  intros Hw. split; [|split; [|split]].
  - intros p. unfold updateJobProgress.
    destruct (jobs w !! jobId) as [job|] eqn:E; [|exact Hw].
    apply map_Forall_insert_2; [|exact Hw].
    destruct (Hw jobId job E) as [_ Hr].
    unfold jobWithinBounds; cbn. lia.
  - intros msg. unfold markJobAsFailed.
    destruct (getJob jobId w) as [job|] eqn:E; [|exact Hw].
    destruct (Hw jobId job E) as [Hp Hr].
    destruct (Z.ltb_spec (retryCount job) MAX_RETRIES).
    + apply scheduleRetry_bounds; [exact Hw|lia].
    + unfold updateJob. unfold getJob in E. rewrite E. cbn [snd].
      apply map_Forall_insert_2; [|exact Hw]. unfold jobWithinBounds; cbn. lia.
  - intros session owns. unfold retryRequest.
    destruct session; cbn [negb]; [|exact Hw].
    destruct (getJob jobId w) as [job|] eqn:E; [|exact Hw].
    destruct owns; cbn [negb]; [|exact Hw].
    destruct (Hw jobId job E) as [Hp Hr].
    destruct (status job); try exact Hw.
    destruct (Z.leb_spec 3 (retryCount job)); [exact Hw|].
    pose proof (scheduleRetry_bounds jobId (retryCount job + 1) w Hw) as H1.
    destruct (scheduleRetry jobId (retryCount job + 1) w) as [[j|e] w'];
      apply H1; unfold MAX_RETRIES; lia.
  - intros session owns. unfold cancelRequest.
    destruct session; cbn [negb]; [|exact Hw].
    destruct (String.eqb jobId ""); [exact Hw|].
    destruct (getJob jobId w) as [job|] eqn:E; [|exact Hw].
    destruct owns; cbn [negb]; [|exact Hw].
    destruct (Hw jobId job E) as [Hp Hr].
    unfold getJob in E.
    destruct (status job); try exact Hw; unfold updateJob; rewrite E; cbn [snd];
      (apply map_Forall_insert_2; [|exact Hw]); unfold jobWithinBounds; cbn; lia.
Qed.

Lemma job_table_stays_within_bounds_witness :
  tableWithinBounds Examples.freshWorld
  /\ tableWithinBounds (updateJobProgress Examples.queuedJobId 250 Examples.freshWorld)
  /\ tableWithinBounds
       (snd (markJobAsFailed Examples.queuedJobId "boom" Examples.freshWorld)).
Proof.
  assert (H : tableWithinBounds Examples.freshWorld).
  { apply map_Forall_singleton. unfold jobWithinBounds. vm_compute.
    repeat split; discriminate. }
  split; [exact H|]. split.
  - exact (proj1 (job_table_stays_within_bounds Examples.queuedJobId
                    Examples.freshWorld H) 250).
  - exact (proj1 (proj2 (job_table_stays_within_bounds Examples.queuedJobId
                           Examples.freshWorld H))
             "boom"%string).
Defined.



(** X3.  On the text of a uuid that no job has as its identifier,
    [updateJob], [scheduleRetry] and [markJobAsFailed] throw (each with
    its own message) and leave the table and the timers as they are,
    [updateJobProgress] writes nothing and throws nothing, and a retry
    request is answered with 404. *)
Theorem operations_on_a_missing_job (jobId : string) (w : World) :
  Notions.isUuid jobId = true ->
  getJob jobId w = None ->
  (forall data,
     updateJob jobId data w
     = (JS.Throw (JS.ErrorObject ("Failed to update job: " ++ noRowMessage)), w))
  /\ (forall n,
        scheduleRetry jobId n w
        = (JS.Throw (JS.ErrorObject
                       ("Failed to schedule retry: Failed to update job: "
                        ++ noRowMessage)), w))
  /\ (forall msg,
        markJobAsFailed jobId msg w
        = (JS.Throw (JS.ErrorObject "Failed to mark job as failed: Job not found"), w))
  /\ (forall progress, updateJobProgress jobId progress w = w)
  /\ retryRequest true true jobId w = (Rejected 404 "Job not found", w).
Proof.
  intros _ H. split; [|split; [|split; [|split]]]; intros.
  - now apply updateJob_missing.
  - unfold scheduleRetry. now rewrite updateJob_missing.
  - unfold markJobAsFailed. now rewrite H.
  - unfold updateJobProgress. unfold getJob in H. now rewrite H.
  - unfold retryRequest. cbn [negb]. now rewrite H.
Qed.

Lemma operations_on_a_missing_job_witness :
  markJobAsFailed Examples.absentJobId "boom" Examples.freshWorld
  = (JS.Throw (JS.ErrorObject "Failed to mark job as failed: Job not found"),
     Examples.freshWorld).
Proof.
  refine (proj1 (proj2 (proj2 (operations_on_a_missing_job Examples.absentJobId
                                 Examples.freshWorld _ _)))
            "boom"%string); vm_compute; reflexivity.
Defined.

(** X4.  The effect of [n] failures in a row on a job of retry count [r]
    (between 0 and 3), in closed form: the retry count becomes
    min(3, r + n); the job is pending as long as r + n <= 3 and failed
    afterwards, then with the error message of the failure as
    [mapDbJobToJob] reads it (the message itself unless it is empty, in
    which case the job has none); and min(n, 3 - r) timers have been
    set. *)
Theorem repeated_failures_closed_form (n : nat) (jobId msg : string) (w : World)
    (job : Job) :
  getJob jobId w = Some job ->
  0 <= retryCount job <= MAX_RETRIES ->
  exists job',
    getJob jobId (failTimes n jobId msg w) = Some job'
    /\ retryCount job' = Z.min MAX_RETRIES (retryCount job + Z.of_nat n)
    /\ (n <> O ->
        status job' = (if retryCount job + Z.of_nat n <=? MAX_RETRIES
                       then pending else failed))
    /\ (MAX_RETRIES < retryCount job + Z.of_nat n ->
        errorMessage job' = orUndefined msg)
    /\ length (timers (failTimes n jobId msg w))
       = (length (timers w)
          + Z.to_nat (Z.min (Z.of_nat n) (MAX_RETRIES - retryCount job)))%nat.
Proof.
  intros Hjob Hr. induction n as [|k IH].
  - exists job. cbn. repeat split; try lia; try congruence.
  - destruct IH as (jk & Hk & Hrk & Hsk & Hmk & Htk).
    cbn [failTimes].
    destruct (Z.ltb_spec (retryCount jk) MAX_RETRIES) as [Hlt|Hge].
    + destruct (fail_below_ceiling jobId msg _ jk Hk Hlt)
        as (j' & Hm & Hs & Hp & Hrc).
      rewrite Hm. cbn [snd]. exists j'. unfold getJob; cbn [jobs timers].
      rewrite lookup_insert_eq.
      assert (Hsum : retryCount job + Z.of_nat k < MAX_RETRIES) by lia.
      repeat split.
      * lia.
      * intros _. destruct (Z.leb_spec (retryCount job + Z.of_nat (S k)) MAX_RETRIES);
          [exact Hs|lia].
      * lia.
      * cbn [length]. rewrite Htk. lia.
    + destruct (fail_at_ceiling jobId msg _ jk Hk Hge)
        as (j' & Hm & Hs & He & Hrc).
      rewrite Hm. cbn [snd]. exists j'. unfold getJob; cbn [jobs timers].
      rewrite lookup_insert_eq.
      assert (Hsum : MAX_RETRIES <= retryCount job + Z.of_nat k) by lia.
      repeat split.
      * lia.
      * intros _. destruct (Z.leb_spec (retryCount job + Z.of_nat (S k)) MAX_RETRIES);
          [lia|exact Hs].
      * intros _. exact He.
      * rewrite Htk. lia.
Qed.

Lemma repeated_failures_closed_form_witness :
  exists job',
    getJob Examples.queuedJobId (failTimes 7 Examples.queuedJobId "boom" Examples.freshWorld)
    = Some job'
    /\ retryCount job' = Z.min MAX_RETRIES (retryCount Examples.freshJob + Z.of_nat 7)
    /\ (7%nat <> O ->
        status job' = (if retryCount Examples.freshJob + Z.of_nat 7 <=? MAX_RETRIES
                       then pending else failed))
    /\ (MAX_RETRIES < retryCount Examples.freshJob + Z.of_nat 7 ->
        errorMessage job' = Some "boom"%string)
    /\ length (timers (failTimes 7 Examples.queuedJobId "boom" Examples.freshWorld))
       = (length (timers Examples.freshWorld)
          + Z.to_nat (Z.min (Z.of_nat 7)
                            (MAX_RETRIES - retryCount Examples.freshJob)))%nat.
Proof.
  apply (repeated_failures_closed_form 7 Examples.queuedJobId "boom" Examples.freshWorld
           Examples.freshJob).
  - vm_compute; reflexivity.
  - vm_compute. split; discriminate.
Defined.

(** X5.  The cancel request never touches a job that is pending or
    processing: it is refused and the table stays as it is.  On a
    completed or failed job it sets the status to 'failed' with the
    message 'Job cancelled by user' and keeps the output address, the
    progress and the retry count; while the retry count is below 3, a
    retry request on the cancelled job is then accepted and puts the job,
    also one that had completed, back to 'pending'. *)
Theorem cancel_only_finished_jobs (jobId : string) (w : World) (job : Job) :
  getJob jobId w = Some job ->
  jobId <> ""%string ->
  match status job with
  | pending | processing =>
      forall session owns,
        exists code reason,
          cancelRequest session owns jobId w = (Refused code reason, w)
  | completed | failed =>
      exists job',
        cancelRequest true true jobId w
        = (Cancelled,
           {| jobs := <[jobId := job']> (jobs w); timers := timers w; clock := clock w |})
        /\ status job' = failed
        /\ errorMessage job' = Some cancelledMessage
        /\ outputUrl job' = outputUrl job
        /\ progress job' = progress job
        /\ retryCount job' = retryCount job
        /\ (retryCount job < MAX_RETRIES ->
            exists job'' w'',
              retryRequest true true jobId (snd (cancelRequest true true jobId w))
              = (Accepted (retryCount job + 1), w'')
              /\ getJob jobId w'' = Some job''
              /\ status job'' = pending
              /\ outputUrl job'' = outputUrl job)
  end.
Proof.
  intros Hjob Hid.
  assert (Hne : String.eqb jobId "" = false) by now apply String.eqb_neq.
  assert (Hfin :
    status job = completed \/ status job = failed ->
    exists job',
        cancelRequest true true jobId w
        = (Cancelled,
           {| jobs := <[jobId := job']> (jobs w); timers := timers w; clock := clock w |})
        /\ status job' = failed
        /\ errorMessage job' = Some cancelledMessage
        /\ outputUrl job' = outputUrl job
        /\ progress job' = progress job
        /\ retryCount job' = retryCount job
        /\ (retryCount job < MAX_RETRIES ->
            exists job'' w'',
              retryRequest true true jobId (snd (cancelRequest true true jobId w))
              = (Accepted (retryCount job + 1), w'')
              /\ getJob jobId w'' = Some job''
              /\ status job'' = pending
              /\ outputUrl job'' = outputUrl job)).
  { intros Hs.
    set (data := {| newStatus := Some failed;
                     newErrorMessage := Some cancelledMessage;
                     newCompletedAt := Some (clock w);
                     newProgress := None;
                     newOutputUrl := None;
                     newRetryCount := None |}).
    assert (Hc : cancelRequest true true jobId w
                 = (Cancelled,
                    {| jobs := <[jobId := applyUpdate (clock w) data job]> (jobs w);
                       timers := timers w; clock := clock w |})).
    { unfold cancelRequest. cbn [negb]. rewrite Hne, Hjob.
      fold data. rewrite (updateJob_found jobId data w job Hjob).
      destruct Hs as [-> | ->]; reflexivity. }
    exists (applyUpdate (clock w) data job).
    split; [exact Hc|]. repeat split.
    intros Hlt. rewrite Hc. cbn [snd].
    set (w1 := {| jobs := <[jobId := applyUpdate (clock w) data job]> (jobs w);
                  timers := timers w; clock := clock w |}).
    assert (H1 : getJob jobId w1 = Some (applyUpdate (clock w) data job)).
    { unfold getJob, w1; cbn [jobs]. apply lookup_insert_eq. }
    destruct (scheduleRetry_found jobId (retryCount job + 1) w1 _ H1)
      as (j2 & Hsr & Hst & _ & _ & _).
    unfold retryRequest. cbn [negb]. rewrite H1.
    cbn [applyUpdate status retryCount data newStatus newRetryCount orElse].
    destruct (Z.leb_spec 3 (retryCount job)); [unfold MAX_RETRIES in Hlt; lia|].
    rewrite Hsr. eexists j2, _. split; [reflexivity|].
    split; [unfold getJob; cbn [jobs]; apply lookup_insert_eq|].
    split; [exact Hst|].
    unfold scheduleRetry in Hsr.
    rewrite (updateJob_found jobId _ w1 _ H1) in Hsr.
    inversion Hsr as [[Hj Hw]].
    unfold getJob in Hj; cbn [jobs] in Hj. rewrite lookup_insert_eq in Hj.
    inversion Hj. reflexivity. }
  destruct (status job) eqn:Es.
  - intros session owns. unfold cancelRequest.
    destruct session; cbn [negb]; [|eauto].
    rewrite Hne, Hjob. destruct owns; cbn [negb]; [|eauto].
    rewrite Es. eauto.
  - intros session owns. unfold cancelRequest.
    destruct session; cbn [negb]; [|eauto].
    rewrite Hne, Hjob. destruct owns; cbn [negb]; [|eauto].
    rewrite Es. eauto.
  - apply Hfin. now left.
  - apply Hfin. now right.
Qed.

Lemma cancel_only_finished_jobs_witness :
  exists job',
    cancelRequest true true Examples.queuedJobId Examples.finishedWorld
    = (Cancelled,
       {| jobs := <[Examples.queuedJobId := job']> (jobs Examples.finishedWorld);
          timers := timers Examples.finishedWorld;
          clock := clock Examples.finishedWorld |})
    /\ status job' = failed
    /\ outputUrl job' = outputUrl Examples.finishedJob.
Proof.
  assert (Hjob : getJob Examples.queuedJobId Examples.finishedWorld = Some Examples.finishedJob)
    by (vm_compute; reflexivity).
  assert (Hid : Examples.queuedJobId <> ""%string) by discriminate.
  destruct (cancel_only_finished_jobs Examples.queuedJobId Examples.finishedWorld
              Examples.finishedJob Hjob Hid)
    as (job' & Hc & Hs & _ & Ho & _).
  exists job'. auto.
Defined.

End JobTable.

(** ** The matching engine, continued *)

Section MatchingStages.
Import Types.
Import TaxonomyMappingService.

Lemma matchPatterns_range (request : AIMappingRequest) (field : string)
    (patterns : list (string * (string * string * Z))) (m : MappingResult) :
  List.Forall (fun p => 85 <= snd (snd p) <= 100) patterns ->
  matchPatterns request field patterns = Some m ->
  80 <= confidence m <= 100 /\ mappingMethod m = aiMethod.
Proof.
  induction patterns as [|[pattern [[tag fw] conf]] rest IH]; intros Hall H;
    [discriminate|].
  inversion Hall as [|? ? Hc Hrest]; subst. cbn [snd] in Hc.
  cbn [matchPatterns] in H.
  destruct (JS.includes field pattern || JS.includes pattern field).
  - inversion H; subst; clear H. cbn [confidence mappingMethod]. split; [|reflexivity].
    destruct (requestSector request) as [sector|];
      [destruct (String.eqb sector "banking")|];
      destruct (isLargeNumber (sourceValue request)); lia.
  - now apply IH.
Qed.

(** A candidate of the assisted stage has a confidence of 80 to 100. *)
Lemma getAIMapping_range (request : AIMappingRequest) (m : MappingResult) :
  getAIMapping request = Some m ->
  80 <= confidence m <= 100 /\ mappingMethod m = aiMethod.
Proof.
  unfold getAIMapping, simulateAIMapping. apply matchPatterns_range.
  unfold mappingPatterns. repeat constructor; cbn; lia.
Qed.

(** X6.  [mapFinancialItem] answers null (manual review) exactly when the
    fuzzy stage and the assisted stage find no candidate and the exact
    stage finds none or one of confidence below 60: a candidate of the
    fuzzy or of the assisted stage is always accepted. *)
Theorem manual_review_iff db (item : FinancialItem) (sector reportType : option string) :
  let exact := findExactMapping db (concept item) sector reportType in
  let fuzzy := findFuzzyMatch db (concept item) sector reportType in
  let assisted := getAIMapping (aiRequest item sector reportType exact fuzzy) in
  mapFinancialItem db item sector reportType = None
  <-> (match exact with Some m => confidence m < 60 | None => True end)
      /\ fuzzy = None /\ assisted = None.
Proof.
  cbv zeta. unfold mapFinancialItem.
  pose proof (findFuzzyMatch_range db (concept item) sector reportType) as Hf.
  destruct (findExactMapping db (concept item) sector reportType) as [e|].
  - destruct (Z.leb_spec 95 (confidence e)).
    { split; [discriminate|]. intros [? _]. lia. }
    destruct (findFuzzyMatch db (concept item) sector reportType) as [f|].
    { destruct (Hf f eq_refl) as [[Hlo _] _].
      destruct (Z.leb_spec 80 (confidence f)); [|lia].
      split; [discriminate|]. intros (_ & ? & _). discriminate. }
    pose proof (getAIMapping_range (aiRequest item sector reportType (Some e) None)) as Ha.
    destruct (getAIMapping (aiRequest item sector reportType (Some e) None)) as [a|].
    { destruct (Ha a eq_refl) as [[Hlo _] _].
      destruct (Z.leb_spec 70 (confidence a)); [|lia].
      split; [discriminate|]. intros (_ & _ & ?). discriminate. }
    cbn. destruct (Z.leb_spec 60 (confidence e)).
    + split; [discriminate|]. intros [? _]. lia.
    + split; auto.
  - destruct (findFuzzyMatch db (concept item) sector reportType) as [f|].
    { destruct (Hf f eq_refl) as [[Hlo _] _].
      destruct (Z.leb_spec 80 (confidence f)); [|lia].
      split; [discriminate|]. intros (_ & ? & _). discriminate. }
    pose proof (getAIMapping_range (aiRequest item sector reportType None None)) as Ha.
    destruct (getAIMapping (aiRequest item sector reportType None None)) as [a|].
    { destruct (Ha a eq_refl) as [[Hlo _] _].
      destruct (Z.leb_spec 70 (confidence a)); [|lia].
      split; [discriminate|]. intros (_ & _ & ?). discriminate. }
    cbn. split; auto.
Qed.

(** X7.  A match that [mapFinancialItem] returns has a confidence of at
    least 60.  One below 80 is always the learned mapping of the exact
    stage, returned with its stored confidence, tag and method; when the
    exact stage finds nothing, the match is a fuzzy or an assisted one of
    confidence 80 to 100. *)
Theorem returned_match_confidence db (item : FinancialItem)
    (sector reportType : option string) (t : TaxonomyMatch) :
  mapFinancialItem db item sector reportType = Some t ->
  60 <= Types.confidence t
  /\ (Types.confidence t < 80 ->
      exists m,
        findExactMapping db (concept item) sector reportType = Some m
        /\ Types.confidence t = confidence m
        /\ Types.xbrlTag t = xbrlTag m
        /\ Types.mappingMethod t = mappingMethod m)
  /\ (findExactMapping db (concept item) sector reportType = None ->
      80 <= Types.confidence t <= 100
      /\ (Types.mappingMethod t = fuzzyMethod \/ Types.mappingMethod t = aiMethod)).
Proof.
  unfold mapFinancialItem.
  pose proof (findFuzzyMatch_range db (concept item) sector reportType) as Hf.
  destruct (findExactMapping db (concept item) sector reportType) as [e|].
  - destruct (Z.leb_spec 95 (confidence e)).
    { intros Hres; inversion Hres; subst; cbn. repeat split; try lia; discriminate. }
    destruct (findFuzzyMatch db (concept item) sector reportType) as [f|].
    { destruct (Hf f eq_refl) as [[Hlo Hhi] _].
      destruct (Z.leb_spec 80 (confidence f)); [|lia].
      intros Hres; inversion Hres; subst; cbn. repeat split; try lia; discriminate. }
    pose proof (getAIMapping_range (aiRequest item sector reportType (Some e) None)) as Ha.
    destruct (getAIMapping (aiRequest item sector reportType (Some e) None)) as [a|].
    { destruct (Ha a eq_refl) as [[Hlo Hhi] _].
      destruct (Z.leb_spec 70 (confidence a)); [|lia].
      intros Hres; inversion Hres; subst; cbn. repeat split; try lia; discriminate. }
    cbn. destruct (Z.leb_spec 60 (confidence e)); [|discriminate].
    intros Hres; inversion Hres; subst; cbn. split; [lia|]. split; [|discriminate].
    intros _. exists e. auto.
  - destruct (findFuzzyMatch db (concept item) sector reportType) as [f|].
    { destruct (Hf f eq_refl) as [[Hlo Hhi] _].
      destruct (Z.leb_spec 80 (confidence f)); [|lia].
      intros Hres; inversion Hres; subst; cbn. split; [lia|]. split; [lia|].
      intros _. split; [lia|]. now left. }
    pose proof (getAIMapping_range (aiRequest item sector reportType None None)) as Ha.
    destruct (getAIMapping (aiRequest item sector reportType None None)) as [a|].
    { destruct (Ha a eq_refl) as [[Hlo Hhi] _].
      destruct (Z.leb_spec 70 (confidence a)); [|lia].
      intros Hres; inversion Hres; subst; cbn. split; [lia|]. split; [lia|].
      intros _. split; [lia|]. now right. }
    cbn. discriminate.
Qed.

Lemma returned_match_confidence_witness :
  60 <= Types.confidence Examples.netSalesMatch.
Proof.
  refine (proj1 (returned_match_confidence Examples.learnedDb Examples.netSales
                   None None Examples.netSalesMatch _)).
  vm_compute; reflexivity.
Defined.

Lemma getAIMapping_first_pattern (request : AIMappingRequest) :
  JS.includes "cash" (JS.toLowerCase (sourceField request)) = true ->
  exists m,
    getAIMapping request = Some m
    /\ xbrlTag m = "us-gaap:CashAndCashEquivalentsCarryingAmount"%string
    /\ taxonomyFramework m = "US-GAAP"%string
    /\ 90 <= confidence m <= 100.
Proof.
  intros Hc. unfold getAIMapping, simulateAIMapping, mappingPatterns.
  cbn [matchPatterns]. rewrite Hc, orb_true_r.
  eexists. split; [reflexivity|]. cbn [xbrlTag taxonomyFramework confidence].
  split; [reflexivity|]. split; [reflexivity|].
  destruct (requestSector request) as [s0|]; [destruct (String.eqb s0 "banking")|];
    destruct (isLargeNumber (sourceValue request)); lia.
Qed.

(** X8.  The patterns of the assisted stage are tested in both
    directions, so a label that is contained in the first pattern, "cash"
    (the empty label, "a", "sh", ...), is mapped to
    us-gaap:CashAndCashEquivalentsCarryingAmount by the assisted stage,
    with a confidence of 90 to 100, whenever the exact and the fuzzy
    stage find nothing. *)
Theorem label_contained_in_first_pattern db (item : FinancialItem)
    (sector reportType : option string) :
  findExactMapping db (concept item) sector reportType = None ->
  findFuzzyMatch db (concept item) sector reportType = None ->
  JS.includes "cash" (JS.toLowerCase (concept item)) = true ->
  exists t,
    mapFinancialItem db item sector reportType = Some t
    /\ Types.xbrlTag t = "us-gaap:CashAndCashEquivalentsCarryingAmount"%string
    /\ Types.mappingMethod t = "ai_assisted"%string
    /\ 90 <= Types.confidence t <= 100.
Proof.
  intros He Hf Hc. unfold mapFinancialItem. rewrite He, Hf.
  destruct (getAIMapping_first_pattern (aiRequest item sector reportType None None) Hc)
    as (m & Hm & Htag & _ & Hrange).
  rewrite Hm. destruct (Z.leb_spec 70 (confidence m)); [|lia].
  eexists. split; [reflexivity|]. cbn. auto.
Qed.

Lemma label_contained_in_first_pattern_witness :
  exists t,
    mapFinancialItem Examples.emptyDb (Examples.plainItem "" (JS.VStr "n/a")) None None
    = Some t
    /\ Types.xbrlTag t = "us-gaap:CashAndCashEquivalentsCarryingAmount"%string
    /\ Types.mappingMethod t = "ai_assisted"%string
    /\ 90 <= Types.confidence t <= 100.
Proof.
  apply (label_contained_in_first_pattern Examples.emptyDb
           (Examples.plainItem "" (JS.VStr "n/a")) None None);
    vm_compute; reflexivity.
Defined.

Lemma head_sortDesc_max {A} (conf : A -> Z) (l : list A) :
  match head (sortDesc conf l) with
  | Some x => In x l /\ forall y, In y l -> conf y <= conf x
  | None => l = []
  end.
Proof.
  induction l as [|a rest IH]; [reflexivity|].
  rewrite sortDesc_cons, head_insertDesc.
  destruct (head (sortDesc conf rest)) as [b|].
  - destruct IH as [Hin Hmax].
    destruct (Z.ltb_spec (conf a) (conf b)).
    + split; [now right|]. intros y [<-|Hy]; [lia|auto].
    + split; [now left|]. intros y [<-|Hy]; [lia|]. specialize (Hmax y Hy). lia.
  - subst rest. split; [now left|]. intros y [<-|[]]. lia.
Qed.

Lemma best_scored (score : TaxonomyRow -> Z) (shortlist : list TaxonomyRow) :
  match sortDesc snd (List.filter (fun m => 80 <=? snd m)
                        (map (fun candidate => (candidate, score candidate)) shortlist)) with
  | [] => forall t', In t' shortlist -> score t' < 80
  | (best, sc) :: _ =>
      In best shortlist /\ sc = score best /\ 80 <= sc
      /\ forall t', In t' shortlist -> score t' <= sc
  end.
Proof.
  set (scored := map (fun candidate => (candidate, score candidate)) shortlist).
  assert (Hin : forall t', In t' shortlist -> 80 <= score t' ->
                           In (t', score t') (List.filter (fun m => 80 <=? snd m) scored)).
  { intros t' Ht' Hge. apply filter_In. split.
    - unfold scored. apply in_map_iff. exists t'. auto.
    - cbn. now apply Z.leb_le. }
  pose proof (head_sortDesc_max snd (List.filter (fun m => 80 <=? snd m) scored)) as H.
  destruct (sortDesc snd (List.filter (fun m => 80 <=? snd m) scored))
    as [|[best sc] rest]; cbn [head] in H.
  - intros t' Ht'.
    destruct (Z.ltb_spec (score t') 80) as [|Hge]; [assumption|exfalso].
    specialize (Hin t' Ht' Hge). rewrite H in Hin. exact Hin.
  - destruct H as [Hb Hmax].
    apply filter_In in Hb. destruct Hb as [Hb Hsc]. cbn in Hsc.
    apply Z.leb_le in Hsc.
    unfold scored in Hb. apply in_map_iff in Hb.
    destruct Hb as (t & Heq & Ht). inversion Heq; subst.
    repeat split; auto.
    intros t' Ht'.
    destruct (Z.ltb_spec (score t') 80) as [|Hge]; [lia|].
    exact (Hmax (t', score t') (Hin t' Ht' Hge)).
Qed.

(** X9.  The fuzzy stage returns a candidate of the highest score among
    the first 20 rows of the shortlist, with that score as confidence,
    when this score is at least 80; it returns nothing exactly when all
    of these rows score below 80.  Rows of the shortlist beyond the
    first 20 are never looked at. *)
Theorem fuzzy_stage_returns_top_candidate db (concept : string)
    (sector reportType : option string) :
  let shortlist :=
    firstn 20 (List.filter (fuzzyCandidate concept sector reportType) (taxonomies db)) in
  let score t :=
    calculateFuzzyScore concept (taxConcept t)
      match taxSynonyms t with Some l => l | None => [] end in
  match findFuzzyMatch db concept sector reportType with
  | Some m =>
      exists t,
        In t shortlist
        /\ xbrlTag m = taxXbrlTag t
        /\ taxonomyConcept m = taxConcept t
        /\ taxonomyFramework m = taxFramework t
        /\ confidence m = score t
        /\ 80 <= score t
        /\ forall t', In t' shortlist -> score t' <= score t
  | None => forall t', In t' shortlist -> score t' < 80
  end.
Proof.
  cbv zeta. unfold findFuzzyMatch.
  match goal with
  | |- context [sortDesc snd (List.filter _ (map (fun c => (c, @?f c)) ?l))] =>
      pose proof (best_scored f l) as H; cbv beta in H
  end.
  destruct (sortDesc snd _) as [|[best sc] rest].
  - exact H.
  - destruct H as (Hb & -> & Hge & Hmax).
    exists best. cbn. repeat split; auto.
Qed.

(** *** The shortlist pattern *)

Lemma chars_append (a b : string) : JS.chars (a ++ b) = JS.chars a ++ JS.chars b.
Proof. induction a; simpl; [reflexivity|]. now f_equal. Qed.

Lemma like_percent (pattern text : list ascii) :
  like ("%"%char :: pattern) text
  = like pattern text
    || match text with
       | [] => false
       | _ :: text' => like ("%"%char :: pattern) text'
       end.
Proof. destruct text; reflexivity. Qed.

Lemma like_plain (p : ascii) (pattern text : list ascii) :
  likeSpecial p = false ->
  like (p :: pattern) text
  = match text with
    | [] => false
    | c :: text' => Ascii.eqb p c && like pattern text'
    end.
Proof.
  unfold likeSpecial. intros H.
  apply orb_false_elim in H. destruct H as [H H3].
  apply orb_false_elim in H. destruct H as [H1 H2].
  cbn [like]. rewrite H1, H2, H3. reflexivity.
Qed.

Lemma like_any (text : list ascii) : like ["%"%char] text = true.
Proof.
  induction text as [|c rest IH]; [reflexivity|].
  rewrite like_percent. rewrite IH. apply orb_true_r.
Qed.

Lemma like_prefix (cs text : list ascii) :
  forallb (fun c => negb (likeSpecial c)) cs = true ->
  like (cs ++ ["%"%char]) text = JS.isPrefix cs text.
Proof.
  revert text. induction cs as [|c cs IH]; intros text H.
  - apply like_any.
  - cbn [forallb] in H. apply andb_true_iff in H. destruct H as [Hc Hcs].
    apply negb_true_iff in Hc.
    cbn [app]. rewrite (like_plain _ _ _ Hc).
    destruct text as [|x text]; [reflexivity|].
    cbn [JS.isPrefix]. now rewrite IH.
Qed.

Lemma like_contains (cs text : list ascii) :
  forallb (fun c => negb (likeSpecial c)) cs = true ->
  like ("%"%char :: cs ++ ["%"%char]) text = JS.containsAt text cs.
Proof.
  intros H. induction text as [|x text IH].
  - rewrite like_percent, (like_prefix _ _ H). reflexivity.
  - rewrite like_percent, (like_prefix _ _ H), IH. reflexivity.
Qed.

Lemma lowerChar_plain (c : ascii) :
  likeSpecial c = false -> likeSpecial (JS.lowerChar c) = false.
Proof. destruct c as [[] [] [] [] [] [] [] []]; vm_compute; congruence. Qed.

Lemma forallb_lower_plain (cs : list ascii) :
  forallb (fun c => negb (likeSpecial c)) cs = true ->
  forallb (fun c => negb (likeSpecial c)) (map JS.lowerChar cs) = true.
Proof.
  induction cs as [|c cs IH]; [reflexivity|].
  cbn [forallb map]. intros H. apply andb_true_iff in H. destruct H as [Hc Hcs].
  apply andb_true_iff. split; [|auto].
  apply negb_true_iff. apply lowerChar_plain. now apply negb_true_iff.
Qed.

(** X10.  For a label without the characters [%], [_] and backslash, the
    pattern [%label%] of the fuzzy stage's query matches a concept
    exactly when the lower-cased concept contains the lower-cased label;
    so, without a sector and a report type (or with the sector 'all'),
    the shortlist holds the concepts that contain the label, whatever the
    case of the letters. *)
Theorem shortlist_pattern_is_containment (column concept : string) :
  forallb (fun c => negb (likeSpecial c)) (JS.chars concept) = true ->
  ilike column ("%" ++ concept ++ "%")
  = JS.includes (JS.toLowerCase column) (JS.toLowerCase concept)
  /\ forall t,
       fuzzyCandidate concept None None t
       = JS.includes (JS.toLowerCase (taxConcept t)) (JS.toLowerCase concept)
       /\ fuzzyCandidate concept (Some "all"%string) None t
          = JS.includes (JS.toLowerCase (taxConcept t)) (JS.toLowerCase concept).
Proof.
  intros H.
  assert (Hi : forall column,
             ilike column ("%" ++ concept ++ "%")
             = JS.includes (JS.toLowerCase column) (JS.toLowerCase concept)).
  { intros col. unfold ilike, JS.includes, JS.toLowerCase.
    rewrite !chars_str.
    change (JS.chars ("%" ++ concept ++ "%"))
      with ("%"%char :: JS.chars (concept ++ "%")).
    rewrite chars_append. cbn [map]. rewrite map_app.
    cbn [map JS.chars list_ascii_of_string].
    change (JS.lowerChar "%") with "%"%char.
    apply like_contains. now apply forallb_lower_plain. }
  split; [apply Hi|].
  intros t. unfold fuzzyCandidate. rewrite Hi. cbn. now rewrite !orb_false_r.
Qed.

Lemma shortlist_pattern_is_containment_witness :
  ilike "Total Revenues" ("%" ++ "revenue" ++ "%")
  = JS.includes (JS.toLowerCase "Total Revenues") (JS.toLowerCase "revenue").
Proof.
  exact (proj1 (shortlist_pattern_is_containment "Total Revenues" "revenue" eq_refl)).
Defined.

(** *** A bound of the fuzzy score *)

Lemma wordScore_bound (a b : string) : 0 <= wordScore a b <= 20.
Proof.
  unfold wordScore. destruct (String.eqb a b); [lia|].
  destruct (JS.includes b a || JS.includes a b); lia.
Qed.

Lemma pairScore_bound (pairs : list (string * string)) :
  0 <= fold_left (fun acc p => acc + wordScore (fst p) (snd p)) pairs 0
    <= 20 * Z.of_nat (length pairs).
Proof.
  induction pairs as [|p pairs IH]; [cbn; lia|].
  cbn [fold_left length]. rewrite fold_left_add.
  pose proof (wordScore_bound (fst p) (snd p)). lia.
Qed.

Lemma overlapScore_bound (searchWords candidateWords : list string) :
  0 <= overlapScore searchWords candidateWords
    <= 20 * Z.of_nat (length searchWords * length candidateWords).
Proof.
  unfold overlapScore. rewrite overlapScore_pairs.
  pose proof (pairScore_bound (list_prod searchWords candidateWords)) as H.
  rewrite length_prod in H. lia.
Qed.

Lemma mathRound_inject (z : Z) : JS.mathRound (inject_Z z) = z.
Proof.
  unfold JS.mathRound.
  assert (H : (inject_Z z + (1 # 2) == (2 * z + 1) # 2)%Q).
  { unfold Qeq, Qplus, inject_Z. cbn. lia. }
  rewrite (Qfloor_comp _ _ H). unfold Qfloor. cbn.
  symmetry. apply Z.div_unique with (r := 1); lia.
Qed.

(** X11.  Outside the two shortcuts (equality of the lower-cased terms,
    a synonym equal to the lower-cased label), the fuzzy score is at most
    20 points per pair of a label word and a candidate word.  So a label
    and a candidate with fewer than 4 such pairs, a one-word label
    against a candidate of up to three words for instance, score below
    the threshold of 80 and are never matched by the fuzzy stage. *)
Theorem fuzzy_score_needs_word_pairs (label candidate : string) (synonyms : list string) :
  let words s := Z.of_nat (length (JS.splitWhitespace (JS.toLowerCase s))) in
  String.eqb (JS.toLowerCase label) (JS.toLowerCase candidate) = false ->
  synonymHit (JS.toLowerCase label) synonyms = false ->
  calculateFuzzyScore label candidate synonyms <= 20 * (words label * words candidate)
  /\ (words label * words candidate < 4 ->
      calculateFuzzyScore label candidate synonyms < 80).
Proof.
  cbv zeta. intros He Hs.
  assert (Hb : calculateFuzzyScore label candidate synonyms
               <= 20 * (Z.of_nat (length (JS.splitWhitespace (JS.toLowerCase label)))
                        * Z.of_nat (length (JS.splitWhitespace (JS.toLowerCase candidate))))).
  { unfold calculateFuzzyScore. rewrite He, Hs.
    set (o := overlapScore _ _).
    pose proof (overlapScore_bound (JS.splitWhitespace (JS.toLowerCase label))
                  (JS.splitWhitespace (JS.toLowerCase candidate))) as Ho.
    fold o in Ho.
    assert (Hp : (0 <= lengthPenalty (JS.toLowerCase label) (JS.toLowerCase candidate))%Q)
      by (unfold lengthPenalty; apply Q.le_max_l).
    assert (Hle : (Qmax 0 (inject_Z o - lengthPenalty (JS.toLowerCase label)
                                                      (JS.toLowerCase candidate))
                   <= inject_Z o)%Q).
    { apply Q.max_lub.
      - change 0%Q with (inject_Z 0). rewrite <- Zle_Qle. lia.
      - rewrite <- (Qplus_0_r (inject_Z o)) at 2. unfold Qminus.
        apply Qplus_le_r. rewrite <- (Qopp_involutive 0) at 1.
        apply Qopp_le_compat. exact Hp. }
    apply mathRound_mono in Hle. rewrite mathRound_inject in Hle.
    rewrite Nat2Z.inj_mul in Ho. lia. }
  split; [exact Hb|]. intros Hw. lia.
Qed.

Lemma fuzzy_score_needs_word_pairs_witness :
  calculateFuzzyScore "cash" "Cash flow statement" [] < 80.
Proof.
  refine (proj2 (fuzzy_score_needs_word_pairs "cash" "Cash flow statement" [] _ _) _);
    vm_compute; reflexivity.
Defined.

End MatchingStages.

(** ** Learned mappings *)

Section Learning.
Import Types.
Import TaxonomyMappingService.

Lemma filter_nil_forall {A} (p : A -> bool) (l : list A) :
  List.filter p l = [] <-> forall x, In x l -> p x = false.
Proof.
  induction l as [|a l IH]; cbn [List.filter].
  - split; [intros _ x []|reflexivity].
  - destruct (p a) eqn:E.
    + split; [discriminate|]. intros H. specialize (H a (or_introl eq_refl)). congruence.
    + rewrite IH. split.
      * intros H x [<-|Hx]; auto.
      * intros H x Hx. apply H. now right.
Qed.

Lemma head_filter_In {A} (p : A -> bool) (l : list A) (x : A) :
  head (List.filter p l) = Some x -> In x l /\ p x = true.
Proof.
  intros H. apply filter_In.
  destruct (List.filter p l) as [|y r]; [discriminate|].
  inversion H; subst. now left.
Qed.

(** A primary key selects its own row and no other. *)
Lemma filter_key_unique (t : TaxonomyRow) (l : list TaxonomyRow) :
  List.NoDup (map taxId l) -> In t l ->
  List.filter (fun t' => String.eqb (taxId t) (taxId t')) l = [t].
Proof.
  induction l as [|a l IH]; intros Hnd Hin; [destruct Hin|].
  cbn [map] in Hnd. inversion Hnd as [|? ? Hnot Hnd']; subst.
  cbn [List.filter]. destruct Hin as [->|Hin].
  - rewrite String.eqb_refl. f_equal.
    apply filter_nil_forall. intros x Hx.
    apply String.eqb_neq. intros Heq. apply Hnot. rewrite Heq.
    now apply in_map.
  - destruct (String.eqb_spec (taxId t) (taxId a)) as [Heq|Hne].
    + exfalso. apply Hnot. rewrite <- Heq. now apply in_map.
    + now apply IH.
Qed.

Lemma joinedMappings_app (taxs : list TaxonomyRow) (ms1 ms2 : list MappingRow)
    (concept : string) :
  joinedMappings {| taxonomies := taxs; taxonomyMappings := ms1 ++ ms2 |} concept
  = joinedMappings {| taxonomies := taxs; taxonomyMappings := ms1 |} concept
    ++ joinedMappings {| taxonomies := taxs; taxonomyMappings := ms2 |} concept.
Proof. unfold joinedMappings. cbn [taxonomies taxonomyMappings]. apply flat_map_app. Qed.

Lemma joinedMappings_none (taxs : list TaxonomyRow) (ms : list MappingRow)
    (concept : string) :
  List.filter (fun m => String.eqb (mapSourceField m) concept) ms = [] ->
  joinedMappings {| taxonomies := taxs; taxonomyMappings := ms |} concept = [].
Proof.
  intros H. unfold joinedMappings. cbn [taxonomies taxonomyMappings].
  induction ms as [|m ms IH]; [reflexivity|].
  cbn [List.filter] in H. cbn [flat_map].
  destruct (String.eqb (mapSourceField m) concept); [discriminate|].
  cbn. now apply IH.
Qed.

(** X12.  Writing and reading a learned mapping.  When the taxonomy
    identifiers are unique, the tag names a taxonomy row and the label
    has no mapping row yet, [createMapping] returns normally and
    afterwards [findExactMapping] finds, for that label, the tag with the
    confidence and the method that were written, the rows joined for any
    other label are as before, and with a confidence of at least 95
    [mapFinancialItem] answers with the tag at the exact stage. *)
Theorem createMapping_then_lookup db (label tag framework : string) (confidence : Z)
    (method : string) (sectorContext reportTypeContext : option string)
    (t : TaxonomyRow) :
  List.NoDup (map taxId (taxonomies db)) ->
  head (List.filter (fun t => String.eqb (taxXbrlTag t) tag) (taxonomies db)) = Some t ->
  List.filter (fun m => String.eqb (mapSourceField m) label) (taxonomyMappings db) = [] ->
  let result := createMapping label tag framework confidence method
                              sectorContext reportTypeContext db in
  fst result = JS.Return tt
  /\ taxonomies (snd result) = taxonomies db
  /\ (forall sector reportType,
        findExactMapping (snd result) label sector reportType
        = Some {| xbrlTag := tag;
                  taxonomyFramework := taxFramework t;
                  TaxonomyMappingService.confidence := confidence;
                  mappingMethod := method;
                  taxonomyConcept := taxConcept t;
                  description := taxDescription t |})
  /\ (forall other, other <> label ->
        joinedMappings (snd result) other = joinedMappings db other)
  /\ (95 <= confidence ->
      forall item sector reportType,
        concept item = label ->
        mapFinancialItem (snd result) item sector reportType
        = Some {| Types.xbrlTag := tag;
                  Types.taxonomyFramework := taxFramework t;
                  Types.confidence := confidence;
                  Types.mappingMethod := exactMethod;
                  synonyms := Some [] |}).
Proof.
  intros Hnd Ht Hfresh. cbv zeta.
  destruct (head_filter_In _ _ _ Ht) as [Hin Htag].
  apply String.eqb_eq in Htag.
  unfold createMapping. rewrite Hfresh.
  destruct (List.filter (fun t0 => String.eqb (taxXbrlTag t0) tag) (taxonomies db))
    as [|t0 more] eqn:Ef; [discriminate|].
  cbn [head] in Ht. inversion Ht; subst t0. cbn [firstn fst snd taxonomies].
  set (row := {| mapSourceField := label; mapTaxonomyId := taxId t;
                 mapConfidence := confidence; mapMethod := method;
                 mapIsActive := true |}).
  assert (Hjoin : joinedMappings
                    {| taxonomies := taxonomies db;
                       taxonomyMappings := taxonomyMappings db ++ [row] |} label
                  = [(row, t)]).
  { rewrite joinedMappings_app, (joinedMappings_none _ _ _ Hfresh).
    unfold joinedMappings. cbn [taxonomies taxonomyMappings flat_map row
                                mapSourceField mapIsActive mapTaxonomyId].
    rewrite String.eqb_refl. cbn [andb app].
    rewrite (filter_key_unique t _ Hnd Hin). reflexivity. }
  assert (Hfind : forall sector reportType,
            findExactMapping
              {| taxonomies := taxonomies db;
                 taxonomyMappings := taxonomyMappings db ++ [row] |}
              label sector reportType
            = Some {| xbrlTag := tag;
                      taxonomyFramework := taxFramework t;
                      TaxonomyMappingService.confidence := confidence;
                      mappingMethod := method;
                      taxonomyConcept := taxConcept t;
                      description := taxDescription t |}).
  { intros sector reportType. unfold findExactMapping. rewrite Hjoin.
    cbn [firstn row mapConfidence mapMethod]. now rewrite Htag. }
  split; [reflexivity|]. split; [reflexivity|]. split; [exact Hfind|]. split.
  - intros other Hne. rewrite joinedMappings_app.
    assert (Hlast : joinedMappings
                      {| taxonomies := taxonomies db; taxonomyMappings := [row] |} other
                    = []).
    { apply joinedMappings_none. cbn [List.filter row mapSourceField].
      destruct (String.eqb_spec label other); [congruence|reflexivity]. }
    rewrite Hlast, app_nil_r. destruct db; reflexivity.
  - intros Hge item sector reportType Hc. unfold mapFinancialItem.
    rewrite Hc, Hfind. cbn [TaxonomyMappingService.confidence xbrlTag taxonomyFramework].
    destruct (Z.leb_spec 95 confidence); [reflexivity|lia].
Qed.

Lemma createMapping_then_lookup_witness :
  findExactMapping
    (snd (createMapping "Turnover" "us-gaap:Revenues" "US-GAAP" 96 "manual"
                        None None Examples.learnedDb))
    "Turnover" None None
  = Some {| xbrlTag := "us-gaap:Revenues";
            taxonomyFramework := taxFramework Examples.revenues;
            TaxonomyMappingService.confidence := 96;
            mappingMethod := "manual";
            taxonomyConcept := taxConcept Examples.revenues;
            description := taxDescription Examples.revenues |}.
Proof.
  refine (proj1 (proj2 (proj2
            (createMapping_then_lookup Examples.learnedDb "Turnover" "us-gaap:Revenues"
               "US-GAAP" 96 "manual" None None Examples.revenues _ _ _))) None None).
  - cbn. repeat constructor. intros [].
  - reflexivity.
  - reflexivity.
Defined.

Lemma updateRow_sourceFields (label : string) (f : MappingRow -> MappingRow)
    (ms : list MappingRow) :
  (forall m, mapSourceField (f m) = mapSourceField m) ->
  Permutation
    (map mapSourceField (updateRow (fun m => String.eqb (mapSourceField m) label) f ms))
    (map mapSourceField ms).
Proof.
  intros Hf. induction ms as [|m ms IH]; [constructor|].
  cbn [updateRow]. destruct (String.eqb (mapSourceField m) label); cbn [map].
  - rewrite map_app. cbn [map]. rewrite Hf. symmetry. apply Permutation_cons_append.
  - now constructor.
Qed.

(** With one row per source field at most, the rows of a label are the
    first of them. *)
Lemma rows_of_unique_label (label : string) (ms : list MappingRow) :
  List.NoDup (map mapSourceField ms) ->
  List.filter (fun m => String.eqb (mapSourceField m) label) ms
  = match head (List.filter (fun m => String.eqb (mapSourceField m) label) ms) with
    | Some m => [m]
    | None => []
    end.
Proof.
  induction ms as [|m ms IH]; intros Hnd; [reflexivity|].
  cbn [map] in Hnd. inversion Hnd as [|? ? Hnot Hnd']; subst.
  cbn [List.filter]. destruct (String.eqb_spec (mapSourceField m) label) as [Heq|Hne].
  - cbn [head]. f_equal. apply filter_nil_forall. intros x Hx.
    apply String.eqb_neq. intros Hx'. apply Hnot. rewrite Heq, <- Hx'.
    now apply in_map.
  - now apply IH.
Qed.

Lemma updateRow_rows (label : string) (f : MappingRow -> MappingRow)
    (ms : list MappingRow) :
  (forall m, mapSourceField (f m) = mapSourceField m) ->
  List.NoDup (map mapSourceField ms) ->
  List.filter (fun m => String.eqb (mapSourceField m) label)
              (updateRow (fun m => String.eqb (mapSourceField m) label) f ms)
  = map f (List.filter (fun m => String.eqb (mapSourceField m) label) ms).
Proof.
  intros Hf. induction ms as [|m ms IH]; intros Hnd; [reflexivity|].
  cbn [map] in Hnd. inversion Hnd as [|? ? Hnot Hnd']; subst.
  cbn [updateRow List.filter].
  destruct (String.eqb_spec (mapSourceField m) label) as [Heq|Hne].
  - assert (Hrest : List.filter (fun m => String.eqb (mapSourceField m) label) ms = []).
    { apply filter_nil_forall. intros x Hx.
      apply String.eqb_neq. intros Hx'. apply Hnot. rewrite Heq, <- Hx'.
      now apply in_map. }
    rewrite List.filter_app, Hrest. cbn [List.filter app map].
    rewrite Hf, Heq, String.eqb_refl. reflexivity.
  - cbn [List.filter]. destruct (String.eqb_spec (mapSourceField m) label);
      [contradiction|]. now apply IH.
Qed.

(** X13.  On a table that has at most one mapping row per label,
    [createMapping] is an upsert that never lowers a confidence.  It
    leaves the taxonomy table alone; for a tag that no taxonomy row has
    it throws and writes nothing; when the label has a mapping row, no
    row is added, nothing at all is written unless the new confidence is
    strictly higher, and afterwards the label still has one row, whose
    confidence is the higher of the two; and the table still has at most
    one row per label. *)
Theorem createMapping_upsert db (label tag framework : string) (confidence : Z)
    (method : string) (sectorContext reportTypeContext : option string) :
  List.NoDup (map mapSourceField (taxonomyMappings db)) ->
  let result := createMapping label tag framework confidence method
                              sectorContext reportTypeContext db in
  let rowsOf d :=
    List.filter (fun m => String.eqb (mapSourceField m) label) (taxonomyMappings d) in
  taxonomies (snd result) = taxonomies db
  /\ (List.filter (fun t => String.eqb (taxXbrlTag t) tag) (taxonomies db) = [] ->
      result = (JS.Throw (JS.ErrorObject
                            ("Taxonomy entry not found for XBRL tag: " ++ tag)%string),
                db))
  /\ (forall existing,
        head (rowsOf db) = Some existing ->
        (confidence <= mapConfidence existing -> snd result = db)
        /\ exists stored,
             rowsOf (snd result) = [stored]
             /\ mapConfidence existing <= mapConfidence stored
             /\ (fst result = JS.Return tt ->
                 mapConfidence stored = Z.max (mapConfidence existing) confidence)
             /\ length (taxonomyMappings (snd result)) = length (taxonomyMappings db))
  /\ List.NoDup (map mapSourceField (taxonomyMappings (snd result))).
Proof.
  intros Hnd. cbv zeta.
  pose proof (rows_of_unique_label label _ Hnd) as Hrows.
  unfold createMapping.
  destruct (List.filter (fun t => String.eqb (taxXbrlTag t) tag) (taxonomies db))
    as [|t more] eqn:Et; cbn [firstn].
  { cbn [fst snd]. split; [reflexivity|]. split; [reflexivity|]. split; [|exact Hnd].
    intros existing He. split; [reflexivity|]. exists existing.
    rewrite Hrows, He. split; [reflexivity|]. split; [lia|].
    split; [discriminate|reflexivity]. }
  set (written := fun row : MappingRow =>
                    {| mapSourceField := mapSourceField row;
                       mapTaxonomyId := taxId t;
                       mapConfidence := confidence;
                       mapMethod := method;
                       mapIsActive := true |}).
  assert (Hw : forall m, mapSourceField (written m) = mapSourceField m) by reflexivity.
  destruct (List.filter (fun m => String.eqb (mapSourceField m) label)
              (taxonomyMappings db)) as [|existing others] eqn:Em; cbn [firstn].
  - cbn [fst snd taxonomies taxonomyMappings].
    split; [reflexivity|]. split; [discriminate|]. split; [discriminate|].
    rewrite map_app. cbn [map mapSourceField].
    apply List.NoDup_app; [exact Hnd|repeat constructor; intros []|].
    intros x Hx [<-|[]].
    apply in_map_iff in Hx. destruct Hx as (m & Hm & Hin).
    pose proof (proj1 (filter_nil_forall _ _) Em m Hin) as Hf. cbn in Hf.
    rewrite Hm, String.eqb_refl in Hf. discriminate.
  - cbn [head] in Hrows. injection Hrows as ->.
    destruct (Z.ltb_spec (mapConfidence existing) confidence) as [Hlt|Hge];
      cbn [fst snd taxonomies taxonomyMappings].
    + split; [reflexivity|]. split; [discriminate|]. split.
      * intros e He. cbn [head] in He. inversion He; subst e.
        split; [lia|]. exists (written existing).
        rewrite (updateRow_rows label written _ Hw Hnd), Em.
        split; [reflexivity|]. cbn [written mapConfidence]. split; [lia|].
        split; [lia|].
        rewrite <- !(length_map mapSourceField).
        apply Permutation_length, (updateRow_sourceFields label written _ Hw).
      * eapply Permutation_NoDup; [|exact Hnd].
        symmetry. apply (updateRow_sourceFields label written _ Hw).
    + split; [reflexivity|]. split; [discriminate|]. split; [|exact Hnd].
      intros e He. cbn [head] in He. inversion He; subst e.
      split; [reflexivity|]. exists existing. rewrite Em.
      split; [reflexivity|]. split; [lia|]. split; [lia|reflexivity].
Qed.

Lemma createMapping_upsert_witness :
  exists stored,
    List.filter (fun m => String.eqb (mapSourceField m) "Net Sales")
      (taxonomyMappings
         (snd (createMapping "Net Sales" "us-gaap:Revenues" "US-GAAP" 99 "manual"
                             None None Examples.learnedDb)))
    = [stored]
    /\ mapConfidence stored = 99.
Proof.
  assert (Hnd : List.NoDup (map mapSourceField (taxonomyMappings Examples.learnedDb))).
  { cbn. repeat constructor. intros []. }
  destruct (createMapping_upsert Examples.learnedDb "Net Sales" "us-gaap:Revenues"
              "US-GAAP" 99 "manual" None None Hnd) as (_ & _ & H & _).
  destruct (H _ eq_refl) as (_ & stored & Hrows & _ & Hmax & _).
  exists stored. split; [exact Hrows|]. exact (Hmax eq_refl).
Defined.

End Learning.

(** ** Generated documents, continued *)

Section Documents.
Import Types.
Import XBRLGenerator.
Import Notions.

(** X17.  [generateXBRL] always returns, and it returns a document
    exactly when there is no statement and the document date is valid.
    That document declares the two units "USD" and "pure", has no context
    element and no item fact, only the two or three facts of the document
    information (three when a company name is given), and its metadata
    count no fact and list no framework, no context and no issue.  In
    every other case the result is the empty document with the single
    issue 'Generation failed: ...': for the first statement the message
    of [toISOString] when its period end is invalid and otherwise that
    of the XML builder, and 'Invalid time value' for an invalid document
    date. *)
Theorem generation_succeeds_only_without_statements (h : Host)
    (statements : list FinancialStatement) (options : XBRLGenerationOptions) :
  exists g,
    generateXBRL h statements options = JS.Return g
    /\ (xbrlDocument g <> EmptyDocument
        <-> statements = [] /\ documentDate options <> JSDate.Invalid)
    /\ (xbrlDocument g = EmptyDocument ->
        g = failedGeneration
              (JS.messageOf match statements with
                            | statement :: _ => contextError h statement
                            | [] => invalidTime
                            end))
    /\ (xbrlDocument g <> EmptyDocument ->
        generated g
        = {| totalFacts := 0; frameworks := [];
             currencies := [optCurrency options]; contexts := [];
             validationIssues := [] |}
        /\ ids (unitElements (xbrlDocument g)) = ["USD"; "pure"]%string
        /\ contextElements (xbrlDocument g) = []
        /\ length (facts (xbrlDocument g))
           = (if String.eqb (optCompanyName options) "" then 2 else 3)%nat).
Proof.
  destruct statements as [|statement rest].
  - unfold generateXBRL. pose proof (generateBody_nil h options) as Hb.
    pose proof (addEntityInformation_cases options) as He.
    destruct (documentDate options) as [t|].
    + destruct Hb as (g & entity & -> & Hentity & Hd & Hg & Hc & Hu & Hf).
      destruct He as (entity' & He & Hlen & _).
      rewrite Hentity in He. injection He as <-.
      exists g. cbn [JS.tryCatch]. split; [reflexivity|]. rewrite Hd.
      split; [split; [intros _; split; [reflexivity|discriminate]|discriminate]|].
      split; [discriminate|]. intros _. rewrite <- Hd.
      split; [exact Hg|]. split; [rewrite Hu; reflexivity|].
      split; [exact Hc|]. now rewrite Hf.
    + rewrite Hb. cbn [JS.tryCatch]. eexists. split; [reflexivity|].
      cbn [xbrlDocument]. split; [split; [congruence|intros [_ H]; congruence]|].
      split; [reflexivity|congruence].
  - rewrite (generateXBRL_cons h). eexists. split; [reflexivity|].
    cbn [failedGeneration xbrlDocument].
    split; [split; [congruence|intros [H _]; discriminate]|].
    split; [reflexivity|congruence].
Qed.

End Documents.

(** ** Context identifiers between the generator and the XBRL parser *)

Section RoundTrip.
Import Types.
Import Notions.

Lemma hyphensApart_no_date (prev : bool) (l : list ascii) :
  hyphensApart prev l = true -> XbrlParser.matchDatePattern l = None.
Proof.
  revert prev. induction l as [|c rest IH]; intros prev H; [reflexivity|].
  cbn [hyphensApart] in H. apply andb_true_iff in H. destruct H as [_ Hrest].
  cbn [XbrlParser.matchDatePattern]. rewrite (IH _ Hrest).
  destruct (XbrlParser.datePatternHere (c :: rest)) as [r|] eqn:E; [exfalso|reflexivity].
  unfold XbrlParser.datePatternHere in E.
  destruct rest as [|y2 [|y3 [|y4 [|s1 rest']]]]; try discriminate.
  destruct rest' as [|m1 [|m2 [|s2 [|d1 [|d2 rest'']]]]]; try discriminate.
  destruct (forallb JS.isDigit [c; y2; y3; y4; m1; m2; d1; d2]
            && Ascii.eqb s1 "-" && Ascii.eqb s2 "-") eqn:Ec; [|discriminate].
  apply andb_true_iff in Ec. destruct Ec as [Ec _].
  apply andb_true_iff in Ec. destruct Ec as [Hd Hs1].
  cbn [forallb] in Hd.
  repeat (apply andb_true_iff in Hd; destruct Hd as [? Hd]).
  cbn [hyphensApart] in Hrest.
  repeat (apply andb_true_iff in Hrest; destruct Hrest as [? Hrest]).
  match goal with
  | H1 : JS.isDigit y4 = true, H2 : negb (JS.isDigit y4 && Ascii.eqb s1 "-") = true |- _ =>
      rewrite H1, Hs1 in H2; discriminate
  end.
Qed.

Lemma hyphenFree_apart (prev : bool) (l : list ascii) :
  hyphenFree l = true -> hyphensApart prev l = true.
Proof.
  revert prev. induction l as [|c rest IH]; intros prev H; [reflexivity|].
  cbn [hyphenFree forallb] in H. apply andb_true_iff in H. destruct H as [Hc Hrest].
  cbn [hyphensApart]. apply negb_true_iff in Hc. rewrite Hc, andb_false_r.
  cbn [negb andb]. now apply IH.
Qed.

(** A separator, neither a digit nor a hyphen, after a hyphen-free
    text. *)
Lemma hyphensApart_piece (prev : bool) (piece : list ascii) (sep : ascii)
    (rest : list ascii) :
  hyphenFree piece = true ->
  JS.isDigit sep = false -> Ascii.eqb sep "-" = false ->
  hyphensApart prev (piece ++ sep :: rest) = hyphensApart false rest.
Proof.
  intros Hp Hd Hs. revert prev. induction piece as [|c piece IH]; intros prev.
  - cbn [app hyphensApart]. rewrite Hs, Hd, andb_false_r. reflexivity.
  - cbn [hyphenFree forallb] in Hp. apply andb_true_iff in Hp. destruct Hp as [Hc Hp].
    apply negb_true_iff in Hc.
    cbn [app hyphensApart]. rewrite Hc, andb_false_r. cbn [negb andb]. now apply IH.
Qed.

Lemma uint_hyphenFree (u : Decimal.uint) :
  hyphenFree (JS.chars (NilEmpty.string_of_uint u)) = true.
Proof. induction u; cbn; auto. Qed.

(** The decimal text of an integer: a hyphen, if any, comes first. *)
Lemma intToString_shape (z : Z) :
  exists digits,
    hyphenFree digits = true
    /\ (JS.chars (JS.intToString z) = digits
        \/ JS.chars (JS.intToString z) = "-"%char :: digits).
Proof.
  unfold JS.intToString, NilZero.string_of_int.
  destruct (Z.to_int z) as [u|u];
    exists (JS.chars (NilZero.string_of_uint u));
    (split; [|auto]);
    unfold NilZero.string_of_uint; destruct u; try reflexivity;
    apply (uint_hyphenFree (_ _)).
Qed.

Lemma hyphensApart_number (z : Z) (sep : ascii) (rest : list ascii) :
  JS.isDigit sep = false -> Ascii.eqb sep "-" = false ->
  hyphensApart false (JS.chars (JS.intToString z) ++ sep :: rest)
  = hyphensApart false rest.
Proof.
  intros Hd Hs. destruct (intToString_shape z) as (digits & Hf & [-> | ->]).
  - now apply hyphensApart_piece.
  - cbn [app hyphensApart andb negb].
    change (JS.isDigit "-") with false. now apply hyphensApart_piece.
Qed.

Lemma hyphensApart_last_number (z : Z) :
  hyphensApart false (JS.chars (JS.intToString z)) = true.
Proof.
  destruct (intToString_shape z) as (digits & Hf & [-> | ->]).
  - now apply hyphenFree_apart.
  - cbn [hyphensApart andb negb]. change (JS.isDigit "-") with false.
    now apply hyphenFree_apart.
Qed.

Lemma removeAll_hyphenFree (s : string) :
  hyphenFree (JS.chars (JS.removeAll (fun c => Ascii.eqb c "-") s)) = true.
Proof.
  unfold JS.removeAll. rewrite chars_str.
  induction (JS.chars s) as [|c l IH]; [reflexivity|].
  cbn [List.filter]. destruct (Ascii.eqb c "-") eqn:E; cbn [negb]; [exact IH|].
  cbn [hyphenFree forallb]. rewrite E. exact IH.
Qed.

(** X18.  The context identifier that the generator gives a statement
    never holds a date of the form dddd-dd-dd, the only form the XBRL
    parser looks for in a context identifier: the identifier prints the
    period end without its hyphens.  Read back by the parser, the period
    of such a context is therefore the current date and its year,
    whatever the period of the statement was. *)
Theorem generated_context_id_hides_period (h : XbrlParser.Host)
    (statement : FinancialStatement) (contextId : string) :
  XBRLGenerator.generateContextId statement = JS.Return contextId ->
  XbrlParser.matchDatePattern (JS.chars contextId) = None
  /\ XbrlParser.extractPeriodFromContext h contextId
     = (XbrlParser.now h, CsvParser.yearOf (XbrlParser.now h)).
Proof.
  intros H.
  assert (Hnone : XbrlParser.matchDatePattern (JS.chars contextId) = None).
  { unfold XBRLGenerator.generateContextId in H.
    destruct (JSDate.isoDate (periodEndDate statement)) as [iso|]; [|discriminate].
    cbn [JS.bind] in H. injection H as <-.
    apply (hyphensApart_no_date false).
    rewrite !chars_append.
    change (JS.chars "AsOf_") with ([] ++ JS.chars "AsOf_").
    change (JS.chars "_") with ["_"%char]. change (JS.chars "Q") with ["Q"%char].
    change (JS.chars "AsOf_") with ["A"; "s"; "O"; "f"; "_"]%char.
    cbn [app].
    change ("A" :: "s" :: "O" :: "f" :: "_" :: ?x)%char
      with (["A"; "s"; "O"; "f"]%char ++ "_"%char :: x).
    rewrite hyphensApart_piece by reflexivity.
    rewrite hyphensApart_piece by (try reflexivity; apply removeAll_hyphenFree).
    rewrite hyphensApart_piece by (try reflexivity; destruct (type statement); reflexivity).
    rewrite hyphensApart_number by reflexivity.
    unfold XBRLGenerator.quarterText.
    destruct (fiscalQuarter statement) as [q|]; [|reflexivity].
    destruct (q =? 0); [reflexivity|apply hyphensApart_last_number]. }
  split; [exact Hnone|].
  unfold XbrlParser.extractPeriodFromContext. now rewrite Hnone.
Qed.

Lemma generated_context_id_hides_period_witness :
  XbrlParser.matchDatePattern (JS.chars Examples.incomeContextId) = None
  /\ XbrlParser.extractPeriodFromContext Examples.blankXbrlHost Examples.incomeContextId
     = (XbrlParser.now Examples.blankXbrlHost,
        CsvParser.yearOf (XbrlParser.now Examples.blankXbrlHost)).
Proof.
  apply (generated_context_id_hides_period Examples.blankXbrlHost
           Examples.incomeStatement Examples.incomeContextId).
  vm_compute. reflexivity.
Defined.

End RoundTrip.

(** ** Parsed files, continued *)

Section ParsedFiles.
Import Types.
Import Notions.

Lemma startsWith_clean_paren (s : string) :
  JS.startsWith (JS.removeAll BaseParser.isFormatting s) "(" = false.
Proof.
  unfold JS.startsWith.
  destruct (JS.chars (JS.removeAll BaseParser.isFormatting s)) as [|c rest] eqn:E;
    [reflexivity|].
  apply removeAll_head in E. cbn [JS.chars list_ascii_of_string JS.isPrefix].
  destruct (Ascii.eqb_spec "(" c) as [<-|]; [discriminate E|reflexivity].
Qed.

Lemma removeAll_clean (cls : ascii -> bool) (s : string) :
  forallb (fun c => negb (cls c)) (JS.chars (JS.removeAll cls s)) = true.
Proof.
  unfold JS.removeAll. rewrite chars_str.
  induction (JS.chars s) as [|c l IH]; [reflexivity|].
  cbn [List.filter]. destruct (cls c) eqn:E; cbn [negb]; [exact IH|].
  cbn [forallb]. rewrite E. exact IH.
Qed.

Lemma parseFloat_digit (d : ascii) (rest : list ascii) :
  JS.isDigit d = true -> JS.parseFloat (JS.str (d :: rest)) <> JS.NaN.
Proof.
  intros Hd. unfold JS.parseFloat. rewrite chars_str.
  assert (Hw : JS.isWhiteSpace d = false).
  { destruct d as [[] [] [] [] [] [] [] []]; try discriminate Hd; reflexivity. }
  cbn [JS.dropWhile]. rewrite Hw.
  assert (Hcases :
    (match d :: rest with
     | "-"%char :: r => (true, r)
     | "+"%char :: r => (false, r)
     | _ => (false, d :: rest)
     end) = (false, d :: rest)).
  { destruct d as [[] [] [] [] [] [] [] []]; try discriminate Hd; reflexivity. }
  rewrite Hcases.
  assert (Hinf : JS.isPrefix (JS.chars "Infinity") (d :: rest) = false).
  { cbn [JS.chars list_ascii_of_string JS.isPrefix].
    destruct (Ascii.eqb_spec "I" d) as [<-|]; [discriminate Hd|reflexivity]. }
  rewrite Hinf. cbn [JS.span]. rewrite Hd.
  destruct (JS.span JS.isDigit rest) as [a b].
  destruct (match b with
            | "."%char :: r => JS.span JS.isDigit r
            | _ => ([], b)
            end) as [fp r2].
  cbn [app]. discriminate.
Qed.

(** What [sanitizeValue] makes of a text. *)
Lemma sanitizeValue_text_cases (s : string) :
  match BaseParser.sanitizeValue (JS.VStr s) with
  | JS.VNull => s = ""%string
  | JS.VUndefined => False
  | JS.VNum n => n = JS.parseFloat (JS.removeAll BaseParser.isFormatting s) /\ n <> JS.NaN
  | JS.VBool b =>
      JS.toLowerCase (JS.removeAll BaseParser.isFormatting s)
      = (if b then "true" else "false")%string
  | JS.VStr text =>
      text = JS.removeAll BaseParser.isFormatting s
      /\ JS.parseFloat (JS.removeAll BaseParser.isFormatting s) = JS.NaN
      /\ forallb (fun c => negb (BaseParser.isFormatting c)) (JS.chars text) = true
  | JS.VArray _ => False
  end.
Proof.
  unfold BaseParser.sanitizeValue.
  destruct (String.eqb_spec s "") as [->|Hne]; [reflexivity|].
  rewrite startsWith_clean_paren. cbn [andb].
  set (clean := JS.removeAll BaseParser.isFormatting s).
  destruct (JS.parseFloat clean) as [q|neg|] eqn:Ep; cbn [JS.isNaN negb].
  - split; [reflexivity|discriminate].
  - split; [reflexivity|discriminate].
  - destruct (String.eqb_spec (JS.toLowerCase clean) "true") as [Ht|_]; [exact Ht|].
    destruct (String.eqb_spec (JS.toLowerCase clean) "false") as [Hf|_]; [exact Hf|].
    split; [reflexivity|]. split; [reflexivity|]. apply removeAll_clean.
Qed.

(** X19.  What [sanitizeValue] makes of a text.  The result is null only
    for the empty text and never undefined; a number is the [parseFloat]
    of the text without its formatting characters, and is never NaN; a
    boolean stands for a cleaned text that is 'true' or 'false' up to
    case; any other text is returned cleaned, free of the formatting
    characters; the result is never an array.  A text made of formatting
    characters only (for instance blanks) comes back as the empty string,
    not as null; a text whose cleaned form starts with a digit comes back
    as a number. *)
Theorem sanitizeValue_of_text (s : string) :
  let clean := JS.removeAll BaseParser.isFormatting s in
  match BaseParser.sanitizeValue (JS.VStr s) with
  | JS.VNull => s = ""%string
  | JS.VUndefined => False
  | JS.VNum n => n = JS.parseFloat clean /\ n <> JS.NaN
  | JS.VBool b => JS.toLowerCase clean = (if b then "true" else "false")%string
  | JS.VStr text =>
      text = clean
      /\ JS.parseFloat clean = JS.NaN
      /\ forallb (fun c => negb (BaseParser.isFormatting c)) (JS.chars text) = true
  | JS.VArray _ => False
  end
  /\ (s <> ""%string -> clean = ""%string ->
      BaseParser.sanitizeValue (JS.VStr s) = JS.VStr "")
  /\ (forall d rest, JS.chars clean = d :: rest -> JS.isDigit d = true ->
      exists n, BaseParser.sanitizeValue (JS.VStr s) = JS.VNum n).
Proof.
  cbv zeta. split; [apply sanitizeValue_text_cases|].
  unfold BaseParser.sanitizeValue.
  destruct (String.eqb_spec s "") as [->|Hne].
  { split; [congruence|]. intros d rest H. discriminate H. }
  rewrite startsWith_clean_paren. cbn [andb].
  set (clean := JS.removeAll BaseParser.isFormatting s).
  split.
  - intros _ Hc. rewrite Hc. reflexivity.
  - intros d rest Hc Hd.
    assert (Hp : JS.parseFloat clean <> JS.NaN).
    { replace clean with (JS.str (d :: rest)); [now apply parseFloat_digit|].
      rewrite <- Hc. apply string_of_list_ascii_of_string. }
    destruct (JS.parseFloat clean) as [q|neg|]; cbn [JS.isNaN negb]; eauto.
    congruence.
Qed.

(** *** The items of a CSV statement *)

Lemma createFinancialItem_filled (key : string) (cell : CsvParser.Cell) (i : Z) :
  CsvParser.filled cell = true ->
  exists item,
    CsvParser.createFinancialItem key (CsvParser.cellValue cell) i None = Some item
    /\ concept item = JS.trim key
    /\ Types.value item
       = match cell with
         | CsvParser.CellText text => BaseParser.sanitizeValue (JS.VStr text)
         | CsvParser.CellArray texts => JS.VArray texts
         end
    /\ Types.value item <> JS.VNull /\ Types.value item <> JS.VUndefined
    /\ Types.value item <> JS.VNum JS.NaN
    /\ unit item = "USD"%string /\ itemConfidence item = Some 80
    /\ taxonomyMatch item = None /\ decimals item = None /\ isNil item = None
    /\ sourceReference item
       = Some (key ++ "_row:" ++ JS.intToString i)%string.
Proof.
  intros Hfilled. unfold CsvParser.createFinancialItem.
  destruct cell as [text|texts]; cbn [CsvParser.cellValue].
  - assert (Hne : text <> ""%string).
    { intros ->. discriminate Hfilled. }
    pose proof (sanitizeValue_text_cases text) as H.
    destruct (BaseParser.sanitizeValue (JS.VStr text)) as [| |b|n|t|l] eqn:E;
      [contradiction|contradiction| | | |contradiction];
      eexists; (split; [reflexivity|]); cbn;
      repeat split; try discriminate; try reflexivity.
    destruct H as [_ Hn]. congruence.
  - eexists. split; [reflexivity|]. cbn. repeat split; discriminate.
Qed.

Lemma rowItems_cells (i : Z) (row : CsvParser.Row) :
  Forall2 (fun kv item =>
             CsvParser.createFinancialItem (fst kv) (CsvParser.cellValue (snd kv)) i None
             = Some item)
          (List.filter (fun kv => CsvParser.filled (snd kv)) row)
          (CsvParser.rowItems i row).
Proof.
  unfold CsvParser.rowItems. induction row as [|[key cell] row IH]; [constructor|].
  cbn [flat_map List.filter fst snd].
  destruct (CsvParser.filled cell) eqn:Hfilled; [|exact IH].
  destruct (createFinancialItem_filled key cell i Hfilled) as (item & Hitem & _).
  rewrite Hitem. cbn [app]. constructor; [exact Hitem|exact IH].
Qed.

(** X20.  The items of a CSV statement are the filled fields of the rows,
    in row order and, within a row, in the order in which
    [Object.entries] lists the fields (headers that are array indices
    first, then the others in column order, the array of surplus cells
    last): one item per field whose text is not empty and per array of
    surplus cells, and none for an empty cell.  The item's concept is the
    trimmed header, its value the sanitized text, or the array as it is
    (never null, undefined or NaN), its unit always 'USD' whatever the
    currency of the file, its confidence 80, with no taxonomy match, and
    its source reference the header followed by '_row:' and the row
    index. *)
Theorem csv_items_are_the_filled_cells (i : Z) (rows : list CsvParser.Row) :
  Forall2 (fun cell item =>
             concept item = JS.trim (fst (snd cell))
             /\ value item
                = match snd (snd cell) with
                  | CsvParser.CellText text => BaseParser.sanitizeValue (JS.VStr text)
                  | CsvParser.CellArray texts => JS.VArray texts
                  end
             /\ value item <> JS.VNull /\ value item <> JS.VUndefined
             /\ value item <> JS.VNum JS.NaN
             /\ unit item = "USD"%string /\ itemConfidence item = Some 80
             /\ taxonomyMatch item = None /\ decimals item = None /\ isNil item = None
             /\ sourceReference item
                = Some (fst (snd cell) ++ "_row:" ++ JS.intToString (fst cell))%string)
          (filledCells i rows) (CsvParser.collectItems i rows).
Proof.
  revert i. induction rows as [|row rest IH]; intros i; [constructor|].
  cbn [filledCells CsvParser.collectItems].
  apply Forall2_app; [|apply IH].
  pose proof (rowItems_cells i row) as H.
  assert (Hf : List.Forall (fun kv => CsvParser.filled (snd kv) = true)
                 (List.filter (fun kv => CsvParser.filled (snd kv)) row)).
  { apply List.Forall_forall. intros kv Hin. apply filter_In in Hin. tauto. }
  induction H as [|kv item cells items Hitem _ IHc]; [constructor|].
  inversion Hf as [|? ? Hkv Hf']; subst.
  cbn [map]. constructor; [|now apply IHc].
  destruct kv as [key cell]. cbn [fst snd] in *.
  destruct (createFinancialItem_filled key cell i Hkv) as (item' & Hitem' & Hprops).
  rewrite Hitem in Hitem'. inversion Hitem'; subst item'. exact Hprops.
Qed.

(** *** The report type of a CSV file *)

Lemma detectReportType_known (rows : list CsvParser.Row) :
  rows <> [] ->
  CsvParser.detectReportType rows = balance_sheet
  \/ CsvParser.detectReportType rows = income_statement
  \/ CsvParser.detectReportType rows = cash_flow.
Proof.
  destruct rows as [|first rest]; [congruence|]. intros _.
  unfold CsvParser.detectReportType.
  set (text := JS.toLowerCase _).
  destruct (Nat.leb_spec (CsvParser.keywordScore text CsvParser.incomeKeywords)
                         (CsvParser.keywordScore text CsvParser.balanceSheetKeywords));
    destruct (Nat.leb_spec (CsvParser.keywordScore text CsvParser.cashFlowKeywords)
                           (CsvParser.keywordScore text CsvParser.balanceSheetKeywords));
    cbn [andb]; auto;
    destruct (Nat.leb_spec (CsvParser.keywordScore text CsvParser.cashFlowKeywords)
                           (CsvParser.keywordScore text CsvParser.incomeKeywords));
    auto;
    destruct (Nat.ltb_spec 0 (CsvParser.keywordScore text CsvParser.cashFlowKeywords));
    auto; lia.
Qed.

(** X21.  The report type that [detectReportType] gives rows that are not
    empty is never 'unknown': it is the balance sheet unless the income
    or the cash-flow keywords found in the header outnumber the
    balance-sheet keywords, so a header with no income and no cash-flow
    keyword gives a balance sheet.  The one statement
    of the converted data and the document information carry that type.
    The report of [parse] therefore has the type 'unknown' exactly when
    it has no statement, and never more than one statement. *)
Theorem csv_report_type_is_never_unknown (h : CsvParser.Host)
    (buffer : list Byte.byte) (fileName : string) :
  (forall rows, rows <> [] ->
     let converted := CsvParser.convertToFinancialData h rows in
     In (CsvParser.detectReportType rows) [balance_sheet; income_statement; cash_flow]
     /\ map type (CsvParser.statements converted) = [CsvParser.detectReportType rows]
     /\ CsvParser.convertedReportType converted = CsvParser.detectReportType rows
     /\ (CsvParser.keywordScore
           (JS.toLowerCase
              (String.concat " " (map (fun kv => JS.toLowerCase (fst kv))
                                      (List.hd [] rows))))
           (CsvParser.incomeKeywords ++ CsvParser.cashFlowKeywords) = O ->
         CsvParser.detectReportType rows = balance_sheet))
  /\ exists report,
       CsvParser.parse h buffer fileName = JS.Return report
       /\ (reportType (documentInfo report) = unknown
           <-> financialStatements report = [])
       /\ (length (financialStatements report) <= 1)%nat.
Proof.
  split.
  - intros rows Hne. cbv zeta.
    pose proof (detectReportType_known rows Hne) as Hk.
    split; [cbn [In]; intuition|].
    split; [|split].
    + unfold CsvParser.convertToFinancialData.
      destruct Hk as [-> | [-> | ->]]; reflexivity.
    + unfold CsvParser.convertToFinancialData.
      destruct Hk as [-> | [-> | ->]]; reflexivity.
    + destruct rows as [|first rest]; [congruence|]. cbn [List.hd].
      unfold CsvParser.detectReportType, CsvParser.keywordScore.
      set (text := JS.toLowerCase _).
      rewrite List.filter_app, length_app. intros H0.
      assert (H1 : length (List.filter (fun kw => JS.includes text kw)
                             CsvParser.incomeKeywords) = O) by lia.
      assert (H2 : length (List.filter (fun kw => JS.includes text kw)
                             CsvParser.cashFlowKeywords) = O) by lia.
      rewrite H1, H2. reflexivity.
  - unfold CsvParser.parse, CsvParser.parseBody.
    destruct (CsvParser.papaParse h (CsvParser.utf8 h buffer)) as [result|e].
    + destruct (CsvParser.data result) as [|row rows] eqn:Ed.
      * cbn [JS.bind JS.tryCatch]. eexists. split; [reflexivity|].
        cbn. split; [tauto|lia].
      * cbn [JS.bind JS.tryCatch]. eexists. split; [reflexivity|].
        cbn [documentInfo reportType financialStatements].
        pose proof (detectReportType_known (row :: rows) ltac:(discriminate)) as Hk.
        unfold CsvParser.convertToFinancialData.
        destruct Hk as [-> | [-> | ->]]; cbn; (split; [split; discriminate|lia]).
    + cbn [JS.bind JS.tryCatch]. eexists. split; [reflexivity|].
      cbn. split; [tauto|lia].
Qed.

End ParsedFiles.

(** ** The statements of an XBRL file *)

Section Grouping.
Import Types.
Import XbrlParser.
Import Notions.

Lemma filter_context_snoc (key : string) (facts : list RawFact) (x : RawFact) :
  List.filter (fun fact => String.eqb (factContext fact) key) (facts ++ [x])
  = List.filter (fun fact => String.eqb (factContext fact) key) facts
    ++ (if String.eqb (factContext x) key then [x] else []).
Proof. rewrite List.filter_app. reflexivity. Qed.

Lemma addToGroup_keys (x : RawFact) (groups : list (string * list RawFact)) :
  map fst (addToGroup (factContext x) x groups)
  = if existsb (String.eqb (factContext x)) (map fst groups)
    then map fst groups
    else map fst groups ++ [factContext x].
Proof.
  induction groups as [|[k xs] rest IH]; [reflexivity|].
  cbn [addToGroup map fst existsb].
  rewrite (String.eqb_sym (factContext x) k).
  destruct (String.eqb k (factContext x)); cbn [orb map fst]; [reflexivity|].
  rewrite IH. destruct (existsb _ _); reflexivity.
Qed.

Lemma existsb_In (key : string) (keys : list string) :
  existsb (String.eqb key) keys = true <-> In key keys.
Proof.
  rewrite existsb_exists. split.
  - intros (k & Hin & Heq). apply String.eqb_eq in Heq. now subst.
  - intros Hin. exists key. split; [assumption|apply String.eqb_refl].
Qed.

Lemma In_addToGroup (x : RawFact) (groups : list (string * list RawFact))
    (key : string) (members : list RawFact) :
  List.NoDup (map fst groups) ->
  In (key, members) (addToGroup (factContext x) x groups) ->
  (key <> factContext x /\ In (key, members) groups)
  \/ (key = factContext x
      /\ ((exists old, In (key, old) groups /\ members = old ++ [x])
          \/ (~ In key (map fst groups) /\ members = [x]))).
Proof.
  induction groups as [|[k xs] rest IH]; intros Hnd Hin.
  - cbn in Hin. destruct Hin as [Heq|[]]. inversion Heq; subst.
    right. split; [reflexivity|]. right. split; [intros []|reflexivity].
  - cbn [map fst] in Hnd. inversion Hnd as [|? ? Hnot Hnd']; subst.
    cbn [addToGroup] in Hin.
    destruct (String.eqb_spec k (factContext x)) as [Hk|Hk].
    + destruct Hin as [Heq|Hin].
      * inversion Heq; subst. right. split; [reflexivity|]. left.
        exists xs. split; [now left|reflexivity].
      * left. split; [|now right].
        intros ->. apply Hnot. rewrite Hk.
        change (factContext x) with (fst (factContext x, members)). now apply in_map.
    + destruct Hin as [Heq|Hin].
      * inversion Heq; subst. left. split; [assumption|now left].
      * destruct (IH Hnd' Hin) as [[Hne Hold]|[-> [(old & Hold & ->)|[Hnew ->]]]].
        -- left. split; [assumption|now right].
        -- right. split; [reflexivity|]. left. exists old. split; [now right|reflexivity].
        -- right. split; [reflexivity|]. right. split; [|reflexivity].
           cbn [map fst]. intros [Heq|Hin']; [congruence|contradiction].
Qed.

Lemma addToGroup_groupsOf (facts : list RawFact) (x : RawFact)
    (groups : list (string * list RawFact)) :
  groupsOf facts groups ->
  groupsOf (facts ++ [x]) (addToGroup (factContext x) x groups).
Proof.
  intros (Hnd & Hmem & Hcov).
  assert (Hkeys := addToGroup_keys x groups).
  split; [|split].
  - rewrite Hkeys. destruct (existsb _ _) eqn:E; [exact Hnd|].
    apply List.NoDup_app; [exact Hnd|repeat constructor; intros []|].
    intros k Hk [<-|[]]. apply existsb_In in Hk. congruence.
  - intros key members Hin.
    destruct (In_addToGroup x groups key members Hnd Hin)
      as [[Hne Hold]|[-> [(old & Hold & ->)|[Hnew ->]]]].
    + destruct (Hmem key members Hold) as [-> Hnonempty].
      rewrite filter_context_snoc.
      destruct (String.eqb_spec (factContext x) key); [congruence|].
      rewrite app_nil_r. split; [reflexivity|assumption].
    + destruct (Hmem _ old Hold) as [-> _].
      rewrite filter_context_snoc, String.eqb_refl. split; [reflexivity|].
      intros H. apply app_eq_nil in H. destruct H as [_ H]. discriminate.
    + rewrite filter_context_snoc, String.eqb_refl.
      assert (Hnone : List.filter (fun fact => String.eqb (factContext fact) (factContext x))
                                  facts = []).
      { destruct (List.filter _ facts) as [|f fs] eqn:Ef; [reflexivity|exfalso].
        assert (Hf : In f (List.filter
                             (fun fact => String.eqb (factContext fact) (factContext x))
                             facts)) by (rewrite Ef; now left).
        apply filter_In in Hf. destruct Hf as [Hf Heq].
        apply String.eqb_eq in Heq. apply Hnew. rewrite <- Heq. now apply Hcov. }
      rewrite Hnone. split; [reflexivity|discriminate].
  - intros fact Hin. rewrite Hkeys. apply in_app_or in Hin.
    destruct (existsb _ _) eqn:E.
    + destruct Hin as [Hin|[<-|[]]]; [now apply Hcov|now apply existsb_In].
    + apply in_or_app. destruct Hin as [Hin|[<-|[]]]; [left; now apply Hcov|].
      right. now left.
Qed.

Lemma fold_groupsOf (facts seen : list RawFact) (groups : list (string * list RawFact)) :
  groupsOf seen groups ->
  groupsOf (seen ++ facts)
           (fold_left (fun grouped item => addToGroup (factContext item) item grouped)
                      facts groups).
Proof.
  revert seen groups. induction facts as [|x facts IH]; intros seen groups H.
  - now rewrite app_nil_r.
  - cbn [fold_left].
    replace (seen ++ x :: facts) with ((seen ++ [x]) ++ facts)
      by now rewrite <- app_assoc.
    apply IH. now apply addToGroup_groupsOf.
Qed.

Lemma groupItems_groupsOf (facts : list RawFact) :
  groupsOf facts (groupItemsByContextAndType facts).
Proof.
  unfold groupItemsByContextAndType.
  apply (fold_groupsOf facts [] []).
  split; [constructor|]. split; [intros ? ? []|intros ? []].
Qed.

Lemma addToGroup_count (x : RawFact) (key : string)
    (groups : list (string * list RawFact)) :
  length (flat_map snd (addToGroup key x groups)) = S (length (flat_map snd groups)).
Proof.
  induction groups as [|[k xs] rest IH]; [reflexivity|].
  cbn [addToGroup]. destruct (String.eqb k key); cbn [flat_map snd].
  - rewrite !length_app. cbn [length]. lia.
  - rewrite !length_app, IH. lia.
Qed.

Lemma groupItems_count (facts : list RawFact) :
  length (flat_map snd (groupItemsByContextAndType facts)) = length facts.
Proof.
  unfold groupItemsByContextAndType.
  assert (H : forall groups,
            length (flat_map snd (fold_left (fun grouped item =>
                                       addToGroup (factContext item) item grouped)
                                    facts groups))
            = (length (flat_map snd groups) + length facts)%nat).
  { induction facts as [|x facts IH]; intros groups; cbn [fold_left length]; [lia|].
    rewrite IH, addToGroup_count. lia. }
  rewrite H. reflexivity.
Qed.

(** X22.  [groupItemsByContextAndType] partitions the facts by their
    context reference: the keys of the groups are distinct, the group of
    a key holds exactly the facts of that context in their order in the
    file, no group is empty, every fact's context has a group, and the
    groups together hold as many facts as the file: no fact is lost or
    duplicated.  Despite its name the grouping does not look at the kind
    of the facts. *)
Theorem xbrl_facts_are_partitioned_by_context (facts : list RawFact) :
  let groups := groupItemsByContextAndType facts in
  List.NoDup (map fst groups)
  /\ (forall key members, In (key, members) groups ->
        members = List.filter (fun fact => String.eqb (factContext fact) key) facts
        /\ members <> [])
  /\ (forall fact, In fact facts -> In (factContext fact) (map fst groups))
  /\ length (flat_map snd groups) = length facts.
Proof.
  cbv zeta. destruct (groupItems_groupsOf facts) as (H1 & H2 & H3).
  repeat split; try assumption.
  - now apply H2.
  - now apply (H2 key members).
  - apply groupItems_count.
Qed.

Lemma financialItemsFrom_items (context : string) (index : Z) (facts : list RawFact) :
  Forall2 (fun fact item =>
             concept item = factConcept fact
             /\ value item = factValue fact
             /\ itemConfidence item = Some 98
             /\ taxonomyMatch item
                = Some {| xbrlTag := factConcept fact;
                          taxonomyFramework :=
                            detectTaxonomyFramework (Some (factConcept fact));
                          confidence := 100;
                          mappingMethod := "exact_match";
                          synonyms := Some [] |})
          facts (financialItemsFrom context index facts).
Proof.
  revert index. induction facts as [|fact rest IH]; intros index; [constructor|].
  cbn [financialItemsFrom]. constructor; [|apply IH]. cbn. auto.
Qed.

Lemma convertGroups_items (h : Host) (groups : list (string * list RawFact)) :
  Forall2 (fun group statement =>
             length (items statement) = length (snd group)
             /\ Forall2 (fun fact item =>
                           concept item = factConcept fact
                           /\ value item = factValue fact
                           /\ itemConfidence item = Some 98
                           /\ taxonomyMatch item
                              = Some {| xbrlTag := factConcept fact;
                                        taxonomyFramework :=
                                          detectTaxonomyFramework
                                            (Some (factConcept fact));
                                        confidence := 100;
                                        mappingMethod := "exact_match";
                                        synonyms := Some [] |})
                        (snd group) (items statement)
             /\ fiscalQuarter statement = None
             /\ (periodEndDate statement, fiscalYear statement)
                = extractPeriodFromContext h (fst group))
          groups (convertGroupsToStatements h groups).
Proof.
  unfold convertGroupsToStatements.
  induction groups as [|[context facts] rest IH]; [constructor|].
  cbn [map]. constructor; [|exact IH].
  pose proof (financialItemsFrom_items context 0 facts) as H.
  cbn [items snd fst fiscalQuarter periodEndDate fiscalYear].
  split; [symmetry; eapply Forall2_length; exact H|].
  split; [exact H|]. split; [reflexivity|].
  destruct (extractPeriodFromContext h context); reflexivity.
Qed.

(** X23.  In a parsed XBRL document there is one statement per group of
    facts, in the order of the groups, with one item per fact in order:
    the item has the concept and the value of the fact, confidence 98 and
    as taxonomy match its own element name with confidence 100 and the
    method 'exact_match'.  No statement is empty, none has a fiscal
    quarter, the period of a statement is the one extracted from the
    context identifier, and the items together are as many as the facts.
    The document fails only when the extraction of the facts fails. *)
Theorem xbrl_statement_per_context (h : Host) (xbrlText : string) :
  match parseXBRLDocument h xbrlText with
  | JS.Throw e => exists e', extractFinancialItemsFromXBRL h xbrlText = JS.Throw e'
  | JS.Return parsed =>
      exists facts,
        extractFinancialItemsFromXBRL h xbrlText = JS.Return facts
        /\ length (flat_map items (statements parsed)) = length facts
        /\ List.Forall (fun statement => items statement <> []) (statements parsed)
        /\ Forall2 (fun group statement =>
                      Forall2 (fun fact item =>
                                 concept item = factConcept fact
                                 /\ value item = factValue fact
                                 /\ itemConfidence item = Some 98
                                 /\ taxonomyMatch item
                                    = Some {| xbrlTag := factConcept fact;
                                              taxonomyFramework :=
                                                detectTaxonomyFramework
                                                  (Some (factConcept fact));
                                              confidence := 100;
                                              mappingMethod := "exact_match";
                                              synonyms := Some [] |})
                              (snd group) (items statement)
                      /\ fiscalQuarter statement = None
                      /\ (periodEndDate statement, fiscalYear statement)
                         = extractPeriodFromContext h (fst group))
                   (groupItemsByContextAndType facts) (statements parsed)
  end.
Proof.
  unfold parseXBRLDocument.
  destruct (extractFinancialItemsFromXBRL h xbrlText) as [facts|e]; cbn [JS.bind];
    [|eauto].
  exists facts. split; [reflexivity|]. cbn [statements].
  pose proof (convertGroups_items h (groupItemsByContextAndType facts)) as H.
  destruct (groupItems_groupsOf facts) as (_ & Hmem & _).
  pose proof (groupItems_count facts) as Hcount.
  set (groups := groupItemsByContextAndType facts) in *. clearbody groups.
  split; [|split].
  - rewrite <- Hcount. clear Hmem Hcount.
    induction H as [|group statement gs sts (Hl & _) _ IH]; [reflexivity|].
    cbn [flat_map]. rewrite !length_app, Hl, IH. reflexivity.
  - clear Hcount.
    induction H as [|[key members] statement gs sts (Hl & _) _ IH]; [constructor|].
    constructor.
    + destruct (Hmem key members (or_introl eq_refl)) as [_ Hne].
      cbn [snd] in Hl. intros Hnil. rewrite Hnil in Hl.
      destruct members; [congruence|discriminate].
    + apply IH. intros k m Hin. apply Hmem. now right.
  - eapply Forall2_impl; [exact H|]. cbn beta. intros group statement (_ & H1 & H2 & H3).
    auto.
Qed.

End Grouping.

(** ** The choice of a parser *)

Section Factory.
Import ParserFactory.
Import Notions.

Lemma lowerChar_symbol (c : ascii) :
  JS.isAlnum c = false ->
  JS.between 97 122 (JS.lowerChar c) || JS.isDigit (JS.lowerChar c) = false.
Proof. destruct c as [[] [] [] [] [] [] [] []]; vm_compute; congruence. Qed.

Lemma lower_symbols (l : list ascii) :
  forallb (fun c => negb (JS.isAlnum c)) l = true ->
  forallb (fun c => negb (JS.between 97 122 c || JS.isDigit c)) (map JS.lowerChar l) = true.
Proof.
  induction l as [|c l IH]; [reflexivity|]. cbn [forallb map].
  intros H. apply andb_true_iff in H. destruct H as [Hc Hl].
  apply negb_true_iff in Hc. rewrite (lowerChar_symbol c Hc). cbn [negb andb]. auto.
Qed.

(** A text that starts with a lower-case letter or a digit is not a text
    of symbols. *)
Lemma head_differs (l : list ascii) (c : ascii) (rest : string) :
  forallb (fun c => negb (JS.between 97 122 c || JS.isDigit c)) l = true ->
  (JS.between 97 122 c || JS.isDigit c) = true ->
  JS.str l <> String c rest.
Proof.
  intros Hl Hc Heq. destruct l as [|x l]; [discriminate|].
  cbn in Heq. inversion Heq; subst x.
  cbn [forallb] in Hl. rewrite Hc in Hl. discriminate.
Qed.

Lemma registry_symbols (l : list ascii) :
  forallb (fun c => negb (JS.between 97 122 c || JS.isDigit c)) l = true ->
  parserFactory !! JS.str l = None.
Proof.
  intros Hl. unfold parserFactory, initializeParsers, registerParser.
  repeat match goal with
         | |- context [JS.toLowerCase ?s] =>
             let v := eval vm_compute in (JS.toLowerCase s) in
             change (JS.toLowerCase s) with v
         end.
  repeat (rewrite lookup_insert_ne;
          [|intros Heq; symmetry in Heq; revert Heq;
            apply head_differs; [exact Hl|reflexivity]]).
  first [apply lookup_empty | reflexivity | match goal with |- ?G => idtac G end].
Qed.

Lemma lookupKey_symbols (l : list ascii) (table : list (string * string)) :
  forallb (fun c => negb (JS.between 97 122 c || JS.isDigit c)) l = true ->
  List.Forall (fun kv => exists c rest,
                 fst kv = String c rest /\ JS.between 97 122 c || JS.isDigit c = true)
              table ->
  lookupKey (JS.str l) table = None.
Proof.
  intros Hl. induction 1 as [|[k v] table (c & rest & Hk & Hc) _ IH]; [reflexivity|].
  cbn [lookupKey]. cbn [fst] in Hk. subst k.
  destruct (String.eqb_spec (String c rest) (JS.str l)) as [Heq|_]; [|exact IH].
  exfalso. symmetry in Heq. revert Heq. now apply head_differs.
Qed.

Lemma blank_symbols (l : list ascii) :
  forallb (fun c => negb (JS.between 97 122 c || JS.isDigit c)) l = true ->
  JS.trim (blankOthers (JS.str l)) = ""%string.
Proof.
  intros Hl. unfold blankOthers, JS.trim. rewrite !chars_str.
  assert (Hs : forall l', forallb (fun c => negb (JS.between 97 122 c || JS.isDigit c)) l' = true ->
               JS.dropWhile JS.isWhiteSpace
                 (map (fun c => if JS.between 97 122 c || JS.isDigit c then c else " "%char)
                      l') = []).
  { induction l' as [|c l' IH]; [reflexivity|]. cbn [forallb map].
    intros H. apply andb_true_iff in H. destruct H as [Hc Hl'].
    apply negb_true_iff in Hc. rewrite Hc.
    cbn [JS.dropWhile]. change (JS.isWhiteSpace " ") with true. cbn iota. auto. }
  rewrite (Hs l Hl). reflexivity.
Qed.

Lemma lowerChar_idempotent (c : ascii) : JS.lowerChar (JS.lowerChar c) = JS.lowerChar c.
Proof. destruct c as [[] [] [] [] [] [] [] []]; reflexivity. Qed.

(** X24.  How the factory resolves a file type.  A file type that is,
    up to case, a key of the registry gets the parser registered there,
    whatever MIME type comes with it: the MIME type is consulted only
    after the direct lookup failed.  A file type without any letter or
    digit (the empty text, a dot, blanks) and without MIME type is not
    refused: its normalised form is empty, every pattern includes the
    empty text, and the first pattern of the fuzzy table, 'spreadsheet',
    answers with the Excel parser. *)
Theorem factory_resolution (fileType : string) :
  (forall parser mimeType,
     parserFactory !! JS.toLowerCase fileType = Some parser ->
     getParser parserFactory fileType mimeType = Some parser)
  /\ (symbolsOnly fileType = true ->
      getParser parserFactory fileType None = Some excelParser).
Proof.
  split.
  - intros parser mimeType H. unfold getParser. now rewrite H.
  - unfold symbolsOnly. intros Hs.
    pose proof (lower_symbols _ Hs) as Hl.
    unfold getParser. unfold JS.toLowerCase at 1.
    rewrite (registry_symbols _ Hl).
    assert (Hext : getParserByExtension parserFactory fileType = None).
    { unfold getParserByExtension.
      assert (Hclean : forall t, forallb (fun c => negb (JS.isAlnum c)) (JS.chars t) = true ->
                lookupKey (JS.toLowerCase t) extensionToTypeMap = None).
      { intros t Ht. unfold JS.toLowerCase. apply lookupKey_symbols.
        - now apply lower_symbols.
        - unfold extensionToTypeMap. repeat constructor; cbn [fst]; eauto. }
      destruct (JS.startsWith fileType ".").
      - rewrite Hclean; [reflexivity|]. rewrite chars_str.
        destruct (JS.chars fileType) as [|c l]; [reflexivity|].
        cbn [forallb tl] in *. apply andb_true_iff in Hs. tauto.
      - now rewrite Hclean. }
    rewrite Hext.
    unfold getParserByFuzzyMatch.
    replace (JS.toLowerCase (JS.toLowerCase fileType))
      with (JS.str (map JS.lowerChar (map JS.lowerChar (JS.chars fileType)))).
    2:{ unfold JS.toLowerCase. now rewrite chars_str. }
    rewrite map_map.
    rewrite (map_ext _ JS.lowerChar lowerChar_idempotent).
    rewrite (blank_symbols _ Hl).
    vm_compute. reflexivity.
Qed.

End Factory.

(** ** The conversion of a document *)

Section Conversion.
Import JobQueueService.
Import ConversionService.
Import Notions.

Lemma inProgress_step (jobId : string) (job : Job) (w w' : World) (p : Z) :
  inProgress jobId job w w' -> inProgress jobId job w (updateJobProgress jobId p w').
Proof.
  intros (Ht & Hc & job' & Hj & Hs & Hr & Ho).
  destruct (updateJobProgress_found jobId p w' job' Hj)
    as (job'' & Heq & Hj' & _ & Hs' & Hr' & Ho').
  split; [rewrite Heq; exact Ht|]. split; [rewrite Heq; exact Hc|].
  exists job''. split; [exact Hj'|]. split; [congruence|]. split; congruence.
Qed.

Lemma generateXBRL_returns (h : Host) (financialData : Types.FinancialData)
    (document : DocumentRow) (options : ConversionOptions) :
  exists xbrlResult, generateXBRL h financialData document options = JS.Return xbrlResult.
Proof.
  unfold generateXBRL, XBRLGenerator.generateXBRL.
  destruct (XBRLGenerator.generateBody _ _ _); cbn [JS.tryCatch]; eauto.
Qed.

(** The errors of the steps carry a message. *)
Lemma parseFinancialData_message (h : Host) (storageUrl fileName fileType : string)
    (e : JS.Error) :
  parseFinancialData h storageUrl fileName fileType = JS.Throw e ->
  JS.messageOf e <> ""%string.
Proof.
  unfold parseFinancialData.
  destruct (ParserFactory.getParser _ _ _) as [parser|]; cbn [JS.tryCatch].
  - destruct (parse h parser [] fileName); cbn [JS.tryCatch]; [discriminate|].
    intros [= <-]. discriminate.
  - intros [= <-]. discriminate.
Qed.

Lemma saveConversionResults_message (h : Host) (jobId : string)
    (financialData : Types.FinancialData) (xbrlResult : XBRLGenerator.GeneratedXBRL)
    (e : JS.Error) :
  saveConversionResults h jobId financialData xbrlResult = JS.Throw e ->
  JS.messageOf e <> ""%string.
Proof.
  unfold saveConversionResults.
  destruct (writeResults h jobId financialData xbrlResult); cbn [JS.tryCatch];
    [discriminate|]. intros [= <-]. discriminate.
Qed.

(** The outcome of the [try] block. *)
Lemma processBody_cases (h : Host) (jobId documentId : string)
    (options : ConversionOptions) (w : World) (job : Job) :
  getJob jobId w = Some job ->
  match processBody h jobId documentId options w with
  | (JS.Throw e, w') => inProgress jobId job w w' /\ JS.messageOf e <> ""%string
  | (JS.Return result, w') =>
      timers w' = timers w
      /\ success result = true /\ error result = None
      /\ exists url job',
           xbrlUrl result = Some url
           /\ getJob jobId w' = Some job'
           /\ status job' = completed /\ progress job' = 100
           /\ outputUrl job' = orUndefined url /\ retryCount job' = retryCount job
  end.
Proof.
  intros Hjob. unfold processBody.
  rewrite (updateJob_found jobId _ w job Hjob).
  set (w0 := {| jobs := _; timers := timers w; clock := clock w |}).
  assert (H0 : inProgress jobId job w w0).
  { split; [reflexivity|]. split; [reflexivity|]. eexists. split.
    - unfold getJob, w0; cbn [jobs]. apply lookup_insert_eq.
    - cbn. auto. }
  destruct (retrieveDocument h documentId) as [document|];
    [|split; [exact H0|discriminate]].
  pose proof (inProgress_step _ _ _ _ 10 H0) as H1.
  set (w1 := updateJobProgress jobId 10 w0) in *.
  destruct (parseFinancialData h _ _ _) as [financialData|e] eqn:Eparse;
    [|split; [exact H1|exact (parseFinancialData_message _ _ _ _ _ Eparse)]].
  destruct (Types.financialStatements financialData) as [|st sts] eqn:Est;
    [split; [exact H1|discriminate]|].
  pose proof (inProgress_step _ _ _ _ 30 H1) as H2.
  set (w2 := updateJobProgress jobId 30 w1) in *.
  pose proof (inProgress_step _ _ _ _ 60 H2) as H3.
  cbv zeta.
  set (w3 := updateJobProgress jobId 60 w2) in *.
  destruct (generateXBRL_returns h (mapToTaxonomy (database h) financialData)
              document options) as (xbrlResult & ->).
  pose proof (inProgress_step _ _ _ _ 80 H3) as H4.
  set (w4 := updateJobProgress jobId 80 w3) in *.
  destruct (saveConversionResults h jobId _ xbrlResult) as [outputUrl|e] eqn:Esave;
    [|split; [exact H4|exact (saveConversionResults_message _ _ _ _ _ Esave)]].
  pose proof (inProgress_step _ _ _ _ 100 H4) as H5.
  destruct H4 as (_ & _ & job4 & Hj4 & _).
  destruct (updateJobProgress_found jobId 100 w4 job4 Hj4)
    as (job5 & _ & Hj5 & Hp5 & _).
  set (w5 := updateJobProgress jobId 100 w4) in *.
  destruct H5 as (Ht5 & Hc5 & job5' & Hj5' & Hs5 & Hr5 & Ho5).
  rewrite Hj5 in Hj5'. inversion Hj5'; subst job5'.
  rewrite (updateJob_found jobId _ w5 job5 Hj5).
  cbn [success error xbrlUrl timers].
  split; [exact Ht5|]. split; [reflexivity|]. split; [reflexivity|].
  eexists outputUrl, _. split; [reflexivity|]. split.
  - unfold getJob; cbn [jobs]. apply lookup_insert_eq.
  - cbn. rewrite Hp5. repeat split; auto.
Qed.

(** X25.  The outcomes of [processDocument] for a job identifier that is
    the text of a uuid.  When no job has the identifier it throws 'Failed
    to mark job as failed: Job not found' and leaves the table as it is:
    the first update fails and the handler's own bookkeeping fails in its
    turn.  For a job of the table it always returns a result.  On
    success the result has no error and an address, the job is completed
    with progress 100 and that address as its output (read by
    [mapDbJobToJob]: an empty address reads as none), its retry count is
    the one it had and no timer is added.  On failure the result carries
    the error message, which is not empty, and no address, and the job
    went through the retry policy: with a retry count below 3 it is
    pending again with progress 0, one more retry and a timer of 5000 ms
    times the new count; otherwise it is failed with that message. *)
Theorem processDocument_outcomes (h : Host) (jobId documentId : string)
    (options : ConversionOptions) (w : World) :
  isUuid jobId = true ->
  match getJob jobId w with
  | None =>
      processDocument h jobId documentId options w
      = (JS.Throw (JS.ErrorObject "Failed to mark job as failed: Job not found"), w)
  | Some job =>
      exists result w' job',
        processDocument h jobId documentId options w = (JS.Return result, w')
        /\ getJob jobId w' = Some job'
        /\ if success result then
             error result = None
             /\ status job' = completed /\ progress job' = 100
             /\ (exists url, xbrlUrl result = Some url
                             /\ outputUrl job' = orUndefined url)
             /\ retryCount job' = retryCount job
             /\ timers w' = timers w
           else
             exists message,
               error result = Some message /\ message <> ""%string
               /\ xbrlUrl result = None
               /\ if retryCount job <? MAX_RETRIES then
                    status job' = pending /\ progress job' = 0
                    /\ retryCount job' = retryCount job + 1
                    /\ timers w'
                       = (jobId, RETRY_DELAY_MS * (retryCount job + 1)) :: timers w
                  else
                    status job' = failed /\ errorMessage job' = Some message
                    /\ retryCount job' = retryCount job
                    /\ timers w' = timers w
  end.
Proof.
  intros _.
  destruct (getJob jobId w) as [job|] eqn:Hjob.
  - pose proof (processBody_cases h jobId documentId options w job Hjob) as H.
    unfold processDocument.
    destruct (processBody h jobId documentId options w) as [[result|e] w'].
    + destruct H as (Ht & Hs & He & url & job' & Hu & Hj & Hst & Hp & Ho & Hr).
      exists result, w', job'. split; [reflexivity|]. split; [exact Hj|].
      rewrite Hs. repeat split; auto. exists url. auto.
    + destruct H as ((Ht & Hc & job1 & Hj1 & Hs1 & Hr1 & Ho1) & Hmsg).
      cbv zeta.
      destruct (Z.ltb_spec (retryCount job) MAX_RETRIES) as [Hlt|Hge].
      * destruct (fail_below_ceiling jobId (JS.messageOf e) w' job1 Hj1 ltac:(lia))
          as (j' & Hm & Hst & Hp & Hrc).
        rewrite Hm. eexists _, _, j'. split; [reflexivity|].
        split; [unfold getJob; cbn [jobs]; apply lookup_insert_eq|].
        cbn [success error xbrlUrl timers]. exists (JS.messageOf e).
        repeat split; auto; congruence.
      * destruct (fail_at_ceiling jobId (JS.messageOf e) w' job1 Hj1 ltac:(lia))
          as (j' & Hm & Hst & Hem & Hrc).
        rewrite Hm. eexists _, _, j'. split; [reflexivity|].
        split; [unfold getJob; cbn [jobs]; apply lookup_insert_eq|].
        cbn [success error xbrlUrl timers]. exists (JS.messageOf e).
        assert (Hsome : orUndefined (JS.messageOf e) = Some (JS.messageOf e)).
        { unfold orUndefined.
          destruct (String.eqb_spec (JS.messageOf e) ""); [contradiction|reflexivity]. }
        repeat split; auto; congruence.
  - unfold processDocument, processBody.
    rewrite (updateJob_missing jobId _ w Hjob). cbv zeta.
    unfold markJobAsFailed. rewrite Hjob. reflexivity.
Qed.

Lemma processDocument_outcomes_witness :
  processDocument Examples.conversionHost Examples.absentJobId
                  Examples.storedDocumentId Examples.defaultOptions Examples.freshWorld
  = (JS.Throw (JS.ErrorObject "Failed to mark job as failed: Job not found"),
     Examples.freshWorld).
Proof.
  assert (Hid : isUuid Examples.absentJobId = true) by (vm_compute; reflexivity).
  pose proof (processDocument_outcomes Examples.conversionHost Examples.absentJobId
                Examples.storedDocumentId Examples.defaultOptions
                Examples.freshWorld Hid) as H.
  assert (Hjob : getJob Examples.absentJobId Examples.freshWorld = None)
    by (vm_compute; reflexivity).
  rewrite Hjob in H. exact H.
Defined.

Lemma processDocument_failure (h : Host) (jobId documentId : string)
    (options : ConversionOptions) (w w1 : World) (job : Job) (e : JS.Error) :
  getJob jobId w = Some job ->
  processBody h jobId documentId options w = (JS.Throw e, w1) ->
  exists w',
    processDocument h jobId documentId options w
    = (JS.Return {| success := false; resultJobId := jobId;
                    resultDocumentId := documentId; xbrlUrl := None;
                    resultMetadata := None; error := Some (JS.messageOf e) |}, w').
Proof.
  intros Hjob Hbody.
  pose proof (processBody_cases h jobId documentId options w job Hjob) as H.
  unfold processDocument. rewrite Hbody in *. cbv zeta.
  destruct H as ((_ & _ & job1 & Hj1 & _) & _).
  destruct (Z.ltb_spec (retryCount job1) MAX_RETRIES) as [Hlt|Hge].
  - destruct (fail_below_ceiling jobId (JS.messageOf e) w1 job1 Hj1 Hlt) as (j' & -> & _).
    eauto.
  - destruct (fail_at_ceiling jobId (JS.messageOf e) w1 job1 Hj1 Hge) as (j' & -> & _).
    eauto.
Qed.

(** X26.  A conversion of a job of the table succeeds exactly when the
    document is found, the factory has a parser for its file type, the
    parser returns a report on the (empty) buffer with at least one
    statement, and the results are written: the taxonomy step and the
    generation never make it fail, since the generator turns its own
    failure into an empty document that is saved like any other. *)
Theorem conversion_succeeds_iff (h : Host) (jobId documentId : string)
    (options : ConversionOptions) (w : World) (job : Job) :
  getJob jobId w = Some job ->
  (exists result w',
     processDocument h jobId documentId options w = (JS.Return result, w')
     /\ success result = true)
  <-> exists document parser financialData xbrlResult url,
        retrieveDocument h documentId = Some document
        /\ ParserFactory.getParser ParserFactory.parserFactory
             (docFileType document) None = Some parser
        /\ parse h parser [] (docFileName document) = JS.Return financialData
        /\ Types.financialStatements financialData <> []
        /\ generateXBRL h (mapToTaxonomy (database h) financialData) document options
           = JS.Return xbrlResult
        /\ writeResults h jobId (mapToTaxonomy (database h) financialData) xbrlResult
           = JS.Return url.
Proof.
  intros Hjob.
  assert (Hbody :
    match processBody h jobId documentId options w with
    | (JS.Return _, _) =>
        exists document parser financialData xbrlResult url,
          retrieveDocument h documentId = Some document
          /\ ParserFactory.getParser ParserFactory.parserFactory
               (docFileType document) None = Some parser
          /\ parse h parser [] (docFileName document) = JS.Return financialData
          /\ Types.financialStatements financialData <> []
          /\ generateXBRL h (mapToTaxonomy (database h) financialData) document options
             = JS.Return xbrlResult
          /\ writeResults h jobId (mapToTaxonomy (database h) financialData) xbrlResult
             = JS.Return url
    | (JS.Throw _, _) =>
        ~ exists document parser financialData xbrlResult url,
          retrieveDocument h documentId = Some document
          /\ ParserFactory.getParser ParserFactory.parserFactory
               (docFileType document) None = Some parser
          /\ parse h parser [] (docFileName document) = JS.Return financialData
          /\ Types.financialStatements financialData <> []
          /\ generateXBRL h (mapToTaxonomy (database h) financialData) document options
             = JS.Return xbrlResult
          /\ writeResults h jobId (mapToTaxonomy (database h) financialData) xbrlResult
             = JS.Return url
    end).
  { unfold processBody. rewrite (updateJob_found jobId _ w job Hjob).
    set (w0 := {| jobs := _; timers := timers w; clock := clock w |}).
    destruct (retrieveDocument h documentId) as [document|] eqn:Ed.
    2:{ intros (d & p & fd & x & u & H & _). discriminate. }
    unfold parseFinancialData.
    destruct (ParserFactory.getParser ParserFactory.parserFactory
                (docFileType document) None) as [parser|] eqn:Ep; cbn [JS.tryCatch].
    2:{ intros (d & p & fd & x & u & H1 & H2 & _).
        inversion H1; subst d. congruence. }
    destruct (parse h parser [] (docFileName document)) as [financialData|e] eqn:Epar;
      cbn [JS.tryCatch].
    2:{ intros (d & p & fd & x & u & H1 & H2 & H3 & _).
        inversion H1; subst d. rewrite Ep in H2. inversion H2; subst p. congruence. }
    destruct (Types.financialStatements financialData) as [|st sts] eqn:Est.
    { intros (d & p & fd & x & u & H1 & H2 & H3 & H4 & _).
      inversion H1; subst d. rewrite Ep in H2. inversion H2; subst p.
      rewrite Epar in H3. inversion H3; subst fd. congruence. }
    cbv zeta.
    destruct (generateXBRL_returns h (mapToTaxonomy (database h) financialData)
                document options) as (xbrlResult & Hx).
    rewrite Hx. unfold saveConversionResults.
    destruct (writeResults h jobId (mapToTaxonomy (database h) financialData) xbrlResult)
      as [url|e] eqn:Ew; cbn [JS.tryCatch].
    - set (w5 := updateJobProgress jobId 100 _).
      destruct (updateJob jobId _ w5) as [[j|e] w6] eqn:Eu.
      + exists document, parser, financialData, xbrlResult, url.
        repeat split; auto. rewrite Est. discriminate.
      + exfalso.
        assert (Hj5 : exists job5, getJob jobId w5 = Some job5).
        { unfold w5.
          repeat match goal with
                 | |- exists j, getJob ?i (updateJobProgress ?i ?p ?w) = Some j =>
                     let H := fresh in
                     assert (H : exists j0, getJob i w = Some j0);
                     [|destruct H as (j0 & H);
                       destruct (updateJobProgress_found i p w j0 H) as (j1 & _ & H1 & _);
                       exists j1; exact H1]
                 end.
          eexists. unfold getJob, w0; cbn [jobs]. apply lookup_insert_eq. }
        destruct Hj5 as (job5 & Hj5).
        rewrite (updateJob_found jobId _ w5 job5 Hj5) in Eu. discriminate.
    - intros (d & p & fd & x & u & H1 & H2 & H3 & H4 & H5 & H6).
      inversion H1; subst d. rewrite Ep in H2. inversion H2; subst p.
      rewrite Epar in H3. inversion H3; subst fd.
      rewrite Hx in H5. inversion H5; subst x. congruence. }
  split.
  - intros (result & w' & Hp & Hs). unfold processDocument in Hp.
    destruct (processBody h jobId documentId options w) as [[r|e] w1] eqn:Eb.
    + exact Hbody.
    + exfalso. cbv zeta in Hp.
      destruct (markJobAsFailed jobId (JS.messageOf e) w1) as [[j|e'] w2];
        inversion Hp; subst. discriminate.
  - intros Hex.
    pose proof (processBody_cases h jobId documentId options w job Hjob) as Hc.
    unfold processDocument.
    destruct (processBody h jobId documentId options w) as [[r|e] w1].
    + exists r, w1. split; [reflexivity|]. tauto.
    + contradiction.
Qed.

Lemma conversion_succeeds_iff_witness :
  (exists result w',
     processDocument Examples.conversionHost Examples.queuedJobId
                     Examples.storedDocumentId Examples.defaultOptions Examples.freshWorld
     = (JS.Return result, w')
     /\ success result = true)
  <-> exists document parser financialData xbrlResult url,
        retrieveDocument Examples.conversionHost Examples.storedDocumentId = Some document
        /\ ParserFactory.getParser ParserFactory.parserFactory
             (docFileType document) None = Some parser
        /\ parse Examples.conversionHost parser [] (docFileName document)
           = JS.Return financialData
        /\ Types.financialStatements financialData <> []
        /\ generateXBRL Examples.conversionHost
             (mapToTaxonomy (database Examples.conversionHost) financialData)
             document Examples.defaultOptions
           = JS.Return xbrlResult
        /\ writeResults Examples.conversionHost Examples.queuedJobId
             (mapToTaxonomy (database Examples.conversionHost) financialData) xbrlResult
           = JS.Return url.
Proof.
  apply (conversion_succeeds_iff Examples.conversionHost Examples.queuedJobId
           Examples.storedDocumentId Examples.defaultOptions Examples.freshWorld
           Examples.freshJob).
  reflexivity.
Defined.

(** X27.  What a failed conversion of a job of the table reports.  The
    text of a uuid that no document has as its identifier gives
    'Document not found: ' and the identifier; a file type for which the
    factory has no parser gives
    'Failed to parse financial data: No parser available for file type: '
    and the type; an error of the parser comes back behind 'Failed to
    parse financial data: '; a report without statements gives 'No
    financial data could be extracted from the document', whatever
    errors the report lists; an error while the results are written
    comes back behind 'Failed to save conversion results: '.  In each
    case the result has neither address nor metadata. *)
Theorem conversion_failure_reports (h : Host) (jobId documentId : string)
    (options : ConversionOptions) (w : World) (job : Job) :
  getJob jobId w = Some job ->
  let failure message := fun outcome : JS.Outcome ConversionResult * World =>
    fst outcome
    = JS.Return {| success := false; resultJobId := jobId;
                   resultDocumentId := documentId; xbrlUrl := None;
                   resultMetadata := None; error := Some message |} in
  (isUuid documentId = true ->
   retrieveDocument h documentId = None ->
   failure ("Document not found: " ++ documentId)%string
           (processDocument h jobId documentId options w))
  /\ (forall document,
        retrieveDocument h documentId = Some document ->
        ParserFactory.getParser ParserFactory.parserFactory (docFileType document) None
        = None ->
        failure ("Failed to parse financial data: No parser available for file type: "
                 ++ docFileType document)%string
                (processDocument h jobId documentId options w))
  /\ (forall document parser,
        retrieveDocument h documentId = Some document ->
        ParserFactory.getParser ParserFactory.parserFactory (docFileType document) None
        = Some parser ->
        match parse h parser [] (docFileName document) with
        | JS.Throw e =>
            failure ("Failed to parse financial data: " ++ JS.messageOf e)%string
                    (processDocument h jobId documentId options w)
        | JS.Return financialData =>
            (Types.financialStatements financialData = [] ->
             failure noFinancialData (processDocument h jobId documentId options w))
            /\ (Types.financialStatements financialData <> [] ->
                forall xbrlResult e,
                  generateXBRL h (mapToTaxonomy (database h) financialData)
                               document options = JS.Return xbrlResult ->
                  writeResults h jobId (mapToTaxonomy (database h) financialData)
                               xbrlResult = JS.Throw e ->
                  failure ("Failed to save conversion results: " ++ JS.messageOf e)%string
                          (processDocument h jobId documentId options w))
        end).
Proof.
  intros Hjob. cbv zeta.
  assert (Hfail : forall e w1,
            processBody h jobId documentId options w = (JS.Throw e, w1) ->
            fst (processDocument h jobId documentId options w)
            = JS.Return {| success := false; resultJobId := jobId;
                           resultDocumentId := documentId; xbrlUrl := None;
                           resultMetadata := None; error := Some (JS.messageOf e) |}).
  { intros e w1 Hb.
    destruct (processDocument_failure h jobId documentId options w w1 job e Hjob Hb)
      as (w' & ->). reflexivity. }
  assert (Hstart := updateJob_found jobId
            {| newStatus := Some processing; newProgress := Some 0;
               newErrorMessage := None; newOutputUrl := None;
               newRetryCount := None; newCompletedAt := None |} w job Hjob).
  split; [|split].
  - intros _ Hdoc.
    apply (Hfail (JS.ErrorObject ("Document not found: " ++ documentId)%string)
                 (snd (updateJob jobId
                         {| newStatus := Some processing; newProgress := Some 0;
                            newErrorMessage := None; newOutputUrl := None;
                            newRetryCount := None; newCompletedAt := None |} w))).
    unfold processBody. rewrite Hstart, Hdoc. reflexivity.
  - intros document Hdoc Hparser.
    eapply (Hfail (JS.ErrorObject _)).
    unfold processBody. rewrite Hstart, Hdoc. unfold parseFinancialData.
    rewrite Hparser. cbn [JS.tryCatch JS.messageOf]. reflexivity.
  - intros document parser Hdoc Hparser.
    destruct (parse h parser [] (docFileName document)) as [financialData|e] eqn:Ep.
    + split.
      * intros Hnone. eapply (Hfail (JS.ErrorObject _)).
        unfold processBody. rewrite Hstart, Hdoc. unfold parseFinancialData.
        rewrite Hparser, Ep. cbn [JS.tryCatch]. rewrite Hnone. reflexivity.
      * intros Hsome xbrlResult e Hx Hw. eapply (Hfail (JS.ErrorObject _)).
        unfold processBody. rewrite Hstart, Hdoc. unfold parseFinancialData.
        rewrite Hparser, Ep. cbn [JS.tryCatch].
        destruct (Types.financialStatements financialData) as [|st sts];
          [congruence|].
        cbv zeta. rewrite Hx. unfold saveConversionResults. rewrite Hw.
        cbn [JS.tryCatch]. reflexivity.
    + eapply (Hfail (JS.ErrorObject _)).
      unfold processBody. rewrite Hstart, Hdoc. unfold parseFinancialData.
      rewrite Hparser, Ep. cbn [JS.tryCatch]. reflexivity.
Qed.

Lemma conversion_failure_reports_witness :
  fst (processDocument Examples.conversionHost Examples.queuedJobId
                       Examples.absentDocumentId Examples.defaultOptions
                       Examples.freshWorld)
  = JS.Return {| success := false; resultJobId := Examples.queuedJobId;
                 resultDocumentId := Examples.absentDocumentId; xbrlUrl := None;
                 resultMetadata := None;
                 error := Some ("Document not found: "
                                ++ Examples.absentDocumentId)%string |}.
Proof.
  refine (proj1 (conversion_failure_reports Examples.conversionHost Examples.queuedJobId
                   Examples.absentDocumentId Examples.defaultOptions
                   Examples.freshWorld Examples.freshJob _) _ _);
    vm_compute; reflexivity.
Defined.

End Conversion.
